(** * Support front-end: conversation engine, API client and ticket view-model

    A shallow embedding of the client-side logic of the support front-end
    (TypeScript) together with the properties its specification states
    about it.

    Source files embedded here:
    - [app/types/ticket.ts]   (categories, statuses, priorities, display names)
    - [app/types/chat.ts]     (conversation steps, messages, prompts, progress)
    - [app/types/api.ts]      (error taxonomy, [createApiError])
    - [app/lib/api.ts]        ([ApiClient.request], [handleApiResponse])
    - [app/lib/assistantLogic.ts] ([detectCategory], [generateIssueTitle],
                               [validateInput], [processUserInput])
    - [app/hooks/useTickets.ts] ([loadTickets], [loadMore], [updateTicket],
                               [filteredTickets])
    - [app/hooks/useChat.ts]  ([sendMessage], [createTicket])

    Conventions.
    - A JavaScript string is a sequence of UTF-16 code units.  The model
      uses [string], one [ascii] per code unit, and therefore covers the
      strings whose code units lie in U+0000..U+00FF; [length] is the
      JavaScript [length].  White space and case mapping are the ECMAScript
      ones restricted to that range.
    - [uuidv4()] and [new Date()] are effects: they are drawn from a [World]
      that is threaded through the code in source order.
    - [fetch] is an effect as well: the network is a script that tells what
      the n-th attempt of a request observes.
    - A JavaScript number is a double.  The numbers that the code counts
      with (attempts, delays, step indexes) are small integers, on which
      the arithmetic of [Z] is that of the code; the page number of the
      ticket list comes from the server, and its increment is rounded as
      the sum of two doubles is ([roundToDouble]).
    - What a server sends is not validated by the client.  A value has
      the type that TypeScript gives it; an error body has the type [any],
      and of it the model keeps what the client does with it: whether the
      body is [null], and for its [message] whether it is truthy and what
      its conversion to a string gives ([JsonProperty]). *)

From Stdlib Require Import String Ascii List ZArith QArith Qround Bool Arith Lia Sorted.
Import ListNotations.

Open Scope string_scope.
Open Scope list_scope.
Open Scope nat_scope.

(* ================================================================== *)
(** * JavaScript strings *)
(* ================================================================== *)

Module JsString.

(** ECMAScript [WhiteSpace] and [LineTerminator] code units below U+0100:
    TAB, LF, VT, FF, CR, SP and NBSP.  [String.prototype.trim] and the
    regular expression class [\s] both use this set. *)
Definition isWhiteSpace (c : ascii) : bool :=
  let n := nat_of_ascii c in
  ((9 <=? n) && (n <=? 13)) || (n =? 32) || (n =? 160).

Fixpoint trimStart (s : string) : string :=
  match s with
  | EmptyString => EmptyString
  | String c s' => if isWhiteSpace c then trimStart s' else s
  end.

Fixpoint trimEnd (s : string) : string :=
  match s with
  | EmptyString => EmptyString
  | String c s' =>
      match trimEnd s' with
      | EmptyString => if isWhiteSpace c then EmptyString else String c EmptyString
      | t => String c t
      end
  end.

(** [s.trim()] *)
Definition trim (s : string) : string := trimEnd (trimStart s).

(** [s.replace(/\s+/g, ' ')]: every maximal run of white space becomes one
    space.  [inRun] tells that the previous code unit was white space. *)
Fixpoint replaceWsRuns (inRun : bool) (s : string) : string :=
  match s with
  | EmptyString => EmptyString
  | String c s' =>
      if isWhiteSpace c
      then (if inRun then replaceWsRuns true s'
            else String " " (replaceWsRuns true s'))
      else String c (replaceWsRuns false s')
  end.

Definition collapseWhiteSpace (s : string) : string := replaceWsRuns false s.

(** [s.split(sep)] for a separator of one code unit; the result is never
    empty. *)
Fixpoint split (sep : ascii) (s : string) : list string :=
  match s with
  | EmptyString => [EmptyString]
  | String c s' =>
      if Ascii.eqb c sep then EmptyString :: split sep s'
      else match split sep s' with
           | [] => [String c EmptyString]
           | piece :: rest => String c piece :: rest
           end
  end.

(** [s.substring(from, to)] for [from <= to]. *)
Definition substring (from to : nat) (s : string) : string :=
  String.substring from (to - from) s.

(** [String.prototype.toLowerCase] on U+0000..U+00FF: A-Z and the
    letters U+00C0..U+00DE (without the multiplication sign U+00D7) move
    up by 32; every other code unit is its own lower case. *)
Definition toLowerCaseUnit (c : ascii) : ascii :=
  let n := nat_of_ascii c in
  if ((65 <=? n) && (n <=? 90))
     || ((192 <=? n) && (n <=? 222) && negb (n =? 215))
  then ascii_of_nat (n + 32) else c.

Fixpoint toLowerCase (s : string) : string :=
  match s with
  | EmptyString => EmptyString
  | String c s' => String (toLowerCaseUnit c) (toLowerCase s')
  end.

(** [hay.includes(needle)] *)
Fixpoint includes (hay needle : string) : bool :=
  String.prefix needle hay
  || match hay with
     | EmptyString => false
     | String _ hay' => includes hay' needle
     end.

(** The [Canonicalize] operation of a regular expression with the [i]
    flag (no [u] flag): the upper case of the code unit when that is one
    code unit, except that a non-ASCII unit is never mapped into ASCII.
    The result is a code unit value; two of them leave U+00FF
    (U+00B5 -> U+039C, U+00FF -> U+0178) and U+00DF has a two-unit upper
    case, hence stays. *)
Definition canonicalize (c : ascii) : nat :=
  let n := nat_of_ascii c in
  if (97 <=? n) && (n <=? 122) then n - 32
  else if (224 <=? n) && (n <=? 254) && negb (n =? 247) then n - 32
  else if n =? 181 then 924
  else if n =? 255 then 376
  else n.

(** A literal pattern matched against the whole of [s] under the [i]
    flag. *)
Fixpoint matchesIgnoreCase (pattern s : string) : bool :=
  match pattern, s with
  | EmptyString, EmptyString => true
  | String p pattern', String c s' =>
      (canonicalize p =? canonicalize c) && matchesIgnoreCase pattern' s'
  | _, _ => false
  end.

(** [/^(a1|a2|...|an)$/i.test(s)] for literal alternatives. *)
Definition testAnchoredAlternatives (alternatives : list string) (s : string) : bool :=
  existsb (fun a => matchesIgnoreCase a s) alternatives.

(** [a || b] on optional strings: [undefined] and the empty string are
    falsy. *)
Definition orElse (a : option string) (b : string) : string :=
  match a with
  | Some s => if String.eqb s "" then b else s
  | None => b
  end.

(** [xs.join(sep)] *)
Fixpoint join (sep : string) (xs : list string) : string :=
  match xs with
  | [] => ""
  | [x] => x
  | x :: rest => (x ++ sep ++ join sep rest)%string
  end.

End JsString.

Import JsString.

(* ================================================================== *)
(** * Effects: identifiers and the clock *)
(* ================================================================== *)

(** Milliseconds since the epoch. *)
Definition Date := Z.

(** The world answers the calls of [uuidv4()] and [new Date()]: the n-th
    call of each receives the n-th value of its source. *)
Record World := mkWorld {
  uuidSource : nat -> string;
  uuidCalls : nat;
  clockSource : nat -> Date;
  clockCalls : nat
}.

Definition Eff (A : Type) : Type := World -> A * World.

Definition ret {A} (a : A) : Eff A := fun w => (a, w).

Definition bind {A B} (m : Eff A) (k : A -> Eff B) : Eff B :=
  fun w => let (a, w') := m w in k a w'.

Notation "x <- m ;; k" := (bind m (fun x => k))
  (at level 61, m at next level, right associativity).

Definition uuidv4 : Eff string :=
  fun w => (uuidSource w (uuidCalls w),
            mkWorld (uuidSource w) (S (uuidCalls w)) (clockSource w) (clockCalls w)).

Definition newDate : Eff Date :=
  fun w => (clockSource w (clockCalls w),
            mkWorld (uuidSource w) (uuidCalls w) (clockSource w) (S (clockCalls w))).

Definition run {A} (m : Eff A) (w : World) : A := fst (m w).

(* ================================================================== *)
(** * [types/ticket.ts] *)
(* ================================================================== *)

Inductive TicketStatus := OPEN | IN_PROGRESS | RESOLVED | CLOSED.

Inductive TicketPriority := LOW | MEDIUM | HIGH | URGENT.

Inductive TicketCategory :=
| TECHNICAL | BILLING | ACCOUNT | FEATURE_REQUEST | BUG_REPORT | GENERAL | OTHER.

(** The string value of each member of the [TicketCategory] object. *)
Definition categoryValue (c : TicketCategory) : string :=
  match c with
  | TECHNICAL => "technical"
  | BILLING => "billing"
  | ACCOUNT => "account"
  | FEATURE_REQUEST => "feature_request"
  | BUG_REPORT => "bug_report"
  | GENERAL => "general"
  | OTHER => "other"
  end.

(** [Object.values(TicketCategory)], in declaration order. *)
Definition TicketCategory_values : list TicketCategory :=
  [TECHNICAL; BILLING; ACCOUNT; FEATURE_REQUEST; BUG_REPORT; GENERAL; OTHER].

Definition TicketStatus_eqb (a b : TicketStatus) : bool :=
  match a, b with
  | OPEN, OPEN | IN_PROGRESS, IN_PROGRESS | RESOLVED, RESOLVED | CLOSED, CLOSED => true
  | _, _ => false
  end.

Definition TicketPriority_eqb (a b : TicketPriority) : bool :=
  match a, b with
  | LOW, LOW | MEDIUM, MEDIUM | HIGH, HIGH | URGENT, URGENT => true
  | _, _ => false
  end.

Definition TicketCategory_eqb (a b : TicketCategory) : bool :=
  String.eqb (categoryValue a) (categoryValue b).

Record Ticket := mkTicket {
  t_id : string;
  t_userName : string;
  t_userEmail : option string;
  t_title : string;
  t_description : string;
  t_category : TicketCategory;
  t_status : TicketStatus;
  t_priority : TicketPriority;
  t_createdAt : Date;
  t_updatedAt : Date;
  t_resolvedAt : option Date;
  t_assignedTo : option string;
  t_tags : list string;
  t_conversationId : option string
}.

Record UpdateTicketData := mkUpdateTicketData {
  u_status : option TicketStatus;
  u_priority : option TicketPriority;
  u_assignedTo : option string;
  u_tags : option (list string)
}.

Record TicketFilter := mkTicketFilter {
  f_status : option (list TicketStatus);
  f_category : option (list TicketCategory);
  f_priority : option (list TicketPriority);
  f_assignedTo : option string;
  f_searchQuery : option string;
  f_dateFrom : option Date;
  f_dateTo : option Date
}.

(** [getCategoryDisplayName]; the argument is a string at run time (the
    conversation stores categories as strings), so the [default] arm is
    reachable. *)
Definition getCategoryDisplayName (category : string) : string :=
  if String.eqb category (categoryValue TECHNICAL) then "Technical Issue"
  else if String.eqb category (categoryValue BILLING) then "Billing & Payments"
  else if String.eqb category (categoryValue ACCOUNT) then "Account Management"
  else if String.eqb category (categoryValue FEATURE_REQUEST) then "Feature Request"
  else if String.eqb category (categoryValue BUG_REPORT) then "Bug Report"
  else if String.eqb category (categoryValue GENERAL) then "General Inquiry"
  else if String.eqb category (categoryValue OTHER) then "Other"
  else "Unknown".

(* ================================================================== *)
(** * [types/chat.ts] *)
(* ================================================================== *)

Inductive MessageRole := USER | ASSISTANT | SYSTEM.

Record Message := mkMessage {
  msg_id : string;
  msg_role : MessageRole;
  msg_content : string;
  msg_timestamp : Date;
  msg_metadata : option (list (string * string))
}.

Inductive ConversationStep :=
| GREETING
| COLLECT_NAME
| COLLECT_ISSUE
| CLARIFY_DETAILS
| SUGGEST_CATEGORY
| CONFIRM_CATEGORY
| FINAL_CONFIRMATION
| TICKET_CREATED
| ERROR.

Definition ConversationStep_eqb (a b : ConversationStep) : bool :=
  match a, b with
  | GREETING, GREETING
  | COLLECT_NAME, COLLECT_NAME
  | COLLECT_ISSUE, COLLECT_ISSUE
  | CLARIFY_DETAILS, CLARIFY_DETAILS
  | SUGGEST_CATEGORY, SUGGEST_CATEGORY
  | CONFIRM_CATEGORY, CONFIRM_CATEGORY
  | FINAL_CONFIRMATION, FINAL_CONFIRMATION
  | TICKET_CREATED, TICKET_CREATED
  | ERROR, ERROR => true
  | _, _ => false
  end.

Record CollectedData := mkCollectedData {
  userName : option string;
  userEmail : option string;
  issueDescription : option string;
  issueTitle : option string;
  suggestedCategory : option string;
  confirmedCategory : option string;
  additionalDetails : list string
}.

Record ConversationState := mkConversationState {
  conv_id : string;
  currentStep : ConversationStep;
  collectedData : CollectedData;
  messages : list Message;
  isComplete : bool;
  createdTicketId : option string;
  startedAt : Date;
  completedAt : option Date
}.

Inductive AIResponseType :=
| ty_question | ty_clarification | ty_category_suggestion | ty_confirmation
| ty_success | ty_error | ty_typing.

Record AIResponse := mkAIResponse {
  r_type : AIResponseType;
  r_content : string;
  r_nextStep : option ConversationStep;
  r_suggestions : option (list string);
  r_categoryOptions : option (list string);
  r_requiresInput : bool
}.

(** [AI_PROMPTS].  The two pictographs of the source text (a waving hand in
    [GREETING], a check mark in [TICKET_CREATED]) lie outside U+00FF and
    are written here by name between colons. *)
Module AI_PROMPTS.

Definition GREETING : string :=
  "Hi there! :waving_hand: I'm here to help you create a support ticket. To get started, could you please tell me your name?".

Definition COLLECT_ISSUE (name : string) : string :=
  ("Nice to meet you, " ++ name ++ "! Now, could you please describe the issue you're experiencing? Be as detailed as possible - this will help our support team assist you better.")%string.

Definition CLARIFY_DETAILS : string :=
  "Thank you for that information. Could you provide any additional details that might help us understand the issue better? For example, when did this start happening, or what steps led to this issue?".

Definition SUGGEST_CATEGORY (suggested : string) : string :=
  ("Based on your description, this seems like a **" ++ suggested ++ "** issue. Does this sound right to you? You can confirm this category or let me know if you think it should be categorized differently.")%string.

Definition FINAL_CONFIRMATION (userName issueTitle category : string) : string :=
  ("Perfect! Let me confirm the details for your support ticket:

**Name:** " ++ userName ++ "
**Issue:** " ++ issueTitle ++ "
**Category:** " ++ category ++ "

Does everything look correct? If yes, I'll create your support ticket right away!")%string.

Definition TICKET_CREATED (ticketId : string) : string :=
  (":check_mark: Great! Your support ticket has been created successfully.

**Ticket ID:** " ++ ticketId ++ "

Our support team will review your ticket and get back to you soon. You can reference this ticket ID in any future communications.

Is there anything else I can help you with today?")%string.

Definition ERROR : string :=
  "I apologize, but something went wrong. Let me try to help you in a different way. Could you please tell me what you were trying to do?".

Definition INVALID_INPUT : string :=
  "I didn't quite understand that. Could you please rephrase your response?".

Definition CATEGORY_OPTIONS : list string :=
  ["Technical Issue"; "Billing & Payments"; "Account Management";
   "Feature Request"; "Bug Report"; "General Inquiry"; "Other"].

Definition QUICK_REPLIES_YES : list string := ["Yes"; "Correct"; "That's right"].
Definition QUICK_REPLIES_NO : list string := ["No"; "Not quite"; "Different category"].
Definition QUICK_REPLIES_CONTINUE : list string := ["Continue"; "Next"; "Proceed"].
Definition QUICK_REPLIES_START_OVER : list string := ["Start over"; "Reset"; "Begin again"].

End AI_PROMPTS.

Definition isConversationComplete (step : ConversationStep) : bool :=
  ConversationStep_eqb step TICKET_CREATED.

(** [Math.round]: the integer nearest to [x], halves rounded up.  The
    source computes on IEEE doubles; at the eight quotients [i / 7 * 100]
    the double differs from the rational by less than 1e-13 while the
    rational is at least 1/14 away from every half-integer, so rounding the
    rational gives the same integer. *)
Definition Math_round (x : Q) : Z := Qfloor (x + (1 # 2))%Q.

(** [xs.indexOf(x)] with [-1] for absence. *)
Fixpoint indexOf {A} (eqb : A -> A -> bool) (x : A) (xs : list A) : Z :=
  match xs with
  | [] => (-1)%Z
  | y :: ys =>
      if eqb y x then 0%Z
      else let i := indexOf eqb x ys in
           if (i <? 0)%Z then (-1)%Z else (i + 1)%Z
  end.

Definition stepOrder : list ConversationStep :=
  [GREETING; COLLECT_NAME; COLLECT_ISSUE; CLARIFY_DETAILS;
   SUGGEST_CATEGORY; CONFIRM_CATEGORY; FINAL_CONFIRMATION; TICKET_CREATED].

(** [getProgressPercentage] as exported by [types/chat.ts]. *)
Definition chat_getProgressPercentage (step : ConversationStep) : Z :=
  if ConversationStep_eqb step ERROR then 0%Z
  else
    let currentIndex := indexOf ConversationStep_eqb step stepOrder in
    if (currentIndex >=? 0)%Z
    then Math_round ((inject_Z currentIndex / inject_Z (Z.of_nat (List.length stepOrder) - 1)) * inject_Z 100)%Q
    else 0%Z.

(* ================================================================== *)
(** * [lib/assistantLogic.ts]: the conversation flow engine *)
(* ================================================================== *)

Definition initializeConversation : Eff ConversationState :=
  conversationId <- uuidv4 ;;
  now <- newDate ;;
  greetingId <- uuidv4 ;;
  let greetingMessage :=
    mkMessage greetingId ASSISTANT AI_PROMPTS.GREETING now None in
  ret (mkConversationState
         conversationId
         GREETING
         (mkCollectedData None None None None None None [])
         [greetingMessage]
         false
         None
         now
         None).

(** ** Category detection *)

Definition technicalKeywords : list string :=
  ["login"; "password"; "error"; "bug"; "crash"; "broken"; "not working";
   "server"; "loading"; "slow"; "performance"; "database"; "api";
   "website"; "app"; "system"; "connection"; "timeout"; "code"].

Definition billingKeywords : list string :=
  ["payment"; "billing"; "charge"; "invoice"; "credit card"; "subscription";
   "refund"; "money"; "cost"; "price"; "fee"; "upgrade"; "downgrade"].

Definition accountKeywords : list string :=
  ["account"; "profile"; "settings"; "email"; "username"; "access";
   "permission"; "delete"; "update"; "change"; "modify"].

Definition featureKeywords : list string :=
  ["feature"; "request"; "suggest"; "improvement"; "enhancement";
   "add"; "new"; "wish"; "would like"; "could you"].

Definition bugKeywords : list string :=
  ["bug"; "issue"; "problem"; "error"; "glitch"; "malfunction";
   "defect"; "wrong"; "incorrect"; "unexpected"].

(** [keywords.filter(keyword => description.includes(keyword)).length] *)
Definition countMatches (keywords : list string) (description : string) : nat :=
  List.length (filter (fun keyword => includes description keyword) keywords).

(** The object literal [categoryScores]; its keys are not integer-like, so
    [Object.entries] lists them in the order they are written. *)
Definition categoryScores (description : string) : list (TicketCategory * nat) :=
  [(TECHNICAL, countMatches technicalKeywords description);
   (BILLING, countMatches billingKeywords description);
   (ACCOUNT, countMatches accountKeywords description);
   (FEATURE_REQUEST, countMatches featureKeywords description);
   (BUG_REPORT, countMatches bugKeywords description);
   (GENERAL, 0);
   (OTHER, 0)].

(** [scores[key]]; every key that is looked up is present. *)
Fixpoint scoreAt (scores : list (TicketCategory * nat)) (key : TicketCategory) : nat :=
  match scores with
  | [] => 0
  | (k, v) :: rest => if TicketCategory_eqb k key then v else scoreAt rest key
  end.

(** [xs.reduce(f)] without an initial value; on an empty array the source
    would raise a [TypeError], which is [None] here. *)
Definition reduce {A} (f : A -> A -> A) (xs : list A) : option A :=
  match xs with
  | [] => None
  | x :: rest => Some (fold_left f rest x)
  end.

Definition detectCategory (issueDescription : string) : TicketCategory :=
  let description := toLowerCase issueDescription in
  let scores := categoryScores description in
  match reduce (fun a b => if scoreAt scores (fst b) <? scoreAt scores (fst a) then a else b)
               scores with
  | Some topCategory => if 0 <? snd topCategory then fst topCategory else GENERAL
  | None => GENERAL
  end.

(** ** Title derivation *)

Definition generateIssueTitle (description : string) : string :=
  let cleaned := collapseWhiteSpace (trim description) in
  if String.length cleaned <=? 60 then cleaned
  else
    let firstSentence := hd "" (split "." cleaned) in
    if String.length firstSentence <=? 60 then firstSentence
    else (trim (substring 0 50 cleaned) ++ "...")%string.

(** ** Input validation *)

Definition validateInput (input : string) (step : ConversationStep) : bool :=
  let trimmedInput := trim input in
  match step with
  | COLLECT_NAME => (2 <=? String.length trimmedInput) && (String.length trimmedInput <=? 50)
  | COLLECT_ISSUE => 10 <=? String.length trimmedInput
  | CLARIFY_DETAILS => 5 <=? String.length trimmedInput
  | CONFIRM_CATEGORY => true
  | FINAL_CONFIRMATION => true
  | _ => true
  end.

(** ** Processing one user input *)

(** The [let] variables of [processUserInput] that the [switch] assigns. *)
Record Locals := mkLocals {
  updatedCollectedData : CollectedData;
  nextStep : ConversationStep;
  aiResponseContent : string;
  aiResponseType : AIResponseType;
  suggestions : list string;
  categoryOptions : list string
}.

Definition set_userName (v : string) (d : CollectedData) : CollectedData :=
  mkCollectedData (Some v) (userEmail d) (issueDescription d) (issueTitle d)
                  (suggestedCategory d) (confirmedCategory d) (additionalDetails d).

Definition set_issueDescription (v : string) (d : CollectedData) : CollectedData :=
  mkCollectedData (userName d) (userEmail d) (Some v) (issueTitle d)
                  (suggestedCategory d) (confirmedCategory d) (additionalDetails d).

Definition set_issueTitle (v : string) (d : CollectedData) : CollectedData :=
  mkCollectedData (userName d) (userEmail d) (issueDescription d) (Some v)
                  (suggestedCategory d) (confirmedCategory d) (additionalDetails d).

Definition set_suggestedCategory (v : option string) (d : CollectedData) : CollectedData :=
  mkCollectedData (userName d) (userEmail d) (issueDescription d) (issueTitle d)
                  v (confirmedCategory d) (additionalDetails d).

Definition set_confirmedCategory (v : option string) (d : CollectedData) : CollectedData :=
  mkCollectedData (userName d) (userEmail d) (issueDescription d) (issueTitle d)
                  (suggestedCategory d) v (additionalDetails d).

(** [d.additionalDetails.push(v)].  The array is shared with the
    conversation that was passed in (the spread copies one level only);
    the model returns the new contents and does not track the alias. *)
Definition push_additionalDetails (v : string) (d : CollectedData) : CollectedData :=
  mkCollectedData (userName d) (userEmail d) (issueDescription d) (issueTitle d)
                  (suggestedCategory d) (confirmedCategory d) (additionalDetails d ++ [v]).

(** [getCategoryDisplayName(c as TicketCategoryType)] for an optional [c]:
    [undefined] takes the [default] arm of the [switch]. *)
Definition displayNameOfOptional (c : option string) : string :=
  match c with
  | Some category => getCategoryDisplayName category
  | None => "Unknown"
  end.

(** A template literal prints [undefined] for an absent value. *)
Definition interpolate (v : option string) : string :=
  match v with Some s => s | None => "undefined" end.

(** [x.toLowerCase() === y.toLowerCase()] for some quick reply [x]. *)
Definition isQuickReplyYes (trimmedInput : string) : bool :=
  existsb (fun reply => String.eqb (toLowerCase reply) (toLowerCase trimmedInput))
          AI_PROMPTS.QUICK_REPLIES_YES.

(** [/^(yes|y|correct|right|ok|okay|sure|yep|yeah)$/i.test(input) || ...] *)
Definition isPositiveResponse (trimmedInput : string) : bool :=
  testAnchoredAlternatives
    ["yes"; "y"; "correct"; "right"; "ok"; "okay"; "sure"; "yep"; "yeah"] trimmedInput
  || isQuickReplyYes trimmedInput.

(** [/^(yes|y|correct|create|submit|ok|okay|sure|yep|yeah)$/i.test(input) || ...] *)
Definition isConfirmed (trimmedInput : string) : bool :=
  testAnchoredAlternatives
    ["yes"; "y"; "correct"; "create"; "submit"; "ok"; "okay"; "sure"; "yep"; "yeah"] trimmedInput
  || isQuickReplyYes trimmedInput.

Definition mentionedCategory (trimmedInput : string) : option TicketCategory :=
  find (fun category =>
          includes (toLowerCase trimmedInput) (categoryValue category)
          || includes (toLowerCase trimmedInput)
                      (toLowerCase (getCategoryDisplayName (categoryValue category))))
       TicketCategory_values.

(** The [switch] of [processUserInput]; [init] holds the values the
    locals have before it. *)
Definition processStep (currentStep : ConversationStep) (trimmedInput : string)
           (init : Locals) : Eff Locals :=
  let data := updatedCollectedData init in
  match currentStep with
  | GREETING | COLLECT_NAME =>
      if validateInput trimmedInput COLLECT_NAME then
        ret (mkLocals (set_userName trimmedInput data)
                      COLLECT_ISSUE
                      (AI_PROMPTS.COLLECT_ISSUE trimmedInput)
                      (aiResponseType init) (suggestions init) (categoryOptions init))
      else
        ret (mkLocals data (nextStep init)
                      "Please provide a valid name (2-50 characters)."
                      (aiResponseType init) (suggestions init) (categoryOptions init))
  | COLLECT_ISSUE =>
      if validateInput trimmedInput COLLECT_ISSUE then
        ret (mkLocals (set_issueTitle (generateIssueTitle trimmedInput)
                         (set_issueDescription trimmedInput data))
                      CLARIFY_DETAILS
                      AI_PROMPTS.CLARIFY_DETAILS
                      (aiResponseType init) (suggestions init) (categoryOptions init))
      else
        ret (mkLocals data (nextStep init)
                      "Please provide more details about your issue (at least 10 characters)."
                      (aiResponseType init) (suggestions init) (categoryOptions init))
  | CLARIFY_DETAILS =>
      if validateInput trimmedInput CLARIFY_DETAILS then
        let data1 := push_additionalDetails trimmedInput data in
        let fullDescription :=
          (interpolate (issueDescription data1) ++ " " ++ trimmedInput)%string in
        let detectedCategory := detectCategory fullDescription in
        ret (mkLocals (set_suggestedCategory (Some (categoryValue detectedCategory)) data1)
                      SUGGEST_CATEGORY
                      (AI_PROMPTS.SUGGEST_CATEGORY
                         (getCategoryDisplayName (categoryValue detectedCategory)))
                      ty_category_suggestion
                      (AI_PROMPTS.QUICK_REPLIES_YES ++ AI_PROMPTS.QUICK_REPLIES_NO)
                      (categoryOptions init))
      else
        ret (mkLocals data (nextStep init)
                      "Please provide some additional details to help us better understand your issue."
                      (aiResponseType init) (suggestions init) (categoryOptions init))
  | SUGGEST_CATEGORY | CONFIRM_CATEGORY =>
      if isPositiveResponse trimmedInput then
        ret (mkLocals (set_confirmedCategory (suggestedCategory data) data)
                      FINAL_CONFIRMATION
                      (AI_PROMPTS.FINAL_CONFIRMATION
                         (orElse (userName data) "User")
                         (orElse (issueTitle data) "Support Request")
                         (displayNameOfOptional (suggestedCategory data)))
                      ty_confirmation
                      (AI_PROMPTS.QUICK_REPLIES_YES ++ ["Make changes"])
                      (categoryOptions init))
      else
        match mentionedCategory trimmedInput with
        | Some mentioned =>
            ret (mkLocals (set_confirmedCategory (Some (categoryValue mentioned))
                             (set_suggestedCategory (Some (categoryValue mentioned)) data))
                          FINAL_CONFIRMATION
                          (AI_PROMPTS.FINAL_CONFIRMATION
                             (orElse (userName data) "User")
                             (orElse (issueTitle data) "Support Request")
                             (getCategoryDisplayName (categoryValue mentioned)))
                          ty_confirmation
                          (suggestions init)
                          AI_PROMPTS.CATEGORY_OPTIONS)
        | None =>
            ret (mkLocals data
                          CONFIRM_CATEGORY
                          "No problem! Which category would better describe your issue?"
                          ty_category_suggestion
                          (suggestions init)
                          AI_PROMPTS.CATEGORY_OPTIONS)
        end
  | FINAL_CONFIRMATION =>
      if isConfirmed trimmedInput then
        ticketId <- uuidv4 ;;
        ret (mkLocals (set_confirmedCategory
                         (Some (orElse (confirmedCategory data) (categoryValue GENERAL)))
                         (set_issueTitle (orElse (issueTitle data) "Support Request") data))
                      TICKET_CREATED
                      (AI_PROMPTS.TICKET_CREATED ticketId)
                      ty_success
                      (suggestions init) (categoryOptions init))
      else
        ret (mkLocals data
                      COLLECT_NAME
                      "What would you like to change? You can modify your name, issue description, or category."
                      (aiResponseType init)
                      ["Change name"; "Change description"; "Change category"; "Start over"]
                      (categoryOptions init))
  | _ =>
      ret (mkLocals data (nextStep init) AI_PROMPTS.ERROR ty_error
                    (suggestions init) (categoryOptions init))
  end.

(** [xs.length > 0 ? xs : undefined] *)
Definition nonEmptyOrUndefined (xs : list string) : option (list string) :=
  match xs with [] => None | _ => Some xs end.

Definition processUserInput (userInput : string) (currentConversation : ConversationState)
  : Eff (ConversationState * AIResponse) :=
  let trimmedInput := trim userInput in
  let currentStep := currentStep currentConversation in
  userMessageId <- uuidv4 ;;
  userMessageTime <- newDate ;;
  let userMessage := mkMessage userMessageId USER trimmedInput userMessageTime None in
  let updatedMessages := messages currentConversation ++ [userMessage] in
  locals <- processStep currentStep trimmedInput
              (mkLocals (collectedData currentConversation) currentStep "" ty_question [] []) ;;
  aiMessageId <- uuidv4 ;;
  aiMessageTime <- newDate ;;
  let aiMessage :=
    mkMessage aiMessageId ASSISTANT (aiResponseContent locals) aiMessageTime None in
  let aiResponse :=
    mkAIResponse (aiResponseType locals)
                 (aiResponseContent locals)
                 (Some (nextStep locals))
                 (nonEmptyOrUndefined (suggestions locals))
                 (nonEmptyOrUndefined (categoryOptions locals))
                 (negb (ConversationStep_eqb (nextStep locals) TICKET_CREATED)) in
  completedTime <- (if isConversationComplete (nextStep locals)
                    then (now <- newDate ;; ret (Some now))
                    else ret None) ;;
  let updatedConversation :=
    mkConversationState
      (conv_id currentConversation)
      (nextStep locals)
      (updatedCollectedData locals)
      (updatedMessages ++ [aiMessage])
      (isConversationComplete (nextStep locals))
      (createdTicketId currentConversation)
      (startedAt currentConversation)
      completedTime in
  ret (updatedConversation, aiResponse).

(** The private [getProgressPercentage] of [lib/assistantLogic.ts], used by
    [getConversationSummary]; it repeats the one of [types/chat.ts]. *)
Definition getProgressPercentage (step : ConversationStep) : Z :=
  if ConversationStep_eqb step ERROR then 0%Z
  else
    let stepOrder :=
      [GREETING; COLLECT_NAME; COLLECT_ISSUE; CLARIFY_DETAILS;
       SUGGEST_CATEGORY; CONFIRM_CATEGORY; FINAL_CONFIRMATION; TICKET_CREATED] in
    let currentIndex := indexOf ConversationStep_eqb step stepOrder in
    if (currentIndex >=? 0)%Z
    then Math_round ((inject_Z currentIndex / inject_Z (Z.of_nat (List.length stepOrder) - 1)) * inject_Z 100)%Q
    else 0%Z.

(* ================================================================== *)
(** * [types/api.ts] and [lib/api.ts]: the API client *)
(* ================================================================== *)

Inductive ApiErrorType :=
| VALIDATION_ERROR | NOT_FOUND | UNAUTHORIZED | FORBIDDEN
| INTERNAL_ERROR | NETWORK_ERROR | TIMEOUT.

(** A [Record<string, any>]; a value is absent when it is [undefined]. *)
Definition Details := list (string * option string).

Record ApiError := mkApiError {
  e_type : ApiErrorType;
  e_message : string;
  e_details : option Details;
  e_code : option string;
  e_timestamp : Date
}.

Definition createApiError (type : ApiErrorType) (message : string)
           (details : option Details) (code : option string) : Eff ApiError :=
  now <- newDate ;;
  ret (mkApiError type message details code now).

(** [class ApiClientError extends Error] *)
Record ApiClientError := mkApiClientError {
  ace_message : string;
  ace_type : ApiErrorType;
  ace_details : option Details;
  ace_code : option string;
  ace_status : option Z
}.

(** [new ApiClientError(error, status)] *)
Definition newApiClientError (error : ApiError) (status : option Z) : ApiClientError :=
  mkApiClientError (e_message error) (e_type error) (e_details error) (e_code error) status.

(** Any other [Error] (a [TypeError] of [fetch], an abort, a
    [SyntaxError] of the JSON parser). *)
Record JsError := mkJsError {
  err_name : string;
  err_message : string
}.

(** What a [catch] clause can receive. *)
Inductive Thrown :=
| ThrownApiClientError (e : ApiClientError)
| ThrownError (e : JsError).

Module API_CONFIG.
Definition timeout : Z := 30000.
Definition retries : Z := 1.
End API_CONFIG.

(** A property of the error body as the client uses it.  The client
    tests the value with [||] and hands it to the [Error] constructor,
    which converts it to a string: [prop_truthy] is the outcome of the
    test and [prop_string] that of the conversion.  The two are
    independent: [[]] is truthy and converts to the empty string, [0] is
    falsy and converts to ["0"], and the conversion of an object whose
    [toString] and [valueOf] are not functions throws a [TypeError]. *)
Record JsonProperty := mkJsonProperty {
  prop_truthy : bool;
  prop_string : JsError + string
}.

(** The value [response.json()] resolves with.  [T] is the type the caller
    casts a successful body to.  Of a non-null value the client reads the
    properties [message], [details] and [code]; [message] is [None] when
    the value has no such property. *)
Inductive JsonBody (T : Type) :=
| JsonNull
| JsonValue (value : T) (message : option JsonProperty)
            (details : option Details) (code : option string).
Arguments JsonNull {T}.
Arguments JsonValue {T}.

(** What one call of [fetch] followed by [response.json()] observes. *)
Inductive FetchResult (T : Type) :=
| FetchRejects (e : JsError)
| FetchResolves (status : Z) (statusText : string) (json : JsError + JsonBody T).
Arguments FetchRejects {T}.
Arguments FetchResolves {T}.

(** [response.ok] *)
Definition response_ok (status : Z) : bool :=
  ((200 <=? status) && (status <=? 299))%Z.

Definition getErrorType (status : Z) : ApiErrorType :=
  if (status =? 400)%Z then VALIDATION_ERROR
  else if (status =? 401)%Z then UNAUTHORIZED
  else if (status =? 403)%Z then FORBIDDEN
  else if (status =? 404)%Z then NOT_FOUND
  else if (status =? 408)%Z then TIMEOUT
  else if (status >=? 500)%Z then INTERNAL_ERROR
  else INTERNAL_ERROR.

(** The [TypeError] of reading a property of [null] (the text is the one
    of V8). *)
Definition nullPropertyError : JsError :=
  mkJsError "TypeError" "Cannot read properties of null (reading 'message')".

(** [errorData.message || response.statusText || 'Request failed'], as the
    string that [super(error.message)] makes of it, or the error that the
    conversion throws. *)
Definition errorMessage (message : option JsonProperty) (statusText : string)
  : JsError + string :=
  match message with
  | Some p =>
      if prop_truthy p then prop_string p
      else inr (orElse (Some statusText) "Request failed")
  | None => inr (orElse (Some statusText) "Request failed")
  end.

(** [createApiError(...)] followed by [throw new ApiClientError(apiError,
    response.status)]: the timestamp is taken before the constructor
    converts the message. *)
Definition throwApiClientError (status : Z) (message : JsError + string)
           (details : option Details) (code : option string) : Eff Thrown :=
  match message with
  | inr text =>
      apiError <- createApiError (getErrorType status) text details code ;;
      ret (ThrownApiClientError (newApiClientError apiError (Some status)))
  | inl e =>
      _ <- newDate ;;
      ret (ThrownError e)
  end.

(** The body of the [try] block for one attempt: the value returned, or
    what it throws. *)
Definition attemptBody {T} (r : FetchResult T) : Eff (option T + Thrown) :=
  match r with
  | FetchRejects e => ret (inr (ThrownError e))
  | FetchResolves status statusText json =>
      if negb (response_ok status) then
        match json with
        | inl _ =>
            (* [.catch(() => ({}))]: the error data is an empty object *)
            error <- throwApiClientError status (errorMessage None statusText) None None ;;
            ret (inr error)
        | inr JsonNull =>
            (* [errorData.message] on [null] *)
            ret (inr (ThrownError nullPropertyError))
        | inr (JsonValue _ message details code) =>
            error <- throwApiClientError status (errorMessage message statusText)
                       details code ;;
            ret (inr error)
        end
      else
        match json with
        | inl e => ret (inr (ThrownError e))
        | inr JsonNull => ret (inl None)
        | inr (JsonValue value _ _ _) => ret (inl (Some value))
        end
  end.

(** What the run of a request does that an observer outside can see. *)
Inductive Event :=
| Fetch (attempt : Z)
| Sleep (ms : Z).

Inductive Completion (T : Type) :=
| Returns (data : option T)
| Throws (e : ApiClientError).
Arguments Returns {T}.
Arguments Throws {T}.

(** [error instanceof ApiClientError && error.status && error.status < 500] *)
Definition isClientError (error : Thrown) : option ApiClientError :=
  match error with
  | ThrownApiClientError e =>
      match ace_status e with
      | Some status => if negb (status =? 0)%Z && (status <? 500)%Z then Some e else None
      | None => None
      end
  | ThrownError _ => None
  end.

(** The statements after the loop. *)
Definition afterRetries {T} (lastError : option Thrown) : Eff (Completion T) :=
  match lastError with
  | Some (ThrownApiClientError e) => ret (Throws e)
  | Some (ThrownError e) =>
      networkError <- createApiError NETWORK_ERROR
                        (orElse (Some (err_message e)) "Network request failed")
                        (Some [("originalError", Some (err_name e))]) None ;;
      ret (Throws (newApiClientError networkError None))
  | None =>
      networkError <- createApiError NETWORK_ERROR "Network request failed"
                        (Some [("originalError", None)]) None ;;
      ret (Throws (newApiClientError networkError None))
  end.

(** The values [attempt] takes in
    [for (let attempt = 0; attempt <= retries; attempt++)]. *)
Definition attemptRange (retries : Z) : list Z :=
  map Z.of_nat (seq 0 (Z.to_nat (retries + 1))).

Section Request.

Context {T : Type}.

(** The network: what the fetch of each attempt observes. *)
Variable network : Z -> FetchResult T.
Variable retries : Z.

(** The loop over the attempts still to make; [trace] is what has
    happened so far. *)
Fixpoint retryLoop (attempts : list Z) (lastError : option Thrown) (trace : list Event)
  : Eff (Completion T * list Event) :=
  match attempts with
  | [] =>
      c <- afterRetries lastError ;;
      ret (c, trace)
  | attempt :: rest =>
      let trace := trace ++ [Fetch attempt] in
      outcome <- attemptBody (network attempt) ;;
      match outcome with
      | inl responseData => ret (Returns responseData, trace)
      | inr error =>
          match isClientError error with
          | Some e => ret (Throws e, trace)
          | None =>
              if (attempt =? retries)%Z then
                c <- afterRetries (Some error) ;;
                ret (c, trace)
              else
                let delay := (1000 * (attempt + 1))%Z in
                retryLoop rest (Some error) (trace ++ [Sleep delay])
          end
      end
  end.

(** [ApiClient.request]: its completion and its trace. *)
Definition request : Eff (Completion T * list Event) :=
  retryLoop (attemptRange retries) None [].

End Request.

(** [{ data, error }] of [handleApiResponse] *)
Record Handled (T : Type) := mkHandled {
  h_data : option T;
  h_error : option ApiError
}.
Arguments mkHandled {T}.
Arguments h_data {T}.
Arguments h_error {T}.

(** [handleApiResponse] applied to a call that completes with [c]; every
    call of the client throws an [ApiClientError] only, so the second
    [return] of the [catch] clause is not reached. *)
Definition handleApiResponse {T} (c : Completion T) : Eff (Handled T) :=
  match c with
  | Returns data => ret (mkHandled data None)
  | Throws error =>
      now <- newDate ;;
      ret (mkHandled None
             (Some (mkApiError (ace_type error) (ace_message error)
                               (ace_details error) (ace_code error) now)))
  end.

(* ================================================================== *)
(** * [hooks/useTickets.ts]: the ticket view-model *)
(* ================================================================== *)

(** [Pagination] of [types/api.ts]; its numbers are integers. *)
Record Pagination := mkPagination {
  page : Z;
  limit : Z;
  total : option Z;
  totalPages : option Z;
  hasNext : option bool;
  hasPrev : option bool
}.

Definition DEFAULT_PAGE_SIZE : Z := 20.

Definition DEFAULT_PAGINATION : Pagination :=
  mkPagination 1 DEFAULT_PAGE_SIZE (Some 0%Z) (Some 0%Z) (Some false) (Some false).

Inductive SortBy := createdAt | updatedAt | by_priority | by_status.
Inductive SortOrder := asc | desc.

(** The body of a [GetTicketsResponse]: [data.data.data] and
    [data.data.pagination]. *)
Record GetTicketsResponse := mkGetTicketsResponse {
  gt_tickets : list Ticket;
  gt_pagination : Pagination
}.

(** The body of an [UpdateTicketResponse]: [data.data]. *)
Record UpdateTicketResponse := mkUpdateTicketResponse {
  ut_ticket : Ticket
}.

(** The React state of the hook. *)
Record TicketsState := mkTicketsState {
  tickets : list Ticket;
  isLoading : bool;
  error : option string;
  pagination : Pagination;
  filters : TicketFilter;
  searchQuery : string;
  sortBy : SortBy;
  sortOrder : SortOrder
}.

Definition setTickets (v : list Ticket) (s : TicketsState) : TicketsState :=
  mkTicketsState v (isLoading s) (error s) (pagination s) (filters s)
                 (searchQuery s) (sortBy s) (sortOrder s).

Definition setIsLoading (v : bool) (s : TicketsState) : TicketsState :=
  mkTicketsState (tickets s) v (error s) (pagination s) (filters s)
                 (searchQuery s) (sortBy s) (sortOrder s).

Definition setError (v : option string) (s : TicketsState) : TicketsState :=
  mkTicketsState (tickets s) (isLoading s) v (pagination s) (filters s)
                 (searchQuery s) (sortBy s) (sortOrder s).

Definition setPagination (v : Pagination) (s : TicketsState) : TicketsState :=
  mkTicketsState (tickets s) (isLoading s) (error s) v (filters s)
                 (searchQuery s) (sortBy s) (sortOrder s).

(** [loadTickets(reset)].  The request it sends ([filters], the trimmed
    search query, the page and the sort keys) selects what the server
    answers: that answer is [network]. *)
Definition loadTickets (network : Z -> FetchResult GetTicketsResponse)
           (reset : bool) (s : TicketsState) : Eff TicketsState :=
  let s := setIsLoading true s in
  let s := setError None s in
  r <- request network API_CONFIG.retries ;;
  h <- handleApiResponse (fst r) ;;
  match h_error h with
  | Some apiError =>
      let s := setError (Some (e_message apiError)) s in
      ret (setIsLoading false s)
  | None =>
      match h_data h with
      | Some data =>
          let newTickets := gt_tickets data in
          let newPagination := gt_pagination data in
          let s := if reset then setTickets newTickets s
                   else setTickets (tickets s ++ newTickets) s in
          let s := setPagination newPagination s in
          ret (setIsLoading false s)
      | None => ret (setIsLoading false s)
      end
  end.

(** [updateTicket(id, updates)]: the new state and the boolean returned. *)
Definition updateTicket (network : Z -> FetchResult UpdateTicketResponse)
           (id : string) (updates : UpdateTicketData) (s : TicketsState)
  : Eff (TicketsState * bool) :=
  let s := setError None s in
  r <- request network API_CONFIG.retries ;;
  h <- handleApiResponse (fst r) ;;
  match h_error h with
  | Some apiError => ret (setError (Some (e_message apiError)) s, false)
  | None =>
      match h_data h with
      | Some data =>
          ret (setTickets
                 (map (fun ticket => if String.eqb (t_id ticket) id then ut_ticket data else ticket)
                      (tickets s))
                 s,
               true)
      | None => ret (s, false)
      end
  end.

(** [a === b] on optional strings. *)
Definition optionString_eqb (a b : option string) : bool :=
  match a, b with
  | Some x, Some y => String.eqb x y
  | None, None => true
  | _, _ => false
  end.

(** The search predicate of the local filter for the lower-cased query. *)
Definition matchesQuery (query : string) (ticket : Ticket) : bool :=
  includes (toLowerCase (t_title ticket)) query
  || includes (toLowerCase (t_description ticket)) query
  || includes (toLowerCase (t_userName ticket)) query
  || includes (toLowerCase (t_id ticket)) query.

(** The memoised [filteredTickets]. *)
Definition filteredTickets (tickets : list Ticket) (filters : TicketFilter)
           (searchQuery : string) : list Ticket :=
  let filtered := tickets in
  let filtered :=
    match f_status filters with
    | Some ((_ :: _) as wanted) =>
        filter (fun ticket => existsb (TicketStatus_eqb (t_status ticket)) wanted) filtered
    | _ => filtered
    end in
  let filtered :=
    match f_category filters with
    | Some ((_ :: _) as wanted) =>
        filter (fun ticket => existsb (TicketCategory_eqb (t_category ticket)) wanted) filtered
    | _ => filtered
    end in
  let filtered :=
    match f_priority filters with
    | Some ((_ :: _) as wanted) =>
        filter (fun ticket => existsb (TicketPriority_eqb (t_priority ticket)) wanted) filtered
    | _ => filtered
    end in
  let filtered :=
    match f_assignedTo filters with
    | Some assignee =>
        if String.eqb assignee "" then filtered
        else filter (fun ticket => optionString_eqb (t_assignedTo ticket) (Some assignee)) filtered
    | None => filtered
    end in
  let filtered :=
    if negb (String.eqb (trim searchQuery) "") then
      let query := toLowerCase searchQuery in
      filter (matchesQuery query) filtered
    else filtered in
  filtered.

(** The [searchQuery] that [loadTickets] sends to the server:
    [searchQuery.trim() || undefined]. *)
Definition serverSearchQuery (searchQuery : string) : option string :=
  if String.eqb (trim searchQuery) "" then None else Some (trim searchQuery).
(* ================================================================== *)
(** * Vocabulary of the properties *)
(* ================================================================== *)

(** The state and the response descriptor that [processUserInput]
    returns in world [w]. *)
Definition updatedConversation (userInput : string) (conv : ConversationState)
           (w : World) : ConversationState :=
  fst (run (processUserInput userInput conv) w).

Definition aiResponse (userInput : string) (conv : ConversationState)
           (w : World) : AIResponse :=
  snd (run (processUserInput userInput conv) w).

(** The world after the two draws for the echoed user message. *)
Definition afterUserMessage (w : World) : World :=
  mkWorld (uuidSource w) (S (uuidCalls w)) (clockSource w) (S (clockCalls w)).

(** The locals after the [switch], and the world it leaves. *)
Definition switchResult (userInput : string) (conv : ConversationState) (w : World)
  : Locals * World :=
  processStep (currentStep conv) (trim userInput)
    (mkLocals (collectedData conv) (currentStep conv) "" ty_question [] [])
    (afterUserMessage w).

(** The trimmed text is outside the length bounds of the step: a name
    needs 2 to 50 code units (asked at [GREETING] and [COLLECT_NAME]), an
    issue description at least 10, a clarifying detail at least 5.  The
    other steps have no bound. *)
Definition failsLengthPredicate (step : ConversationStep) (trimmed : string) : Prop :=
  match step with
  | GREETING | COLLECT_NAME => String.length trimmed < 2 \/ 50 < String.length trimmed
  | COLLECT_ISSUE => String.length trimmed < 10
  | CLARIFY_DETAILS => String.length trimmed < 5
  | _ => False
  end.

(** The text with which each collecting step asks again. *)
Definition repromptOf (step : ConversationStep) : string :=
  match step with
  | GREETING | COLLECT_NAME => "Please provide a valid name (2-50 characters)."
  | COLLECT_ISSUE => "Please provide more details about your issue (at least 10 characters)."
  | CLARIFY_DETAILS => "Please provide some additional details to help us better understand your issue."
  | _ => ""
  end.

(** Position of a step in the ordered sequence, [-1] for [ERROR]. *)
Definition stepIndex (step : ConversationStep) : Z :=
  indexOf ConversationStep_eqb step stepOrder.

(** The one branch that may go back: the current step is
    [FINAL_CONFIRMATION] and the input does not affirm. *)
Definition takesRejection (userInput : string) (conv : ConversationState) : bool :=
  ConversationStep_eqb (currentStep conv) FINAL_CONFIRMATION
  && negb (isConfirmed (trim userInput)).

(** The states a conversation goes through when the inputs are processed
    one after the other, the first state included. *)
Fixpoint trajectory (inputs : list string) (conv : ConversationState) (w : World)
  : list ConversationState :=
  conv :: match inputs with
          | [] => []
          | userInput :: rest =>
              let (result, w') := processUserInput userInput conv w in
              trajectory rest (fst result) w'
          end.

(** No call along the trajectory takes the rejection branch. *)
Fixpoint avoidsRejection (inputs : list string) (conv : ConversationState) (w : World)
  : bool :=
  match inputs with
  | [] => true
  | userInput :: rest =>
      negb (takesRejection userInput conv)
      && let (result, w') := processUserInput userInput conv w in
         avoidsRejection rest (fst result) w'
  end.

(** A world for the examples: identifiers that differ in their last digit,
    and a clock that advances by one millisecond per reading. *)
Definition exampleWorld : World :=
  mkWorld (fun n => ("6f1c2a9e-3b5d-4c7a-8e21-0a4b6c8d9e0"
                       ++ String (ascii_of_nat (48 + n mod 10)) "")%string) 0
          (fun n => (1700000000000 + Z.of_nat n)%Z) 0.

(** [p] is an integer nearest to [100 * i / 7]: it differs from it by at
    most one half. *)
Definition nearestPercentOfSevenths (i p : Z) : Prop :=
  (2 * Z.abs (7 * p - 100 * i) <= 7)%Z.

(** Every white-space code unit of [s] is a space and no two of them are
    adjacent; [afterSpace] tells that a space precedes [s]. *)
Fixpoint singleSpaced (afterSpace : bool) (s : string) : bool :=
  match s with
  | EmptyString => true
  | String c s' =>
      if isWhiteSpace c
      then Ascii.eqb c " " && negb afterSpace && singleSpaced true s'
      else singleSpaced false s'
  end.

(** How many keywords of the list of category [c] occur in the
    lower-cased text, as the score table of [detectCategory] has it. *)
Definition keywordCount (c : TicketCategory) (text : string) : nat :=
  scoreAt (categoryScores (toLowerCase text)) c.

(** Position of a category in the iteration order of the score table. *)
Definition declarationIndex (c : TicketCategory) : nat :=
  match c with
  | TECHNICAL => 0
  | BILLING => 1
  | ACCOUNT => 2
  | FEATURE_REQUEST => 3
  | BUG_REPORT => 4
  | GENERAL => 5
  | OTHER => 6
  end.

(** The tie rule as the specification words it: the highest count wins,
    the first declared of several highest ones is kept, and [GENERAL]
    stands for no match at all. *)
Definition detectCategory_firstDeclared (text : string) : TicketCategory :=
  match reduce (fun a b => if snd a <? snd b then b else a)
               (categoryScores (toLowerCase text)) with
  | Some top => if 0 <? snd top then fst top else GENERAL
  | None => GENERAL
  end.

(** The conversation of the example scenario. *)
Definition exampleInputs : list string :=
  ["Alice Johnson";
   "My invoice was double-charged this month";
   "It happened twice on the 1st and the 15th";
   "yes";
   "yes"].

Definition exampleStart : ConversationState := run initializeConversation exampleWorld.

(** A conversation whose ticket has been created. *)
Definition exampleCreated : ConversationState :=
  mkConversationState "0b7e4d52-91c3-4f6a-a2d8-5e3f1c9b7a10" TICKET_CREATED
    (mkCollectedData (Some "Alice") None (Some "The invoice is wrong")
                     (Some "The invoice is wrong") (Some "billing") (Some "billing") [])
    [] true None 0%Z (Some 5%Z).

(** A conversation that waits for the final confirmation. *)
Definition exampleConfirming : ConversationState :=
  mkConversationState "0b7e4d52-91c3-4f6a-a2d8-5e3f1c9b7a11" FINAL_CONFIRMATION
    (mkCollectedData (Some "Alice") None (Some "The invoice is wrong")
                     (Some "The invoice is wrong") (Some "billing") (Some "billing") [])
    [] false None 0%Z None.

(** A description whose first full stop follows a space. *)
Definition exampleDescription : string :=
  "Login fails . It started after the latest update and happens every single time".

(** The request of a view-model call fails: the client throws. *)
Definition requestFails {T} (network : Z -> FetchResult T) (w : World) : Prop :=
  exists e, fst (run (request network API_CONFIG.retries) w) = Throws e.



(** The [message] of the error body, when the client uses it, can be
    converted to a string. *)
Definition messageConverts {T} (json : JsError + JsonBody T) : Prop :=
  match json with
  | inr (JsonValue _ (Some p) _ _) =>
      prop_truthy p = true -> exists text, prop_string p = inr text
  | _ => True
  end.

(** What an attempt must observe for the client to try again: [fetch]
    rejects (a network failure, a timeout), or the response has a status of
    500 or more. *)
Definition isServerFailure {T} (r : FetchResult T) : Prop :=
  match r with
  | FetchRejects _ => True
  | FetchResolves status _ _ => (500 <= status)%Z
  end.

(** The trace of [n] failed attempts that are each followed by the
    linear back-off, the first of them being attempt [k]. *)
Fixpoint backoffPrefix (n k : nat) : list Event :=
  match n with
  | 0 => []
  | S n' => Fetch (Z.of_nat k) :: Sleep (1000 * (Z.of_nat k + 1)) :: backoffPrefix n' (S k)
  end.


(** A server that answers 404 with the JSON document [null]. *)
Definition notFoundWithNullBody : Z -> FetchResult unit :=
  fun _ => FetchResolves 404 "Not Found" (inr JsonNull).

(** A server that answers 500 with a body that is not JSON, so that
    [response.json()] rejects. *)
Definition internalErrorNetwork {T} : Z -> FetchResult T :=
  fun _ => FetchResolves 500 "Internal Server Error"
             (inl (mkJsError "SyntaxError" "Unexpected token '<'")).

(** The JSON value [[]] as the client uses it: truthy, and converted to
    the empty string. *)
Definition emptyArrayProperty : JsonProperty := mkJsonProperty true (inr "").

(** A server that answers 500 with the body [{"message": []}]; [value]
    is that body as the caller's type. *)
Definition emptyArrayMessageNetwork {T} (value : T) : Z -> FetchResult T :=
  fun _ => FetchResolves 500 "Internal Server Error"
             (inr (JsonValue value (Some emptyArrayProperty) None None)).

(** The JSON value [{"toString": 1, "valueOf": 1}] as the client uses it:
    truthy, and not convertible to a string. *)
Definition unconvertibleProperty : JsonProperty :=
  mkJsonProperty true (inl (mkJsError "TypeError" "Cannot convert object to primitive value")).

(** A server that answers 404 with the body
    [{"message": {"toString": 1, "valueOf": 1}}]. *)
Definition notFoundWithUnconvertibleMessage : Z -> FetchResult unit :=
  fun _ => FetchResolves 404 "Not Found"
             (inr (JsonValue tt (Some unconvertibleProperty) None None)).

Definition exampleTicket : Ticket :=
  mkTicket "4d3c2b1a-5e6f-4a7b-8c9d-0e1f2a3b4c5d" "Ana" None
           "Printer jam" "Printer jams on every page"
           TECHNICAL OPEN MEDIUM 0%Z 0%Z None None [] None.

Definition exampleClosedTicket : Ticket :=
  mkTicket "9a8b7c6d-5e4f-4a3b-8c2d-1e0f9a8b7c6d" "Bo" None
           "Refund wanted" "Charged twice in May"
           BILLING CLOSED HIGH 0%Z 0%Z None None [] None.

Definition noFilter : TicketFilter :=
  mkTicketFilter None None None None None None None.

Definition exampleState : TicketsState :=
  mkTicketsState [exampleTicket; exampleClosedTicket] false None DEFAULT_PAGINATION
                 noFilter "" createdAt desc.

Definition closeUpdate : UpdateTicketData := mkUpdateTicketData (Some CLOSED) None None None.

(** The conjunction of the constraints that the local filter applies to
    one ticket.  The search constraint is present when the trimmed query
    is not empty, and it tests the lower-cased query as typed. *)
Definition passesLocalFilter (filters : TicketFilter) (searchQuery : string)
           (ticket : Ticket) : bool :=
  match f_status filters with
  | Some ((_ :: _) as wanted) => existsb (TicketStatus_eqb (t_status ticket)) wanted
  | _ => true
  end
  && match f_category filters with
     | Some ((_ :: _) as wanted) => existsb (TicketCategory_eqb (t_category ticket)) wanted
     | _ => true
     end
  && match f_priority filters with
     | Some ((_ :: _) as wanted) => existsb (TicketPriority_eqb (t_priority ticket)) wanted
     | _ => true
     end
  && match f_assignedTo filters with
     | Some assignee =>
         String.eqb assignee ""
         || optionString_eqb (t_assignedTo ticket) (Some assignee)
     | None => true
     end
  && (String.eqb (trim searchQuery) ""
      || matchesQuery (toLowerCase searchQuery) ticket).

(* ================================================================== *)
(** * More of [lib/assistantLogic.ts] *)
(* ================================================================== *)

(** The line feed of the template literals. *)
Definition LF : string := String (ascii_of_nat 10) EmptyString.

(** [CreateTicketData]: a ticket without [id] and dates, in which title,
    description and category are optional. *)
Record CreateTicketData := mkCreateTicketData {
  ct_userName : string;
  ct_userEmail : option string;
  ct_title : option string;
  ct_description : option string;
  ct_category : option string;
  ct_status : TicketStatus;
  ct_priority : TicketPriority;
  ct_assignedTo : option string;
  ct_tags : list string;
  ct_conversationId : option string
}.

Definition createTicketFromConversation (conversation : ConversationState)
  : CreateTicketData :=
  let collected := collectedData conversation in
  mkCreateTicketData
    (orElse (userName collected) "Anonymous User")
    None
    (Some (orElse (issueTitle collected) "Support Request"))
    (Some (trim (orElse (issueDescription collected) ""
                 ++ LF ++ LF ++ "Additional Details:" ++ LF
                 ++ join LF (additionalDetails collected))%string))
    (Some (orElse (confirmedCategory collected) (categoryValue GENERAL)))
    OPEN
    MEDIUM
    None
    []
    (Some (conv_id conversation)).

Record ConversationSummary := mkConversationSummary {
  sum_userName : option string;
  sum_issueTitle : option string;
  sum_category : option string;
  sum_progress : Z;
  sum_isComplete : bool
}.

Definition getConversationSummary (conversation : ConversationState)
  : ConversationSummary :=
  let collected := collectedData conversation in
  mkConversationSummary
    (userName collected)
    (issueTitle collected)
    (match confirmedCategory collected with
     | Some category =>
         if String.eqb category "" then None
         else Some (getCategoryDisplayName category)
     | None => None
     end)
    (getProgressPercentage (currentStep conversation))
    (isComplete conversation).

(* ================================================================== *)
(** * More of [hooks/useTickets.ts] *)
(* ================================================================== *)

(** The [params] that [loadTickets] builds. *)
Record GetTicketsRequest := mkGetTicketsRequest {
  req_filters : TicketFilter;
  req_page : Z;
  req_limit : Z;
  req_sortBy : SortBy;
  req_sortOrder : SortOrder
}.

(** [{ ...filters, searchQuery: searchQuery.trim() || undefined }] and the
    page: 1 on a reset, else the page of the state the callback closes
    over. *)
Definition loadTicketsParams (reset : bool) (s : TicketsState) : GetTicketsRequest :=
  mkGetTicketsRequest
    (mkTicketFilter (f_status (filters s)) (f_category (filters s))
                    (f_priority (filters s)) (f_assignedTo (filters s))
                    (serverSearchQuery (searchQuery s))
                    (f_dateFrom (filters s)) (f_dateTo (filters s)))
    (if reset then 1%Z else page (pagination s))
    DEFAULT_PAGE_SIZE
    (sortBy s)
    (sortOrder s).

(** [Boolean(x)] of an optional boolean. *)
Definition truthy (x : option bool) : bool :=
  match x with
  | Some true => true
  | _ => false
  end.

(** The number (an IEEE 754 double) nearest to the integer [z], ties going
    to the even significand.  The integers up to [2 ^ 53] in magnitude are
    numbers themselves; beyond, the numbers are the multiples of
    [2 ^ (Z.log2 (Z.abs z) - 52)].  (The overflow to [Infinity], beyond
    [2 ^ 1024], is not reached by the sums below.) *)
Definition roundToDouble (z : Z) : Z :=
  if (Z.abs z <=? 2 ^ 53)%Z then z
  else
    let ulp := (2 ^ (Z.log2 (Z.abs z) - 52))%Z in
    let q := (Z.abs z / ulp)%Z in
    let r := (Z.abs z mod ulp)%Z in
    let down := (q * ulp)%Z in
    let up := ((q + 1) * ulp)%Z in
    (Z.sgn z * (if (2 * r <? ulp)%Z then down
                else if (ulp <? 2 * r)%Z then up
                else if Z.even q then down else up))%Z.

(** [a + b] on integer-valued numbers: the exact sum, rounded. *)
Definition addNumbers (a b : Z) : Z := roundToDouble (a + b).

(** [setPagination(prev => ({ ...prev, page: f(prev.page) }))] *)
Definition setPage (v : Z) (s : TicketsState) : TicketsState :=
  setPagination (mkPagination v (limit (pagination s)) (total (pagination s))
                              (totalPages (pagination s)) (hasNext (pagination s))
                              (hasPrev (pagination s))) s.

(** [loadMore].  [s] is the state of the render whose callbacks run.  The
    [loadTickets] that is called closes over that render, so the request
    is built from [s], before the queued page update; its state updates
    (functional for the tickets) apply after that update.  [server] maps a
    request to what the attempts observe. *)
Definition loadMore (server : GetTicketsRequest -> Z -> FetchResult GetTicketsResponse)
           (s : TicketsState) : Eff TicketsState :=
  if negb (truthy (hasNext (pagination s))) || isLoading s then ret s
  else loadTickets (server (loadTicketsParams false s)) false
                   (setPage (addNumbers (page (pagination s)) 1) s).

(** [clearFilters] *)
Definition clearFilters (s : TicketsState) : TicketsState :=
  mkTicketsState (tickets s) (isLoading s) (error s) DEFAULT_PAGINATION
                 (mkTicketFilter None None None None None None None)
                 "" createdAt desc.

(** [getTicketById] *)
Definition getTicketById (s : TicketsState) (id : string) : option Ticket :=
  find (fun ticket => String.eqb (t_id ticket) id) (tickets s).

(** [getTicketsByStatus] *)
Definition getTicketsByStatus (s : TicketsState) (status : TicketStatus) : list Ticket :=
  filter (fun ticket => TicketStatus_eqb (t_status ticket) status) (tickets s).

(* ================================================================== *)
(** * [hooks/useChat.ts]: the chat view-model *)
(* ================================================================== *)

Record TypingState := mkTypingState {
  isTyping : bool;
  typingMessage : option string;
  estimatedDuration : option Z
}.

(** The React state of the hook.  Saving the conversation to local storage
    is an effect of rendering and is not part of it. *)
Record ChatState := mkChatState {
  chat_conversation : option ConversationState;
  chat_isLoading : bool;
  chat_error : option string;
  chat_typingState : TypingState
}.

(** The body of a [SendMessageResponse]: [data.data]. *)
Record SendMessageResponse := mkSendMessageResponse {
  sm_assistantResponse : AIResponse;
  sm_updatedConversation : ConversationState;
  sm_suggestedCategory : option string
}.

(** The body of a [CreateTicketResponse]: [data.data]. *)
Record CreateTicketResponse := mkCreateTicketResponse {
  cr_ticket : Ticket
}.

Definition ASSISTANT_TYPING_DURATION : Z := 2000.

(** [sendMessage].  The timer that [showAssistantTyping] starts can only
    set [isTyping] to [false], which the [finally] clause does as well. *)
Definition sendMessage (network : Z -> FetchResult SendMessageResponse)
           (message : string) (s : ChatState) : Eff ChatState :=
  match chat_conversation s with
  | None => ret s
  | Some conversation =>
      if chat_isLoading s || String.eqb (trim message) "" then ret s
      else
        let typing :=
          mkTypingState true (Some "Assistant is typing...")
                        (Some ASSISTANT_TYPING_DURATION) in
        let s := mkChatState (chat_conversation s) true None typing in
        r <- request network API_CONFIG.retries ;;
        h <- handleApiResponse (fst r) ;;
        let done := mkTypingState false None None in
        match h_error h with
        | Some apiError =>
            ret (mkChatState (chat_conversation s) false
                             (Some (e_message apiError)) done)
        | None =>
            match h_data h with
            | Some data =>
                ret (mkChatState (Some (sm_updatedConversation data)) false
                                 (chat_error s) done)
            | None => ret (mkChatState (chat_conversation s) false (chat_error s) done)
            end
        end
  end.

(** What [createTicket] resolves with. *)
Record CreateTicketResult := mkCreateTicketResult {
  res_success : bool;
  res_ticketId : option string;
  res_error : option string
}.

(** [createTicket]; [network] is handed the ticket data that is posted. *)
Definition createTicket
           (network : CreateTicketData -> Z -> FetchResult CreateTicketResponse)
           (s : ChatState) : Eff (ChatState * CreateTicketResult) :=
  match chat_conversation s with
  | None => ret (s, mkCreateTicketResult false None (Some "Conversation is not complete"))
  | Some conversation =>
      if negb (isComplete conversation)
      then ret (s, mkCreateTicketResult false None (Some "Conversation is not complete"))
      else
        let s := mkChatState (chat_conversation s) true None (chat_typingState s) in
        let ticketData := createTicketFromConversation conversation in
        r <- request (network ticketData) API_CONFIG.retries ;;
        h <- handleApiResponse (fst r) ;;
        match h_error h with
        | Some apiError =>
            ret (mkChatState (chat_conversation s) false
                             (Some (e_message apiError)) (chat_typingState s),
                 mkCreateTicketResult false None (Some (e_message apiError)))
        | None =>
            match h_data h with
            | Some data =>
                let updated :=
                  mkConversationState
                    (conv_id conversation) (currentStep conversation)
                    (collectedData conversation) (messages conversation)
                    (isComplete conversation) (Some (t_id (cr_ticket data)))
                    (startedAt conversation) (completedAt conversation) in
                ret (mkChatState (Some updated) false (chat_error s) (chat_typingState s),
                     mkCreateTicketResult true (Some (t_id (cr_ticket data))) None)
            | None =>
                ret (mkChatState (chat_conversation s) false (chat_error s)
                                 (chat_typingState s),
                     mkCreateTicketResult false None (Some "Unknown error occurred"))
            end
        end
  end.

(* ================================================================== *)
(** * Vocabulary of the further properties *)
(* ================================================================== *)

(** The test that [mentionedCategory] applies to one category: the
    lower-cased input contains its value or its lower-cased display
    name. *)
Definition mentions (trimmedInput : string) (category : TicketCategory) : bool :=
  includes (toLowerCase trimmedInput) (categoryValue category)
  || includes (toLowerCase trimmedInput)
              (toLowerCase (getCategoryDisplayName (categoryValue category))).

(** The state a conversation is in after the inputs have been processed
    one after the other. *)
Definition finalState (inputs : list string) (conv : ConversationState) (w : World)
  : ConversationState :=
  last (trajectory inputs conv w) conv.

(** The timestamp that [processUserInput] writes into [completedAt]. *)
Definition completedAtOf (userInput : string) (conv : ConversationState) (w : World)
  : option Date :=
  completedAt (updatedConversation userInput conv w).

(** The [n]-th state of the example conversation. *)
Definition exampleAt (n : nat) : ConversationState :=
  nth n (trajectory exampleInputs exampleStart exampleWorld) exampleStart.

(** The code units U+0000 to U+00FF, which are those that a [string] of
    this development holds (JavaScript code units go on to U+FFFF). *)
Definition allCodeUnits : list ascii := map ascii_of_nat (seq 0 256).

(** The lower-case letters a to z. *)
Definition isLowerAsciiLetter (c : ascii) : bool :=
  (97 <=? nat_of_ascii c) && (nat_of_ascii c <=? 122).

(** An attempt that ends in the [catch] clause without being a client
    error: the loop goes on to the back-off or, at the last attempt, to the
    statements after the loop. *)
Definition isRetried {T} (r : FetchResult T) : Prop :=
  forall w, exists error w',
      attemptBody r w = (inr error, w') /\ isClientError error = None.

(** What is known of every error the client throws. *)
Definition wellFormedClientError (e : ApiClientError) : Prop :=
  (ace_status e = None <-> ace_type e = NETWORK_ERROR)
  /\ (ace_status e = None -> ace_message e <> "").

(** A server that answers 200 with a body that is not JSON. *)
Definition brokenBodyNetwork : Z -> FetchResult unit :=
  fun _ => FetchResolves 200 "OK" (inl (mkJsError "SyntaxError" "Unexpected token '<'")).

(** A server that fails once and then answers 200 with the document
    [tt]. *)
Definition recoveringNetwork : Z -> FetchResult unit :=
  fun attempt =>
    if (attempt =? 0)%Z then FetchRejects (mkJsError "TypeError" "Failed to fetch")
    else FetchResolves 200 "OK" (inr (JsonValue tt None None None)).

(** A server that answers 304 with an empty object. *)
Definition notModifiedNetwork : Z -> FetchResult unit :=
  fun _ => FetchResolves 304 "Not Modified" (inr (JsonValue tt None None None)).

(** A server that answers 200 with the given document. *)
Definition successNetwork {T} (data : T) : Z -> FetchResult T :=
  fun _ => FetchResolves 200 "OK" (inr (JsonValue data None None None)).

(** The second page of a ticket list: one ticket, no page after it. *)
Definition exampleNextPage : GetTicketsResponse :=
  mkGetTicketsResponse
    [mkTicket "7c6b5a49-3827-4615-9a4b-3c2d1e0f9a8b" "Cy" None
              "Password reset" "The reset link has expired" ACCOUNT OPEN LOW
              0%Z 0%Z None None [] None]
    (mkPagination 2 DEFAULT_PAGE_SIZE (Some 3%Z) (Some 2%Z) (Some false) (Some true)).

(** A state whose page number is [2 ^ 53], as a server can send it. *)
Definition exampleHugePageState : TicketsState :=
  mkTicketsState [exampleTicket; exampleClosedTicket] false None
                 (mkPagination (2 ^ 53) DEFAULT_PAGE_SIZE None None
                               (Some true) (Some true))
                 noFilter "" createdAt desc.

(** A state in which a load is in flight. *)
Definition exampleLoadingState : TicketsState :=
  mkTicketsState [exampleTicket; exampleClosedTicket] true None
                 (mkPagination 1 DEFAULT_PAGE_SIZE (Some 3%Z) (Some 2%Z)
                               (Some true) (Some false))
                 noFilter "" createdAt desc.

(** A state that holds the first page and knows of a next one. *)
Definition exampleFirstPageState : TicketsState :=
  mkTicketsState [exampleTicket; exampleClosedTicket] false None
                 (mkPagination 1 DEFAULT_PAGE_SIZE (Some 3%Z) (Some 2%Z)
                               (Some true) (Some false))
                 noFilter "" createdAt desc.

(** The first ticket of the examples after it has been closed. *)
Definition exampleTicketClosed : Ticket :=
  mkTicket (t_id exampleTicket) "Ana" None "Printer jam" "Printer jams on every page"
           TECHNICAL CLOSED MEDIUM 0%Z 5%Z None None [] None.

(** A chat state in the middle of the example conversation. *)
Definition exampleChatOpen : ChatState :=
  mkChatState (Some (exampleAt 2)) false None (mkTypingState false None None).

(** A chat whose conversation is complete and has no ticket yet. *)
Definition exampleChatCompleted : ChatState :=
  mkChatState (Some exampleCreated) false (Some "Earlier failure")
              (mkTypingState false None None).

(** What the server answers to the name sent in the open chat. *)
Definition exampleSendMessageResponse : SendMessageResponse :=
  mkSendMessageResponse (aiResponse "Alice Johnson" exampleStart exampleWorld)
                        (exampleAt 3) None.

(* ================================================================== *)
(** * Properties of the string operations *)
(* ================================================================== *)

Lemma trimStart_head (s : string) :
  trimStart s = EmptyString \/
  exists c rest, trimStart s = String c rest /\ isWhiteSpace c = false.
Proof.
  induction s as [|c s IH]; simpl.
  - now left.
  - destruct (isWhiteSpace c) eqn:E.
    + exact IH.
    + right. now exists c, s.
Qed.

Lemma trimStart_fixed (c : ascii) (s : string) :
  isWhiteSpace c = false -> trimStart (String c s) = String c s.
Proof. intros E. simpl. now rewrite E. Qed.

Lemma trimEnd_keeps_head (c : ascii) (s : string) :
  isWhiteSpace c = false -> exists rest, trimEnd (String c s) = String c rest.
Proof.
  intros E. simpl. destruct (trimEnd s) as [|d t].
  - rewrite E. now exists EmptyString.
  - now exists (String d t).
Qed.

Lemma trimEnd_idempotent (s : string) : trimEnd (trimEnd s) = trimEnd s.
Proof.
  induction s as [|c s IH]; simpl; [reflexivity|].
  destruct (trimEnd s) as [|d t] eqn:E.
  - destruct (isWhiteSpace c) eqn:W; simpl; [reflexivity|]. now rewrite W.
  - change (trimEnd (String c (String d t))) with
      (match trimEnd (String d t) with
       | EmptyString => if isWhiteSpace c then EmptyString else String c EmptyString
       | String a b => String c (String a b)
       end).
    now rewrite IH.
Qed.

Lemma trim_idempotent (s : string) : trim (trim s) = trim s.
Proof.
  unfold trim.
  destruct (trimStart_head s) as [E | (c & rest & E & W)]; rewrite E.
  - reflexivity.
  - destruct (trimEnd_keeps_head c rest W) as [rest' E'].
    rewrite E', (trimStart_fixed c rest' W), <- E'.
    apply trimEnd_idempotent.
Qed.

(* ================================================================== *)
(** * Properties of the conversation flow engine *)
(* ================================================================== *)

Lemma processUserInput_shape (userInput : string) (conv : ConversationState) (w : World) :
  let locals := fst (switchResult userInput conv w) in
  let w' := snd (switchResult userInput conv w) in
  let updated := updatedConversation userInput conv w in
  currentStep updated = nextStep locals
  /\ collectedData updated = updatedCollectedData locals
  /\ isComplete updated = isConversationComplete (nextStep locals)
  /\ messages updated =
       messages conv
       ++ [mkMessage (uuidSource w (uuidCalls w)) USER (trim userInput)
                     (clockSource w (clockCalls w)) None;
           mkMessage (uuidSource w' (uuidCalls w')) ASSISTANT (aiResponseContent locals)
                     (clockSource w' (clockCalls w')) None]
  /\ r_type (aiResponse userInput conv w) = aiResponseType locals
  /\ conv_id updated = conv_id conv
  /\ createdTicketId updated = createdTicketId conv
  /\ startedAt updated = startedAt conv.
Proof.
  unfold updatedConversation, aiResponse, switchResult, run, processUserInput,
    afterUserMessage, bind, ret, uuidv4, newDate.
  cbn [uuidSource uuidCalls clockSource clockCalls].
  destruct (processStep _ _ _ _) as [locals w'].
  cbn [fst snd].
  destruct (isConversationComplete (nextStep locals)); cbn;
    rewrite <- app_assoc; repeat split; reflexivity.
Qed.

Lemma validateInput_trimmed_name (trimmed : string) :
  String.length (trim trimmed) < 2 \/ 50 < String.length (trim trimmed) ->
  validateInput trimmed COLLECT_NAME = false.
Proof.
  intros H. unfold validateInput.
  destruct H as [H | H].
  - apply andb_false_intro1. apply Nat.leb_gt. exact H.
  - apply andb_false_intro2. apply Nat.leb_gt. exact H.
Qed.

(** C1.  At [GREETING], [COLLECT_NAME], [COLLECT_ISSUE] and
    [CLARIFY_DETAILS], an input whose trimmed text is outside the length
    bounds of the step leaves the step and the collected data as they
    were, and appends the echoed user message followed by exactly one
    assistant message, the reprompt of the step.  [processUserInput] is a
    total function of its arguments and the world: no input makes it
    throw. *)
Theorem processUserInput_reprompts_on_invalid_length :
  forall (userInput : string) (conv : ConversationState) (w : World),
    In (currentStep conv) [GREETING; COLLECT_NAME; COLLECT_ISSUE; CLARIFY_DETAILS] ->
    failsLengthPredicate (currentStep conv) (trim userInput) ->
    let updated := updatedConversation userInput conv w in
    currentStep updated = currentStep conv
    /\ collectedData updated = collectedData conv
    /\ exists userMessage aiMessage,
         messages updated = messages conv ++ [userMessage; aiMessage]
         /\ msg_role userMessage = USER
         /\ msg_content userMessage = trim userInput
         /\ msg_role aiMessage = ASSISTANT
         /\ msg_content aiMessage = repromptOf (currentStep conv).
Proof.
  intros userInput conv w Hstep Hfail updated.
  destruct (processUserInput_shape userInput conv w)
    as (Hnext & Hdata & _ & Hmsgs & _).
  fold updated in Hnext, Hdata, Hmsgs.
  assert (Hsw : fst (switchResult userInput conv w) =
                mkLocals (collectedData conv) (currentStep conv)
                         (repromptOf (currentStep conv)) ty_question [] []).
  { unfold switchResult, processStep.
    cbn [updatedCollectedData nextStep aiResponseType suggestions categoryOptions].
    destruct (currentStep conv); cbn [failsLengthPredicate] in Hfail;
      try contradiction.
    - rewrite validateInput_trimmed_name by (now rewrite trim_idempotent). reflexivity.
    - rewrite validateInput_trimmed_name by (now rewrite trim_idempotent). reflexivity.
    - unfold validateInput. rewrite trim_idempotent.
      apply Nat.leb_gt in Hfail. rewrite Hfail. reflexivity.
    - unfold validateInput. rewrite trim_idempotent.
      apply Nat.leb_gt in Hfail. rewrite Hfail. reflexivity. }
  rewrite Hsw in Hnext, Hdata, Hmsgs.
  cbn [nextStep updatedCollectedData aiResponseContent] in Hnext, Hdata, Hmsgs.
  split; [exact Hnext|]. split; [exact Hdata|].
  eexists. eexists. split; [exact Hmsgs|]. repeat split.
Qed.

(** C1 at a concrete input: the one-letter name "A" at [GREETING]. *)
Lemma processUserInput_reprompts_on_invalid_length_witness :
  currentStep (updatedConversation " A " exampleStart exampleWorld) = GREETING
  /\ collectedData (updatedConversation " A " exampleStart exampleWorld)
     = collectedData exampleStart
  /\ exists userMessage aiMessage,
       messages (updatedConversation " A " exampleStart exampleWorld)
       = messages exampleStart ++ [userMessage; aiMessage]
       /\ msg_role userMessage = USER
       /\ msg_content userMessage = "A"
       /\ msg_role aiMessage = ASSISTANT
       /\ msg_content aiMessage = "Please provide a valid name (2-50 characters).".
Proof.
  refine (processUserInput_reprompts_on_invalid_length " A " exampleStart exampleWorld _ _).
  - simpl. now left.
  - simpl. left. lia.
Defined.

(** C2.  A fresh conversation is at [GREETING] and not complete, and the
    state returned by [processUserInput] is complete exactly when its
    step is [TICKET_CREATED], whatever the state and the input were. *)
Theorem isComplete_iff_ticket_created :
  (forall w : World,
      currentStep (run initializeConversation w) = GREETING
      /\ isComplete (run initializeConversation w) = false)
  /\ (forall (userInput : string) (conv : ConversationState) (w : World),
         isComplete (updatedConversation userInput conv w) = true
         <-> currentStep (updatedConversation userInput conv w) = TICKET_CREATED).
Proof.
  split.
  - intros w. split; reflexivity.
  - intros userInput conv w.
    destruct (processUserInput_shape userInput conv w) as (Hnext & _ & Hcomplete & _).
    rewrite Hnext, Hcomplete. unfold isConversationComplete.
    destruct (nextStep _); cbn; split; intros H; try reflexivity; discriminate H.
Qed.

(** C10.  At [TICKET_CREATED] and at [ERROR] the [default] arm runs: step
    and collected data stay, the echoed user message and one assistant
    message with the fixed error prompt are appended, the response has
    type [error], and a conversation at [TICKET_CREATED] stays complete. *)
Theorem processUserInput_after_completion_or_error :
  forall (userInput : string) (conv : ConversationState) (w : World),
    currentStep conv = TICKET_CREATED \/ currentStep conv = ERROR ->
    let updated := updatedConversation userInput conv w in
    currentStep updated = currentStep conv
    /\ collectedData updated = collectedData conv
    /\ (exists userMessage aiMessage,
          messages updated = messages conv ++ [userMessage; aiMessage]
          /\ msg_role userMessage = USER
          /\ msg_content userMessage = trim userInput
          /\ msg_role aiMessage = ASSISTANT
          /\ msg_content aiMessage = AI_PROMPTS.ERROR)
    /\ r_type (aiResponse userInput conv w) = ty_error
    /\ (currentStep conv = TICKET_CREATED -> isComplete updated = true)
    /\ (currentStep conv = ERROR -> isComplete updated = false).
Proof.
  intros userInput conv w Hstep updated.
  destruct (processUserInput_shape userInput conv w)
    as (Hnext & Hdata & Hcomplete & Hmsgs & Htype & _).
  fold updated in Hnext, Hdata, Hcomplete, Hmsgs.
  assert (Hsw : fst (switchResult userInput conv w) =
                mkLocals (collectedData conv) (currentStep conv)
                         AI_PROMPTS.ERROR ty_error [] []).
  { unfold switchResult, processStep. destruct Hstep as [E | E]; rewrite E; reflexivity. }
  rewrite Hsw in Hnext, Hdata, Hcomplete, Hmsgs, Htype.
  cbn [nextStep updatedCollectedData aiResponseContent aiResponseType]
    in Hnext, Hdata, Hcomplete, Hmsgs, Htype.
  split; [exact Hnext|]. split; [exact Hdata|].
  split; [eexists; eexists; split; [exact Hmsgs|]; repeat split|].
  split; [exact Htype|].
  split; intros E; rewrite Hcomplete, E; reflexivity.
Qed.

(** C10 at a concrete input: one more message after the ticket has been
    created. *)
Lemma processUserInput_after_completion_or_error_witness :
  currentStep (updatedConversation "thanks" exampleCreated exampleWorld) = TICKET_CREATED
  /\ collectedData (updatedConversation "thanks" exampleCreated exampleWorld)
     = collectedData exampleCreated
  /\ (exists userMessage aiMessage,
        messages (updatedConversation "thanks" exampleCreated exampleWorld)
        = messages exampleCreated ++ [userMessage; aiMessage]
        /\ msg_role userMessage = USER
        /\ msg_content userMessage = "thanks"
        /\ msg_role aiMessage = ASSISTANT
        /\ msg_content aiMessage = AI_PROMPTS.ERROR)
  /\ r_type (aiResponse "thanks" exampleCreated exampleWorld) = ty_error
  /\ (TICKET_CREATED = TICKET_CREATED ->
      isComplete (updatedConversation "thanks" exampleCreated exampleWorld) = true)
  /\ (TICKET_CREATED = ERROR ->
      isComplete (updatedConversation "thanks" exampleCreated exampleWorld) = false).
Proof.
  refine (processUserInput_after_completion_or_error "thanks" exampleCreated exampleWorld _).
  simpl. now left.
Defined.

Lemma nextStep_cases (userInput : string) (conv : ConversationState) (w : World) :
  let next := nextStep (fst (switchResult userInput conv w)) in
  match currentStep conv with
  | GREETING => next = GREETING \/ next = COLLECT_ISSUE
  | COLLECT_NAME => next = COLLECT_NAME \/ next = COLLECT_ISSUE
  | COLLECT_ISSUE => next = COLLECT_ISSUE \/ next = CLARIFY_DETAILS
  | CLARIFY_DETAILS => next = CLARIFY_DETAILS \/ next = SUGGEST_CATEGORY
  | SUGGEST_CATEGORY | CONFIRM_CATEGORY =>
      next = CONFIRM_CATEGORY \/ next = FINAL_CONFIRMATION
  | FINAL_CONFIRMATION =>
      if isConfirmed (trim userInput) then next = TICKET_CREATED else next = COLLECT_NAME
  | TICKET_CREATED => next = TICKET_CREATED
  | ERROR => next = ERROR
  end.
Proof.
  unfold switchResult, processStep.
  destruct (currentStep conv);
    cbn [updatedCollectedData nextStep aiResponseType suggestions categoryOptions];
    repeat match goal with
           | |- context [if ?b then _ else _] => destruct b
           | |- context [match mentionedCategory ?s with _ => _ end] =>
               destruct (mentionedCategory s)
           end;
    cbn; auto.
Qed.

Lemma progress_monotone_in_index (a b : ConversationStep) :
  (stepIndex a <= stepIndex b)%Z ->
  (getProgressPercentage a <= getProgressPercentage b)%Z.
Proof.
  intros H. apply Z.leb_le. apply Z.leb_le in H.
  destruct a, b; vm_compute in H |- *; first [reflexivity | discriminate H].
Qed.

Lemma single_step_order (userInput : string) (conv : ConversationState) (w : World) :
  (takesRejection userInput conv = true ->
   currentStep (updatedConversation userInput conv w) = COLLECT_NAME)
  /\ (takesRejection userInput conv = false ->
      (stepIndex (currentStep conv)
       <= stepIndex (currentStep (updatedConversation userInput conv w)))%Z).
Proof.
  destruct (processUserInput_shape userInput conv w) as (Hnext & _).
  rewrite Hnext. clear Hnext.
  pose proof (nextStep_cases userInput conv w) as H. cbv zeta in H.
  unfold takesRejection.
  destruct (currentStep conv); cbn [ConversationStep_eqb andb];
    try (split; [discriminate|intros _];
         repeat match type of H with _ \/ _ => destruct H as [H | H] end;
         rewrite H; vm_compute; discriminate).
  destruct (isConfirmed (trim userInput)); cbn [negb]; split;
    try discriminate; intros _; rewrite H; try reflexivity.
  vm_compute; discriminate.
Qed.

Lemma trajectory_head (inputs : list string) (conv : ConversationState) (w : World) :
  exists rest, trajectory inputs conv w = conv :: rest.
Proof. destruct inputs; simpl; eexists; reflexivity. Qed.

Lemma progress_sorted_along (inputs : list string) :
  forall (conv : ConversationState) (w : World),
    avoidsRejection inputs conv w = true ->
    Sorted Z.le (map (fun c => getProgressPercentage (currentStep c))
                     (trajectory inputs conv w)).
Proof.
  induction inputs as [|userInput rest IH]; intros conv w Havoid.
  - simpl. repeat constructor.
  - cbn [trajectory avoidsRejection] in *.
    apply andb_prop in Havoid. destruct Havoid as [Hrej Havoid].
    apply negb_true_iff in Hrej.
    pose proof (proj2 (single_step_order userInput conv w) Hrej) as Hstep.
    unfold updatedConversation, run in Hstep.
    destruct (processUserInput userInput conv w) as [result w'].
    cbn [fst] in Hstep.
    specialize (IH (fst result) w' Havoid).
    destruct (trajectory_head rest (fst result) w') as [tl Htl].
    rewrite Htl in IH |- *. cbn [map] in *.
    constructor; [exact IH|].
    constructor. now apply progress_monotone_in_index.
Qed.

(** C9.  The step returned by [processUserInput] is never earlier in the
    order of the steps than the current one, except when the current step
    is [FINAL_CONFIRMATION] and the input does not affirm: then it is
    [COLLECT_NAME].  Hence along any sequence of calls that never takes
    that branch the progress percentage never decreases. *)
Theorem steps_never_regress_except_rejection :
  (forall (userInput : string) (conv : ConversationState) (w : World),
      (takesRejection userInput conv = true ->
       currentStep (updatedConversation userInput conv w) = COLLECT_NAME)
      /\ (takesRejection userInput conv = false ->
          (stepIndex (currentStep conv)
           <= stepIndex (currentStep (updatedConversation userInput conv w)))%Z))
  /\ (forall (inputs : list string) (conv : ConversationState) (w : World),
         avoidsRejection inputs conv w = true ->
         StronglySorted Z.le
           (map (fun c => getProgressPercentage (currentStep c))
                (trajectory inputs conv w))).
Proof.
  split.
  - exact single_step_order.
  - intros inputs conv w Havoid.
    apply Sorted_StronglySorted.
    + intros x y z. apply Z.le_trans.
    + now apply progress_sorted_along.
Qed.
(** C9 at concrete inputs: "no" at the final confirmation goes back to
    [COLLECT_NAME], and the example conversation never takes that branch,
    so its progress is sorted. *)
Lemma steps_never_regress_except_rejection_witness :
  currentStep (updatedConversation "no" exampleConfirming exampleWorld) = COLLECT_NAME
  /\ StronglySorted Z.le
       (map (fun c => getProgressPercentage (currentStep c))
            (trajectory exampleInputs exampleStart exampleWorld)).
Proof.
  split.
  - apply (proj1 (proj1 steps_never_regress_except_rejection
                    "no" exampleConfirming exampleWorld)).
    vm_compute. reflexivity.
  - apply (proj2 steps_never_regress_except_rejection
             exampleInputs exampleStart exampleWorld).
    vm_compute. reflexivity.
Defined.

(** The example conversation of the specification: name, issue, detail,
    "yes", "yes". *)
Example example_conversation_steps :
  map currentStep (trajectory exampleInputs exampleStart exampleWorld)
  = [GREETING; COLLECT_ISSUE; CLARIFY_DETAILS; SUGGEST_CATEGORY;
     FINAL_CONFIRMATION; TICKET_CREATED]
  /\ map isComplete (trajectory exampleInputs exampleStart exampleWorld)
     = [false; false; false; false; false; true]
  /\ option_map collectedData (nth_error (trajectory exampleInputs exampleStart exampleWorld) 5)
     = Some (mkCollectedData (Some "Alice Johnson") None
                             (Some "My invoice was double-charged this month")
                             (Some "My invoice was double-charged this month")
                             (Some "billing") (Some "billing")
                             ["It happened twice on the 1st and the 15th"]).
Proof. repeat split; vm_compute; reflexivity. Qed.

(** C8.  Both copies of [getProgressPercentage] agree; [ERROR] reports 0;
    every step of the eight-step sequence reports the integer nearest to
    its index divided by 7, times 100; the sequence reports 0, 14, 29, 43,
    57, 71, 86 and 100, so [GREETING] is at 0 and [TICKET_CREATED] at
    100. *)
Theorem getProgressPercentage_is_rounded_index :
  List.length stepOrder = 8
  /\ (forall step : ConversationStep,
         chat_getProgressPercentage step = getProgressPercentage step
         /\ match step with
            | ERROR => getProgressPercentage step = 0%Z
            | _ => nth_error stepOrder (Z.to_nat (stepIndex step)) = Some step
                   /\ nearestPercentOfSevenths (stepIndex step) (getProgressPercentage step)
            end)
  /\ map getProgressPercentage stepOrder = [0; 14; 29; 43; 57; 71; 86; 100]%Z
  /\ getProgressPercentage GREETING = 0%Z
  /\ getProgressPercentage TICKET_CREATED = 100%Z
  /\ getProgressPercentage ERROR = 0%Z.
Proof.
  split; [reflexivity|].
  split.
  - intros step. split.
    + reflexivity.
    + destruct step; try (split; [reflexivity|]);
        unfold nearestPercentOfSevenths; vm_compute; try reflexivity; discriminate.
  - repeat split; vm_compute; reflexivity.
Qed.

(* ================================================================== *)
(** * Properties of the category heuristic and of the title *)
(* ================================================================== *)

Section ScoreTable.

Variables t b a f g : nat.

Let table : list (TicketCategory * nat) :=
  [(TECHNICAL, t); (BILLING, b); (ACCOUNT, a); (FEATURE_REQUEST, f);
   (BUG_REPORT, g); (GENERAL, 0); (OTHER, 0)].

(** The callback of the [reduce]. *)
Let callback : TicketCategory * nat -> TicketCategory * nat -> TicketCategory * nat :=
  fun x y => if scoreAt table (fst y) <? scoreAt table (fst x) then x else y.

Lemma scoreAt_table (c : TicketCategory) :
  scoreAt table c =
  match c with
  | TECHNICAL => t
  | BILLING => b
  | ACCOUNT => a
  | FEATURE_REQUEST => f
  | BUG_REPORT => g
  | GENERAL => 0
  | OTHER => 0
  end.
Proof. destruct c; reflexivity. Qed.

Lemma callback_on_entries (k1 k2 : TicketCategory) (v1 v2 : nat) :
  scoreAt table k1 = v1 -> scoreAt table k2 = v2 ->
  callback (k1, v1) (k2, v2) = if v2 <? v1 then (k1, v1) else (k2, v2).
Proof. intros <- <-. reflexivity. Qed.

(** The fold keeps a highest entry, and of several highest ones the
    last. *)
Lemma top_of_table :
  let top :=
    match reduce callback
                 [(TECHNICAL, t); (BILLING, b); (ACCOUNT, a); (FEATURE_REQUEST, f);
                  (BUG_REPORT, g); (GENERAL, 0); (OTHER, 0)] with
    | Some topCategory => if 0 <? snd topCategory then fst topCategory else GENERAL
    | None => GENERAL
    end in
  ((forall c, scoreAt table c = 0) /\ top = GENERAL)
  \/ (0 < scoreAt table top
      /\ forall c, scoreAt table c < scoreAt table top
                   \/ (scoreAt table c = scoreAt table top
                       /\ declarationIndex c <= declarationIndex top)).
Proof.
  cbv beta iota zeta delta [reduce fold_left].
  repeat match goal with
         | |- context [callback (?k1, ?v1) (?k2, ?v2)] =>
             rewrite (callback_on_entries k1 k2 v1 v2 eq_refl eq_refl);
             destruct (Nat.ltb_spec v2 v1)
         end;
    cbn [fst snd];
    match goal with
    | |- context [0 <? ?v] => destruct (Nat.ltb_spec 0 v)
    end;
    first [ left; split; [intros c; rewrite scoreAt_table; destruct c; lia | reflexivity]
          | right; rewrite ?scoreAt_table; split;
            [lia | intros c; rewrite scoreAt_table; destruct c; cbn [declarationIndex]; lia] ].
Qed.

End ScoreTable.

(** C4, amended.  [detectCategory] lower-cases the text and counts, for
    each of the five keyword lists, the keywords that occur in it.  When
    every count is zero it returns [GENERAL]; otherwise it returns a
    category with the highest count, and when several categories share the
    highest count, the one declared last among them. *)
Theorem detectCategory_highest_count_last_declared :
  forall text : string,
    let count := fun c => keywordCount c text in
    let r := detectCategory text in
    (count TECHNICAL = countMatches technicalKeywords (toLowerCase text)
     /\ count BILLING = countMatches billingKeywords (toLowerCase text)
     /\ count ACCOUNT = countMatches accountKeywords (toLowerCase text)
     /\ count FEATURE_REQUEST = countMatches featureKeywords (toLowerCase text)
     /\ count BUG_REPORT = countMatches bugKeywords (toLowerCase text)
     /\ count GENERAL = 0
     /\ count OTHER = 0)
    /\ (((forall c, count c = 0) /\ r = GENERAL)
        \/ (0 < count r
            /\ forall c, count c < count r
                         \/ (count c = count r
                             /\ declarationIndex c <= declarationIndex r))).
Proof.
  intros text count r. split.
  - repeat split.
  - exact (top_of_table (countMatches technicalKeywords (toLowerCase text))
                        (countMatches billingKeywords (toLowerCase text))
                        (countMatches accountKeywords (toLowerCase text))
                        (countMatches featureKeywords (toLowerCase text))
                        (countMatches bugKeywords (toLowerCase text))).
Qed.

(** C4 as stated fails when the highest count is shared: in "login
    payment" one technical keyword and one billing keyword occur; the
    first declared of the two is [TECHNICAL], the code returns
    [BILLING]. *)
Lemma detectCategory_tie_goes_to_later_category :
  map (fun c => keywordCount c "login payment") TicketCategory_values
  = [1; 1; 0; 0; 0; 0; 0]
  /\ detectCategory_firstDeclared "login payment" = TECHNICAL
  /\ detectCategory "login payment" = BILLING
  /\ detectCategory "login payment" <> detectCategory_firstDeclared "login payment".
Proof.
  repeat split; try (vm_compute; reflexivity).
  vm_compute. discriminate.
Qed.

(** C5 fails on the first-sentence branch: the sentence before the first
    full stop keeps the space that precedes the stop, and deriving a
    title from that title trims it away. *)
Theorem generateIssueTitle_not_idempotent_on_first_sentence :
  String.length (collapseWhiteSpace (trim exampleDescription)) = 78
  /\ generateIssueTitle exampleDescription = "Login fails "
  /\ generateIssueTitle (generateIssueTitle exampleDescription) = "Login fails"
  /\ generateIssueTitle (generateIssueTitle exampleDescription)
     <> generateIssueTitle exampleDescription.
Proof.
  repeat split; try (vm_compute; reflexivity).
  vm_compute. discriminate.
Qed.

(** ** What holds of the title: a second derivation only trims *)

Lemma singleSpaced_weaken (s : string) :
  singleSpaced true s = true -> singleSpaced false s = true.
Proof.
  destruct s as [|c s]; cbn; [reflexivity|].
  destruct (isWhiteSpace c); [|exact (fun H => H)].
  rewrite andb_false_r. discriminate.
Qed.

Lemma singleSpaced_any (b : bool) (s : string) :
  singleSpaced b s = true -> singleSpaced false s = true.
Proof. destruct b; [apply singleSpaced_weaken | exact (fun H => H)]. Qed.

Lemma replaceWsRuns_singleSpaced (s : string) :
  forall b, singleSpaced b (replaceWsRuns b s) = true.
Proof.
  induction s as [|c s IH]; intros b; cbn; [reflexivity|].
  destruct (isWhiteSpace c) eqn:W.
  - destruct b; [apply IH|]. cbn. apply IH.
  - cbn. rewrite W. apply IH.
Qed.

Lemma replaceWsRuns_fixed (s : string) :
  forall b, singleSpaced b s = true -> replaceWsRuns b s = s.
Proof.
  induction s as [|c s IH]; intros b; cbn; [reflexivity|].
  destruct (isWhiteSpace c).
  - intros H. apply andb_prop in H. destruct H as [H Hs].
    apply andb_prop in H. destruct H as [Hc Hb].
    apply Ascii.eqb_eq in Hc. subst c.
    destruct b; [discriminate Hb|]. now rewrite (IH true Hs).
  - intros H. now rewrite (IH false H).
Qed.

Lemma trimStart_singleSpaced (s : string) :
  forall b, singleSpaced b s = true -> singleSpaced false (trimStart s) = true.
Proof.
  induction s as [|c s IH]; intros b H; cbn; [reflexivity|].
  destruct (isWhiteSpace c) eqn:W.
  - cbn in H. rewrite W in H. apply andb_prop in H. destruct H as [_ H].
    exact (IH true H).
  - exact (singleSpaced_any b _ H).
Qed.

Lemma trimEnd_singleSpaced (s : string) :
  forall b, singleSpaced b s = true -> singleSpaced b (trimEnd s) = true.
Proof.
  induction s as [|c s IH]; intros b H; [reflexivity|].
  cbn [trimEnd]. cbn [singleSpaced] in H.
  destruct (isWhiteSpace c) eqn:W.
  - apply andb_prop in H. destruct H as [Hcb Hs]. specialize (IH true Hs).
    destruct (trimEnd s) as [|d t]; [reflexivity|].
    cbn [singleSpaced]. rewrite W, Hcb. exact IH.
  - specialize (IH false H).
    destruct (trimEnd s) as [|d t]; cbn [singleSpaced]; rewrite W; [reflexivity|exact IH].
Qed.

Lemma trim_singleSpaced (s : string) (b : bool) :
  singleSpaced b s = true -> singleSpaced false (trim s) = true.
Proof.
  intros H. unfold trim. apply trimEnd_singleSpaced.
  exact (trimStart_singleSpaced s b H).
Qed.

Lemma firstPiece_singleSpaced (sep : ascii) (s : string) :
  forall b, singleSpaced b s = true -> singleSpaced b (hd "" (split sep s)) = true.
Proof.
  induction s as [|c s IH]; intros b H; [reflexivity|].
  cbn [split]. destruct (Ascii.eqb c sep); [reflexivity|].
  cbn [singleSpaced] in H.
  destruct (split sep s) as [|piece rest]; cbn [hd singleSpaced] in *;
    destruct (isWhiteSpace c).
  - apply andb_prop in H. destruct H as [-> _]. reflexivity.
  - reflexivity.
  - apply andb_prop in H. destruct H as [-> Hs]. exact (IH true Hs).
  - exact (IH false H).
Qed.

Lemma prefix_singleSpaced (n : nat) :
  forall s b, singleSpaced b s = true -> singleSpaced b (String.substring 0 n s) = true.
Proof.
  induction n as [|n IH]; intros s b H; destruct s as [|c s]; try reflexivity.
  cbn [String.substring]. cbn [singleSpaced] in *.
  destruct (isWhiteSpace c).
  - apply andb_prop in H. destruct H as [-> Hs]. exact (IH s true Hs).
  - exact (IH s false H).
Qed.

Lemma ellipsis_singleSpaced (s : string) :
  forall b, singleSpaced b s = true -> singleSpaced b (s ++ "...") = true.
Proof.
  induction s as [|c s IH]; intros b H; [reflexivity|].
  cbn [append singleSpaced] in *.
  destruct (isWhiteSpace c).
  - apply andb_prop in H. destruct H as [-> Hs]. exact (IH true Hs).
  - exact (IH false H).
Qed.

Lemma trimStart_length (s : string) : String.length (trimStart s) <= String.length s.
Proof.
  induction s as [|c s IH]; cbn; [lia|].
  destruct (isWhiteSpace c); cbn; lia.
Qed.

Lemma trimEnd_length (s : string) : String.length (trimEnd s) <= String.length s.
Proof.
  induction s as [|c s IH]; cbn [trimEnd String.length]; [lia|].
  destruct (trimEnd s) as [|d t]; [destruct (isWhiteSpace c)|]; cbn [String.length] in *; lia.
Qed.

Lemma trim_length (s : string) : String.length (trim s) <= String.length s.
Proof.
  unfold trim. pose proof (trimEnd_length (trimStart s)). pose proof (trimStart_length s). lia.
Qed.

Lemma prefix_length (n : nat) :
  forall s, String.length (String.substring 0 n s) <= n.
Proof.
  induction n as [|n IH]; intros [|c s]; cbn; try lia.
  specialize (IH s). lia.
Qed.

Lemma append_length (s t : string) :
  String.length (s ++ t) = String.length s + String.length t.
Proof. induction s as [|c s IH]; cbn; [reflexivity|]. now rewrite IH. Qed.

(** A derived title has at most 60 code units and is single-spaced. *)
Lemma generateIssueTitle_shape (description : string) :
  String.length (generateIssueTitle description) <= 60
  /\ singleSpaced false (generateIssueTitle description) = true.
Proof.
  unfold generateIssueTitle.
  assert (Hc : singleSpaced false (collapseWhiteSpace (trim description)) = true)
    by apply replaceWsRuns_singleSpaced.
  destruct (Nat.leb_spec (String.length (collapseWhiteSpace (trim description))) 60)
    as [Hlen | Hlen].
  - split; [exact Hlen | exact Hc].
  - destruct (Nat.leb_spec
                (String.length (hd "" (split "." (collapseWhiteSpace (trim description))))) 60)
      as [Hlen' | Hlen'].
    + split; [exact Hlen' | now apply firstPiece_singleSpaced].
    + split.
      * rewrite append_length. unfold substring.
        pose proof (trim_length (String.substring 0 (50 - 0)
                                   (collapseWhiteSpace (trim description)))).
        pose proof (prefix_length (50 - 0) (collapseWhiteSpace (trim description))).
        cbn [String.length] in *. lia.
      * apply ellipsis_singleSpaced. apply (trim_singleSpaced _ false).
        unfold substring. now apply prefix_singleSpaced.
Qed.

(** Deriving a title from a derived title trims it and does nothing
    else: the derivation is idempotent exactly on the titles that do not
    end (or begin) with white space. *)
Lemma generateIssueTitle_twice_trims (description : string) :
  generateIssueTitle (generateIssueTitle description)
  = trim (generateIssueTitle description).
Proof.
  destruct (generateIssueTitle_shape description) as [Hlen Hs].
  set (title := generateIssueTitle description) in *.
  unfold generateIssueTitle.
  assert (Hfix : collapseWhiteSpace (trim title) = trim title).
  { apply replaceWsRuns_fixed. exact (trim_singleSpaced title false Hs). }
  rewrite Hfix.
  pose proof (trim_length title) as Ht.
  destruct (Nat.leb_spec (String.length (trim title)) 60); [reflexivity | lia].
Qed.

(* ================================================================== *)
(** * Properties of the API client *)
(* ================================================================== *)

Lemma orElse_nonempty (a : option string) (b : string) :
  b <> "" -> orElse a b <> "".
Proof.
  intros Hb. unfold orElse. destruct a as [s|]; [|exact Hb].
  destruct (String.eqb_spec s ""); assumption.
Qed.





Lemma isClientError_same (error : Thrown) (e : ApiClientError) :
  isClientError error = Some e -> error = ThrownApiClientError e.
Proof.
  unfold isClientError. destruct error as [e0 | e0]; [|discriminate].
  destruct (ace_status e0) as [status|]; [|discriminate].
  destruct (negb (status =? 0)%Z && (status <? 500)%Z); [|discriminate].
  now intros [= ->].
Qed.



(** C3 fails for a 4xx response whose body is the JSON document [null]:
    reading [message] of [null] raises a [TypeError] inside the [try]
    block, the [catch] clause does not see an [ApiClientError], and the
    client sleeps 1000 ms and fetches again.  With the default
    configuration a 404 of that kind costs two attempts and surfaces as a
    [NETWORK_ERROR] without a status. *)
Theorem request_retries_not_found_with_null_body :
  run (request notFoundWithNullBody API_CONFIG.retries) exampleWorld
  = (Throws (mkApiClientError "Cannot read properties of null (reading 'message')"
                              NETWORK_ERROR
                              (Some [("originalError", Some "TypeError")])
                              None None),
     [Fetch 0; Sleep 1000; Fetch 1]).
Proof. vm_compute. reflexivity. Qed.

(** ** What holds of the retry policy *)

Section RetryPolicy.

Context {T : Type}.
Variable network : Z -> FetchResult T.

(** A failed attempt of the retryable kind reaches the back-off. *)
Lemma attemptBody_server_failure (r : FetchResult T) (w : World) :
  isServerFailure r ->
  exists error w', attemptBody r w = (inr error, w') /\ isClientError error = None.
Proof.
  destruct r as [e | status statusText json]; cbn [isServerFailure]; intros H.
  - eexists. eexists. split; reflexivity.
  - unfold attemptBody.
    assert (Hok : response_ok status = false).
    { unfold response_ok. apply andb_false_intro2. apply Z.leb_gt. lia. }
    rewrite Hok. cbn [negb].
    assert (Hstatus : (negb (status =? 0)%Z && (status <? 500)%Z) = false).
    { apply andb_false_intro2. apply Z.ltb_ge. exact H. }
    destruct json as [e | [| value message details code]];
      try destruct (errorMessage message statusText) as [e1 | text];
      unfold throwApiClientError, createApiError, bind, ret, newDate;
      eexists; eexists; (split; [reflexivity|]);
      cbn [isClientError newApiClientError ace_status]; try rewrite Hstatus; reflexivity.
Qed.

Lemma errorMessage_converts (value : T) (message : option JsonProperty)
      (details : option Details) (code : option string) (statusText : string) :
  messageConverts (inr (JsonValue value message details code)) ->
  exists text, errorMessage message statusText = inr text.
Proof.
  unfold messageConverts, errorMessage. intros H.
  destruct message as [p|]; [|eexists; reflexivity].
  destruct (prop_truthy p); [now apply H | eexists; reflexivity].
Qed.

(** A 4xx response whose error body can be read is thrown as it is
    classified. *)
Lemma attemptBody_client_error (status : Z) (statusText : string)
      (json : JsError + JsonBody T) (w : World) :
  (status < 500)%Z -> status <> 0%Z -> response_ok status = false ->
  json <> inr JsonNull -> messageConverts json ->
  exists e w',
    attemptBody (FetchResolves status statusText json) w
    = (inr (ThrownApiClientError e), w')
    /\ isClientError (ThrownApiClientError e) = Some e
    /\ ace_status e = Some status
    /\ ace_type e = getErrorType status.
Proof.
  intros Hlt Hnz Hok Hjson Hconv. unfold attemptBody.
  rewrite Hok. cbn [negb].
  assert (Hstatus : (negb (status =? 0)%Z && (status <? 500)%Z) = true).
  { apply andb_true_intro. split.
    - apply negb_true_iff. now apply Z.eqb_neq.
    - now apply Z.ltb_lt. }
  destruct json as [e | [| value message details code]];
    [| contradiction Hjson; reflexivity
     | destruct (errorMessage_converts value message details code statusText Hconv)
         as [text ->] ];
    unfold errorMessage, throwApiClientError, createApiError, bind, ret, newDate;
    eexists; eexists; (split; [reflexivity|]);
    cbn [isClientError newApiClientError ace_status ace_type e_type];
    rewrite Hstatus; repeat split.
Qed.

(** [n] retryable failures in a row, none of them the last attempt, are
    each followed by a sleep of 1000 ms times the number of the attempt,
    counted from one. *)
Lemma retryLoop_backs_off (retries : Z) (n : nat) :
  forall (k : nat) (rest : list Z) (lastError : option Thrown)
         (trace : list Event) (w : World),
    (Z.of_nat (k + n) <= retries)%Z ->
    (forall i, k <= i < k + n -> isServerFailure (network (Z.of_nat i))) ->
    exists lastError' w',
      retryLoop network retries (map Z.of_nat (seq k n) ++ rest) lastError trace w
      = retryLoop network retries rest lastError' (trace ++ backoffPrefix n k) w'
      /\ (n = 0 -> lastError' = lastError).
Proof.
  induction n as [|n IH]; intros k rest lastError trace w Hle Hfail.
  - exists lastError, w. cbn. rewrite app_nil_r. split; reflexivity.
  - cbn [seq map app retryLoop].
    destruct (attemptBody_server_failure (network (Z.of_nat k)) w) as (error & w1 & E & Ec).
    { apply Hfail. lia. }
    unfold bind at 1. rewrite E, Ec.
    replace (Z.of_nat k =? retries)%Z with false by (symmetry; apply Z.eqb_neq; lia).
    destruct (IH (S k) rest (Some error)
                 ((trace ++ [Fetch (Z.of_nat k)]) ++ [Sleep (1000 * (Z.of_nat k + 1))]) w1)
      as (lastError' & w' & Eloop & _).
    { lia. }
    { intros i Hi. apply Hfail. lia. }
    exists lastError', w'. split; [|discriminate].
    rewrite Eloop. f_equal. cbn [backoffPrefix].
    rewrite <- !app_assoc. reflexivity.
Qed.

Lemma attemptRange_split (m : nat) :
  attemptRange (Z.of_nat m) = map Z.of_nat (seq 0 m) ++ [Z.of_nat m].
Proof.
  unfold attemptRange.
  replace (Z.to_nat (Z.of_nat m + 1)) with (S m) by lia.
  rewrite seq_S, map_app. reflexivity.
Qed.

Lemma attemptRange_prefix (m k : nat) :
  k <= m ->
  attemptRange (Z.of_nat m)
  = map Z.of_nat (seq 0 k) ++ Z.of_nat k :: map Z.of_nat (seq (S k) (m - k)).
Proof.
  intros H. unfold attemptRange.
  replace (Z.to_nat (Z.of_nat m + 1)) with (k + S (m - k)) by lia.
  rewrite seq_app, map_app. reflexivity.
Qed.

(** A 4xx response with a readable error body is not retried: after [k]
    retryable failures, a 4xx response at attempt [k] whose body is not
    [null] and whose message converts to a string ends the request there
    with its classified error.  For [k = 0] the request makes exactly one
    attempt. *)
Lemma client_error_is_not_retried (m k : nat) (status : Z) (statusText : string)
      (json : JsError + JsonBody T) (w : World) :
  k <= m ->
  (forall i, i < k -> isServerFailure (network (Z.of_nat i))) ->
  network (Z.of_nat k) = FetchResolves status statusText json ->
  (400 <= status <= 499)%Z -> json <> inr JsonNull -> messageConverts json ->
  exists e,
    run (request network (Z.of_nat m)) w
    = (Throws e, backoffPrefix k 0 ++ [Fetch (Z.of_nat k)])
    /\ ace_status e = Some status
    /\ ace_type e = getErrorType status.
Proof.
  intros Hk Hfail Hnet Hrange Hjson Hconv.
  unfold run, request. rewrite (attemptRange_prefix m k Hk).
  destruct (retryLoop_backs_off (Z.of_nat m) k 0
              (Z.of_nat k :: map Z.of_nat (seq (S k) (m - k))) None [] w)
    as (lastError' & w' & Eloop & _).
  { lia. } { intros i Hi. apply Hfail. lia. }
  rewrite Eloop. cbn [retryLoop app].
  destruct (attemptBody_client_error status statusText json w') as (e & w'' & E & Ec & Hs & Ht);
    [lia | lia | unfold response_ok; apply andb_false_intro2; apply Z.leb_gt; lia
     | exact Hjson | exact Hconv |].
  unfold bind at 1. rewrite Hnet, E, Ec. unfold ret. cbn [fst].
  exists e. repeat split; assumption.
Qed.

(** Network failures and 5xx responses are retried until the attempts are
    used up: [m + 1] attempts for [m] retries, with sleeps of 1000, 2000,
    ... ms in between, and what is thrown is made from the failure of the
    last attempt. *)
Lemma server_failures_use_all_attempts (m : nat) (w : World) :
  (forall i, i <= m -> isServerFailure (network (Z.of_nat i))) ->
  exists e error w1 w2,
    run (request network (Z.of_nat m)) w
    = (Throws e, backoffPrefix m 0 ++ [Fetch (Z.of_nat m)])
    /\ attemptBody (network (Z.of_nat m)) w1 = (inr error, w2)
    /\ fst (afterRetries (T := T) (Some error) w2) = Throws e.
Proof.
  intros Hfail.
  unfold run, request. rewrite attemptRange_split.
  destruct (retryLoop_backs_off (Z.of_nat m) m 0 [Z.of_nat m] None [] w)
    as (lastError' & w' & Eloop & _).
  { lia. } { intros i Hi. apply Hfail. lia. }
  rewrite Eloop. cbn [retryLoop app].
  destruct (attemptBody_server_failure (network (Z.of_nat m)) w') as (error & w1 & E & Ec).
  { apply Hfail. lia. }
  unfold bind at 1. rewrite E, Ec, Z.eqb_refl.
  unfold bind, ret.
  destruct (afterRetries (T := T) (Some error) w1) as [c w2] eqn:Ea.
  assert (Hc : exists e, c = Throws e).
  { unfold afterRetries, createApiError, bind, ret, newDate in Ea.
    destruct error; inversion Ea; eexists; reflexivity. }
  destruct Hc as [e ->].
  exists e, error, w', w1. cbn [fst]. rewrite Ea. repeat split. exact E.
Qed.

End RetryPolicy.


(** By default one retry: a failing server sees two attempts, 1000 ms
    apart. *)
Example default_retry_schedule :
  API_CONFIG.retries = 1%Z
  /\ snd (run (request (T := unit) internalErrorNetwork API_CONFIG.retries) exampleWorld)
     = [Fetch 0; Sleep 1000; Fetch 1].
Proof. split; vm_compute; reflexivity. Qed.

(* ================================================================== *)
(** * Properties of the ticket view-model *)
(* ================================================================== *)

Lemma loadTickets_on_failure (network : Z -> FetchResult GetTicketsResponse)
      (reset : bool) (s : TicketsState) (w : World) (e : ApiClientError) :
  fst (run (request network API_CONFIG.retries) w) = Throws e ->
  run (loadTickets network reset s) w
  = setIsLoading false (setError (Some (ace_message e)) (setError None (setIsLoading true s))).
Proof.
  unfold run, loadTickets, bind. intros H.
  destruct (request network API_CONFIG.retries w) as [[c trace] w'].
  cbn [fst] in H. subst c. reflexivity.
Qed.




(** The error string can be the empty string: a server that answers 500
    with the body [{"message": []}] makes the client throw an error with
    the message that [String([])] is, and that is what the view-model
    holds after the failed update. *)
Lemma error_string_of_empty_array_message :
  error (fst (run (updateTicket (emptyArrayMessageNetwork (mkUpdateTicketResponse exampleTicket))
                                (t_id exampleTicket) closeUpdate exampleState)
                  exampleWorld))
  = Some "".
Proof. vm_compute. reflexivity. Qed.

Lemma filter_filter {A} (p q : A -> bool) (l : list A) :
  filter q (filter p l) = filter (fun x => p x && q x) l.
Proof.
  induction l as [|x l IH]; cbn; [reflexivity|].
  destruct (p x); cbn; [destruct (q x)|]; now rewrite IH.
Qed.

Lemma filter_all {A} (p : A -> bool) (l : list A) :
  (forall x, p x = true) -> filter p l = l.
Proof.
  intros H. induction l as [|x l IH]; cbn; [reflexivity|]. now rewrite H, IH.
Qed.

(** The local filter is one pass that keeps, in order, the tickets that
    pass every constraint that is present. *)
Lemma filteredTickets_is_filter (tickets : list Ticket) (filters : TicketFilter)
      (searchQuery : string) :
  filteredTickets tickets filters searchQuery
  = filter (passesLocalFilter filters searchQuery) tickets.
Proof.
  unfold filteredTickets, passesLocalFilter.
  destruct (f_status filters) as [[|s0 ss]|];
    destruct (f_category filters) as [[|c0 cs]|];
    destruct (f_priority filters) as [[|p0 ps]|];
    destruct (f_assignedTo filters) as [assignee|];
    try destruct (String.eqb assignee "");
    destruct (String.eqb (trim searchQuery) "");
    cbn [negb orb];
    rewrite ?filter_filter;
    first [apply filter_ext | symmetry; apply filter_all];
    intros ticket; cbn [andb]; rewrite ?andb_true_r, <- ?andb_assoc; reflexivity.
Qed.

(** With the filter [{status: ['open']}] and no search text, the tickets
    kept are the open ones. *)
Lemma filteredTickets_status_open (tickets : list Ticket) :
  filteredTickets tickets (mkTicketFilter (Some [OPEN]) None None None None None None) ""
  = filter (fun ticket => TicketStatus_eqb (t_status ticket) OPEN) tickets.
Proof.
  rewrite filteredTickets_is_filter. apply filter_ext. intros ticket.
  unfold passesLocalFilter. cbn. now rewrite orb_false_r, !andb_true_r.
Qed.

(** C7 fails on the search constraint.  The guard trims the query, and
    [loadTickets] sends the trimmed query to the server, but the local
    match uses the query as typed: with the query " printer" the ticket
    titled "Printer jam" matches the trimmed query and is dropped all the
    same. *)
Theorem filteredTickets_uses_untrimmed_query :
  matchesQuery (toLowerCase (trim " printer")) exampleTicket = true
  /\ serverSearchQuery " printer" = Some "printer"
  /\ filteredTickets [exampleTicket] noFilter " printer" = []
  /\ filteredTickets [exampleTicket] noFilter "printer" = [exampleTicket].
Proof. repeat split; vm_compute; reflexivity. Qed.

(* ================================================================== *)
(** * Further properties of the conversation flow engine *)
(* ================================================================== *)

Lemma processUserInput_response (userInput : string) (conv : ConversationState) (w : World) :
  let locals := fst (switchResult userInput conv w) in
  let response := aiResponse userInput conv w in
  r_content response = aiResponseContent locals
  /\ r_nextStep response = Some (nextStep locals)
  /\ r_suggestions response = nonEmptyOrUndefined (suggestions locals)
  /\ r_categoryOptions response = nonEmptyOrUndefined (categoryOptions locals)
  /\ r_requiresInput response = negb (ConversationStep_eqb (nextStep locals) TICKET_CREATED)
  /\ (completedAtOf userInput conv w = None
      <-> isConversationComplete (nextStep locals) = false).
Proof.
  unfold completedAtOf, updatedConversation, aiResponse, switchResult, run,
    processUserInput, afterUserMessage, bind, ret, uuidv4, newDate.
  cbn [uuidSource uuidCalls clockSource clockCalls].
  destruct (processStep _ _ _ _) as [locals w'].
  cbn [fst snd].
  destruct (isConversationComplete (nextStep locals)); cbn;
    repeat split; try reflexivity; intros H; discriminate H.
Qed.

Lemma validateInput_name_ok (trimmed : string) :
  2 <= String.length (trim trimmed) <= 50 ->
  validateInput trimmed COLLECT_NAME = true.
Proof.
  intros [H1 H2]. unfold validateInput.
  apply andb_true_intro. split; apply Nat.leb_le; assumption.
Qed.

(** X1.  At [GREETING] and [COLLECT_NAME] a name of 2 to 50 code units
    (after trimming) is stored as the user name, nothing else of the
    collected data changes, the step becomes [COLLECT_ISSUE] and the reply
    greets the user by that name. *)
Theorem valid_name_advances_to_issue :
  forall (userInput : string) (conv : ConversationState) (w : World),
    currentStep conv = GREETING \/ currentStep conv = COLLECT_NAME ->
    2 <= String.length (trim userInput) <= 50 ->
    currentStep (updatedConversation userInput conv w) = COLLECT_ISSUE
    /\ collectedData (updatedConversation userInput conv w)
       = set_userName (trim userInput) (collectedData conv)
    /\ r_content (aiResponse userInput conv w) = AI_PROMPTS.COLLECT_ISSUE (trim userInput)
    /\ isComplete (updatedConversation userInput conv w) = false.
Proof.
  intros userInput conv w Hstep Hlen.
  destruct (processUserInput_shape userInput conv w) as (Hnext & Hdata & Hcomplete & _).
  destruct (processUserInput_response userInput conv w) as (Hcontent & _).
  assert (Hsw : fst (switchResult userInput conv w) =
                mkLocals (set_userName (trim userInput) (collectedData conv))
                         COLLECT_ISSUE (AI_PROMPTS.COLLECT_ISSUE (trim userInput))
                         ty_question [] []).
  { unfold switchResult, processStep.
    destruct Hstep as [E | E]; rewrite E;
      rewrite validateInput_name_ok by (now rewrite trim_idempotent); reflexivity. }
  rewrite Hsw in *. cbn in Hnext, Hdata, Hcomplete, Hcontent.
  repeat split; assumption.
Qed.

Lemma valid_name_advances_to_issue_witness :
  currentStep (updatedConversation "  Alice Johnson " exampleStart exampleWorld)
  = COLLECT_ISSUE
  /\ collectedData (updatedConversation "  Alice Johnson " exampleStart exampleWorld)
     = set_userName "Alice Johnson" (collectedData exampleStart)
  /\ r_content (aiResponse "  Alice Johnson " exampleStart exampleWorld)
     = AI_PROMPTS.COLLECT_ISSUE "Alice Johnson"
  /\ isComplete (updatedConversation "  Alice Johnson " exampleStart exampleWorld) = false.
Proof.
  refine (valid_name_advances_to_issue "  Alice Johnson " exampleStart exampleWorld _ _).
  - left. reflexivity.
  - simpl. lia.
Defined.

(** X2.  At [COLLECT_ISSUE] a description of at least 10 code units (after
    trimming) is stored together with the title derived from it, the step
    becomes [CLARIFY_DETAILS], and the stored title has at most 60 code
    units. *)
Theorem valid_issue_advances_to_details :
  forall (userInput : string) (conv : ConversationState) (w : World),
    currentStep conv = COLLECT_ISSUE ->
    10 <= String.length (trim userInput) ->
    currentStep (updatedConversation userInput conv w) = CLARIFY_DETAILS
    /\ collectedData (updatedConversation userInput conv w)
       = set_issueTitle (generateIssueTitle (trim userInput))
           (set_issueDescription (trim userInput) (collectedData conv))
    /\ (exists title,
           issueTitle (collectedData (updatedConversation userInput conv w)) = Some title
           /\ String.length title <= 60)
    /\ r_content (aiResponse userInput conv w) = AI_PROMPTS.CLARIFY_DETAILS.
Proof.
  intros userInput conv w Hstep Hlen.
  destruct (processUserInput_shape userInput conv w) as (Hnext & Hdata & _).
  destruct (processUserInput_response userInput conv w) as (Hcontent & _).
  assert (Hsw : fst (switchResult userInput conv w) =
                mkLocals (set_issueTitle (generateIssueTitle (trim userInput))
                            (set_issueDescription (trim userInput) (collectedData conv)))
                         CLARIFY_DETAILS AI_PROMPTS.CLARIFY_DETAILS ty_question [] []).
  { unfold switchResult, processStep. rewrite Hstep.
    unfold validateInput. rewrite trim_idempotent.
    apply Nat.leb_le in Hlen. rewrite Hlen. reflexivity. }
  rewrite Hsw in *.
  cbn [nextStep updatedCollectedData aiResponseContent] in Hnext, Hdata, Hcontent.
  split; [exact Hnext|]. split; [exact Hdata|]. split; [|exact Hcontent].
  rewrite Hdata. eexists. split; [reflexivity|].
  apply generateIssueTitle_shape.
Qed.

Lemma valid_issue_advances_to_details_witness :
  currentStep (updatedConversation "My invoice was double-charged this month"
                 (exampleAt 1) exampleWorld) = CLARIFY_DETAILS
  /\ collectedData (updatedConversation "My invoice was double-charged this month"
                      (exampleAt 1) exampleWorld)
     = set_issueTitle
         (generateIssueTitle (trim "My invoice was double-charged this month"))
         (set_issueDescription (trim "My invoice was double-charged this month")
            (collectedData (exampleAt 1)))
  /\ (exists title,
         issueTitle (collectedData
                       (updatedConversation "My invoice was double-charged this month"
                          (exampleAt 1) exampleWorld)) = Some title
         /\ String.length title <= 60)
  /\ r_content (aiResponse "My invoice was double-charged this month"
                  (exampleAt 1) exampleWorld) = AI_PROMPTS.CLARIFY_DETAILS.
Proof.
  refine (valid_issue_advances_to_details "My invoice was double-charged this month"
            (exampleAt 1) exampleWorld _ _).
  - vm_compute. reflexivity.
  - vm_compute. lia.
Defined.

(** What [detectCategory] can return: [GENERAL] when no keyword occurs,
    else a category with a positive count. *)
Lemma detectCategory_cases (text : string) :
  ((forall c, keywordCount c text = 0) /\ detectCategory text = GENERAL)
  \/ 0 < keywordCount (detectCategory text) text.
Proof.
  destruct (top_of_table (countMatches technicalKeywords (toLowerCase text))
                         (countMatches billingKeywords (toLowerCase text))
                         (countMatches accountKeywords (toLowerCase text))
                         (countMatches featureKeywords (toLowerCase text))
                         (countMatches bugKeywords (toLowerCase text)))
    as [H | [H _]]; [left | right]; exact H.
Qed.

Lemma detectCategory_not_other (text : string) : detectCategory text <> OTHER.
Proof.
  destruct (detectCategory_cases text) as [[_ Hgen] | Hpos].
  - rewrite Hgen. discriminate.
  - intros E. rewrite E in Hpos. cbv in Hpos. lia.
Qed.

(** X3.  [detectCategory] answers [GENERAL] exactly when no keyword of
    any list occurs in the text, and it never answers [OTHER]. *)
Theorem detectCategory_general_iff_no_keyword :
  forall text : string,
    (detectCategory text = GENERAL <-> forall c, keywordCount c text = 0)
    /\ detectCategory text <> OTHER.
Proof.
  intros text. split; [|apply detectCategory_not_other].
  destruct (detectCategory_cases text) as [[Hzero Hgen] | Hpos].
  - split; [intros _; exact Hzero | intros _; exact Hgen].
  - split.
    + intros E. rewrite E in Hpos. cbv in Hpos. lia.
    + intros Hzero. rewrite Hzero in Hpos. lia.
Qed.

(** X4.  At [CLARIFY_DETAILS] a detail of at least 5 code units (after
    trimming) is appended to the details, the category detected in the
    description followed by a space and the detail is stored as the
    suggestion, which is never "other", and the step becomes
    [SUGGEST_CATEGORY] with the yes and no quick replies. *)
Theorem valid_detail_suggests_category :
  forall (userInput : string) (conv : ConversationState) (w : World),
    currentStep conv = CLARIFY_DETAILS ->
    5 <= String.length (trim userInput) ->
    let detected :=
      detectCategory (interpolate (issueDescription (collectedData conv))
                      ++ " " ++ trim userInput)%string in
    currentStep (updatedConversation userInput conv w) = SUGGEST_CATEGORY
    /\ collectedData (updatedConversation userInput conv w)
       = set_suggestedCategory (Some (categoryValue detected))
           (push_additionalDetails (trim userInput) (collectedData conv))
    /\ additionalDetails (collectedData (updatedConversation userInput conv w))
       = additionalDetails (collectedData conv) ++ [trim userInput]
    /\ suggestedCategory (collectedData (updatedConversation userInput conv w))
       <> Some "other"
    /\ r_type (aiResponse userInput conv w) = ty_category_suggestion
    /\ r_suggestions (aiResponse userInput conv w)
       = Some ["Yes"; "Correct"; "That's right"; "No"; "Not quite"; "Different category"].
Proof.
  intros userInput conv w Hstep Hlen detected.
  destruct (processUserInput_shape userInput conv w)
    as (Hnext & Hdata & _ & _ & Htype & _).
  destruct (processUserInput_response userInput conv w) as (_ & _ & Hsugg & _).
  assert (Hsw : fst (switchResult userInput conv w) =
                mkLocals (set_suggestedCategory (Some (categoryValue detected))
                            (push_additionalDetails (trim userInput) (collectedData conv)))
                         SUGGEST_CATEGORY
                         (AI_PROMPTS.SUGGEST_CATEGORY
                            (getCategoryDisplayName (categoryValue detected)))
                         ty_category_suggestion
                         (AI_PROMPTS.QUICK_REPLIES_YES ++ AI_PROMPTS.QUICK_REPLIES_NO) []).
  { unfold switchResult, processStep. rewrite Hstep.
    unfold validateInput. rewrite trim_idempotent.
    apply Nat.leb_le in Hlen. rewrite Hlen. reflexivity. }
  rewrite Hsw in *.
  cbn [nextStep updatedCollectedData aiResponseType suggestions] in Hnext, Hdata, Htype, Hsugg.
  split; [exact Hnext|]. split; [exact Hdata|].
  rewrite Hdata. split; [reflexivity|]. split; [|split; [exact Htype | exact Hsugg]].
  cbn [suggestedCategory set_suggestedCategory].
  pose proof (detectCategory_not_other
                (interpolate (issueDescription (collectedData conv))
                 ++ " " ++ trim userInput)%string) as Hother.
  fold detected in Hother.
  destruct detected; try discriminate. contradiction Hother. reflexivity.
Qed.

Lemma valid_detail_suggests_category_witness :
  currentStep (updatedConversation "It happened twice on the 1st and the 15th"
                 (exampleAt 2) exampleWorld) = SUGGEST_CATEGORY
  /\ suggestedCategory
       (collectedData (updatedConversation "It happened twice on the 1st and the 15th"
                         (exampleAt 2) exampleWorld)) = Some "billing"
  /\ additionalDetails
       (collectedData (updatedConversation "It happened twice on the 1st and the 15th"
                         (exampleAt 2) exampleWorld))
     = ["It happened twice on the 1st and the 15th"].
Proof.
  pose proof (valid_detail_suggests_category
                "It happened twice on the 1st and the 15th" (exampleAt 2) exampleWorld
                ltac:(vm_compute; reflexivity) ltac:(vm_compute; lia)) as H.
  cbv zeta in H. destruct H as (H1 & H2 & H3 & _).
  split; [exact H1|]. split.
  - rewrite H2. vm_compute. reflexivity.
  - rewrite H3. vm_compute. reflexivity.
Defined.

(** X5.  At [SUGGEST_CATEGORY] and [CONFIRM_CATEGORY] an affirming answer
    copies the suggested category into the confirmed category, absent
    when no suggestion is stored, changes nothing else of the collected
    data, and moves to [FINAL_CONFIRMATION]. *)
Theorem affirming_answer_confirms_suggestion :
  forall (userInput : string) (conv : ConversationState) (w : World),
    currentStep conv = SUGGEST_CATEGORY \/ currentStep conv = CONFIRM_CATEGORY ->
    isPositiveResponse (trim userInput) = true ->
    currentStep (updatedConversation userInput conv w) = FINAL_CONFIRMATION
    /\ collectedData (updatedConversation userInput conv w)
       = set_confirmedCategory (suggestedCategory (collectedData conv)) (collectedData conv)
    /\ r_type (aiResponse userInput conv w) = ty_confirmation
    /\ r_suggestions (aiResponse userInput conv w)
       = Some ["Yes"; "Correct"; "That's right"; "Make changes"].
Proof.
  intros userInput conv w Hstep Hyes.
  destruct (processUserInput_shape userInput conv w)
    as (Hnext & Hdata & _ & _ & Htype & _).
  destruct (processUserInput_response userInput conv w) as (_ & _ & Hsugg & _).
  unfold switchResult, processStep in *.
  destruct Hstep as [E | E]; rewrite E in *; rewrite Hyes in *;
    cbn [fst ret nextStep updatedCollectedData aiResponseType suggestions]
      in Hnext, Hdata, Htype, Hsugg;
    repeat split; assumption.
Qed.

Lemma affirming_answer_confirms_suggestion_witness :
  currentStep (updatedConversation " YES " (exampleAt 3) exampleWorld) = FINAL_CONFIRMATION
  /\ collectedData (updatedConversation " YES " (exampleAt 3) exampleWorld)
     = set_confirmedCategory (suggestedCategory (collectedData (exampleAt 3)))
                             (collectedData (exampleAt 3))
  /\ r_type (aiResponse " YES " (exampleAt 3) exampleWorld) = ty_confirmation
  /\ r_suggestions (aiResponse " YES " (exampleAt 3) exampleWorld)
     = Some ["Yes"; "Correct"; "That's right"; "Make changes"].
Proof.
  refine (affirming_answer_confirms_suggestion " YES " (exampleAt 3) exampleWorld _ _).
  - left. vm_compute. reflexivity.
  - vm_compute. reflexivity.
Defined.

Lemma mentionedCategory_find (trimmedInput : string) :
  mentionedCategory trimmedInput = find (mentions trimmedInput) TicketCategory_values.
Proof. reflexivity. Qed.

(** X6.  The category that counts as mentioned is the first one in
    declaration order whose value or display name occurs in the
    lower-cased input; none is found exactly when none occurs. *)
Theorem mentionedCategory_is_first_mentioned :
  forall trimmedInput : string,
    match mentionedCategory trimmedInput with
    | Some category =>
        mentions trimmedInput category = true
        /\ forall earlier,
            declarationIndex earlier < declarationIndex category ->
            mentions trimmedInput earlier = false
    | None => forall category, mentions trimmedInput category = false
    end.
Proof.
  intros trimmedInput. rewrite mentionedCategory_find. unfold TicketCategory_values.
  cbn [find].
  destruct (mentions trimmedInput TECHNICAL) eqn:E1;
    [split; [exact E1 | intros [] H; cbn in H; lia]|].
  destruct (mentions trimmedInput BILLING) eqn:E2;
    [split; [exact E2 | intros [] H; cbn in H; first [lia | assumption]]|].
  destruct (mentions trimmedInput ACCOUNT) eqn:E3;
    [split; [exact E3 | intros [] H; cbn in H; first [lia | assumption]]|].
  destruct (mentions trimmedInput FEATURE_REQUEST) eqn:E4;
    [split; [exact E4 | intros [] H; cbn in H; first [lia | assumption]]|].
  destruct (mentions trimmedInput BUG_REPORT) eqn:E5;
    [split; [exact E5 | intros [] H; cbn in H; first [lia | assumption]]|].
  destruct (mentions trimmedInput GENERAL) eqn:E6;
    [split; [exact E6 | intros [] H; cbn in H; first [lia | assumption]]|].
  destruct (mentions trimmedInput OTHER) eqn:E7;
    [split; [exact E7 | intros [] H; cbn in H; first [lia | assumption]]|].
  intros []; assumption.
Qed.

Lemma option_answer_is_recognised (c : TicketCategory) :
  isPositiveResponse (getCategoryDisplayName (categoryValue c)) = false
  /\ mentionedCategory (getCategoryDisplayName (categoryValue c)) = Some c.
Proof. destruct c; split; vm_compute; reflexivity. Qed.

(** X7.  The options offered for the category are the display names of
    the seven categories, and answering with one of them at
    [SUGGEST_CATEGORY] or [CONFIRM_CATEGORY] stores that category as
    suggested and as confirmed and moves to [FINAL_CONFIRMATION]. *)
Theorem offered_option_confirms_its_category :
  AI_PROMPTS.CATEGORY_OPTIONS
  = map (fun c => getCategoryDisplayName (categoryValue c)) TicketCategory_values
  /\ forall (c : TicketCategory) (userInput : string)
            (conv : ConversationState) (w : World),
      currentStep conv = SUGGEST_CATEGORY \/ currentStep conv = CONFIRM_CATEGORY ->
      trim userInput = getCategoryDisplayName (categoryValue c) ->
      currentStep (updatedConversation userInput conv w) = FINAL_CONFIRMATION
      /\ collectedData (updatedConversation userInput conv w)
         = set_confirmedCategory (Some (categoryValue c))
             (set_suggestedCategory (Some (categoryValue c)) (collectedData conv)).
Proof.
  split; [reflexivity|].
  intros c userInput conv w Hstep Htrim.
  destruct (processUserInput_shape userInput conv w) as (Hnext & Hdata & _).
  destruct (option_answer_is_recognised c) as [Hno Hmention].
  unfold switchResult, processStep in *.
  destruct Hstep as [E | E]; rewrite E in *; rewrite Htrim, Hno, Hmention in *;
    cbn [fst ret nextStep updatedCollectedData] in Hnext, Hdata;
    split; assumption.
Qed.

Lemma offered_option_confirms_its_category_witness :
  currentStep (updatedConversation "Bug Report" (exampleAt 3) exampleWorld)
  = FINAL_CONFIRMATION
  /\ collectedData (updatedConversation "Bug Report" (exampleAt 3) exampleWorld)
     = set_confirmedCategory (Some (categoryValue BUG_REPORT))
         (set_suggestedCategory (Some (categoryValue BUG_REPORT))
            (collectedData (exampleAt 3))).
Proof.
  refine (proj2 offered_option_confirms_its_category BUG_REPORT "Bug Report"
                (exampleAt 3) exampleWorld _ _).
  - left. vm_compute. reflexivity.
  - vm_compute. reflexivity.
Defined.

(** X8.  At [SUGGEST_CATEGORY] and [CONFIRM_CATEGORY] an answer that
    neither affirms nor mentions a category leaves the collected data as
    they were, moves to (or stays at) [CONFIRM_CATEGORY] and offers the
    seven category options. *)
Theorem unrecognised_answer_asks_for_category :
  forall (userInput : string) (conv : ConversationState) (w : World),
    currentStep conv = SUGGEST_CATEGORY \/ currentStep conv = CONFIRM_CATEGORY ->
    isPositiveResponse (trim userInput) = false ->
    mentionedCategory (trim userInput) = None ->
    currentStep (updatedConversation userInput conv w) = CONFIRM_CATEGORY
    /\ collectedData (updatedConversation userInput conv w) = collectedData conv
    /\ r_type (aiResponse userInput conv w) = ty_category_suggestion
    /\ r_categoryOptions (aiResponse userInput conv w) = Some AI_PROMPTS.CATEGORY_OPTIONS
    /\ r_suggestions (aiResponse userInput conv w) = None.
Proof.
  intros userInput conv w Hstep Hno Hnone.
  destruct (processUserInput_shape userInput conv w)
    as (Hnext & Hdata & _ & _ & Htype & _).
  destruct (processUserInput_response userInput conv w) as (_ & _ & Hsugg & Hopts & _).
  unfold switchResult, processStep in *.
  destruct Hstep as [E | E]; rewrite E in *; rewrite Hno, Hnone in *;
    cbn [fst ret nextStep updatedCollectedData aiResponseType suggestions categoryOptions]
      in Hnext, Hdata, Htype, Hsugg, Hopts;
    repeat split; assumption.
Qed.

Lemma unrecognised_answer_asks_for_category_witness :
  currentStep (updatedConversation "no" (exampleAt 3) exampleWorld) = CONFIRM_CATEGORY
  /\ collectedData (updatedConversation "no" (exampleAt 3) exampleWorld)
     = collectedData (exampleAt 3)
  /\ r_type (aiResponse "no" (exampleAt 3) exampleWorld) = ty_category_suggestion
  /\ r_categoryOptions (aiResponse "no" (exampleAt 3) exampleWorld)
     = Some AI_PROMPTS.CATEGORY_OPTIONS
  /\ r_suggestions (aiResponse "no" (exampleAt 3) exampleWorld) = None.
Proof.
  refine (unrecognised_answer_asks_for_category "no" (exampleAt 3) exampleWorld _ _ _).
  - left. vm_compute. reflexivity.
  - vm_compute. reflexivity.
  - vm_compute. reflexivity.
Defined.

Lemma mentionedCategory_is_first_mentioned_witness :
  mentions "billing, not technical" TECHNICAL = true
  /\ forall earlier,
      declarationIndex earlier < declarationIndex TECHNICAL ->
      mentions "billing, not technical" earlier = false.
Proof. exact (mentionedCategory_is_first_mentioned "billing, not technical"). Defined.

(** X9.  At [FINAL_CONFIRMATION] an affirming answer completes the
    conversation: the step is [TICKET_CREATED], the state is complete and
    carries a completion time, no further input is required, title and
    confirmed category are set to non-empty values (the stored ones, or
    "Support Request" and "general" in their place), and the reply shows
    a fresh ticket identifier, which the state does not record. *)
Theorem final_affirmation_completes :
  forall (userInput : string) (conv : ConversationState) (w : World),
    currentStep conv = FINAL_CONFIRMATION ->
    isConfirmed (trim userInput) = true ->
    currentStep (updatedConversation userInput conv w) = TICKET_CREATED
    /\ isComplete (updatedConversation userInput conv w) = true
    /\ completedAt (updatedConversation userInput conv w) <> None
    /\ r_requiresInput (aiResponse userInput conv w) = false
    /\ r_type (aiResponse userInput conv w) = ty_success
    /\ collectedData (updatedConversation userInput conv w)
       = set_confirmedCategory
           (Some (orElse (confirmedCategory (collectedData conv)) "general"))
           (set_issueTitle (orElse (issueTitle (collectedData conv)) "Support Request")
                           (collectedData conv))
    /\ (exists title category,
           issueTitle (collectedData (updatedConversation userInput conv w)) = Some title
           /\ confirmedCategory (collectedData (updatedConversation userInput conv w))
              = Some category
           /\ title <> "" /\ category <> "")
    /\ r_content (aiResponse userInput conv w)
       = AI_PROMPTS.TICKET_CREATED (uuidSource w (S (uuidCalls w)))
    /\ createdTicketId (updatedConversation userInput conv w) = createdTicketId conv.
Proof.
  intros userInput conv w Hstep Hyes.
  destruct (processUserInput_shape userInput conv w)
    as (Hnext & Hdata & Hcomplete & _ & Htype & _ & Hticket & _).
  destruct (processUserInput_response userInput conv w)
    as (Hcontent & _ & _ & _ & Hrequires & Hat).
  unfold switchResult, processStep in *.
  rewrite Hstep, Hyes in *.
  unfold bind, ret, uuidv4, afterUserMessage in *.
  cbn [fst uuidSource uuidCalls nextStep updatedCollectedData aiResponseType
       aiResponseContent]
    in Hnext, Hdata, Hcomplete, Htype, Hcontent, Hrequires, Hat.
  split; [exact Hnext|]. split; [exact Hcomplete|].
  split; [intros E; apply Hat in E; discriminate E|].
  split; [exact Hrequires|]. split; [exact Htype|]. split; [exact Hdata|].
  split; [|split; [exact Hcontent | exact Hticket]].
  rewrite Hdata. eexists. eexists.
  split; [reflexivity|]. split; [reflexivity|].
  split; apply orElse_nonempty; discriminate.
Qed.

Lemma final_affirmation_completes_witness :
  currentStep (updatedConversation "Submit" exampleConfirming exampleWorld) = TICKET_CREATED
  /\ isComplete (updatedConversation "Submit" exampleConfirming exampleWorld) = true
  /\ completedAt (updatedConversation "Submit" exampleConfirming exampleWorld) <> None
  /\ r_requiresInput (aiResponse "Submit" exampleConfirming exampleWorld) = false
  /\ r_type (aiResponse "Submit" exampleConfirming exampleWorld) = ty_success
  /\ collectedData (updatedConversation "Submit" exampleConfirming exampleWorld)
     = set_confirmedCategory
         (Some (orElse (confirmedCategory (collectedData exampleConfirming)) "general"))
         (set_issueTitle
            (orElse (issueTitle (collectedData exampleConfirming)) "Support Request")
            (collectedData exampleConfirming))
  /\ (exists title category,
         issueTitle (collectedData
                       (updatedConversation "Submit" exampleConfirming exampleWorld))
         = Some title
         /\ confirmedCategory
              (collectedData (updatedConversation "Submit" exampleConfirming exampleWorld))
            = Some category
         /\ title <> "" /\ category <> "")
  /\ r_content (aiResponse "Submit" exampleConfirming exampleWorld)
     = AI_PROMPTS.TICKET_CREATED (uuidSource exampleWorld (S (uuidCalls exampleWorld)))
  /\ createdTicketId (updatedConversation "Submit" exampleConfirming exampleWorld)
     = createdTicketId exampleConfirming.
Proof.
  refine (final_affirmation_completes "Submit" exampleConfirming exampleWorld _ _).
  - reflexivity.
  - vm_compute. reflexivity.
Defined.

Lemma last_default_irrelevant {A} (l : list A) :
  forall x d d', last (x :: l) d = last (x :: l) d'.
Proof.
  induction l as [|y l IH]; intros x d d'; [reflexivity|].
  change (last (y :: l) d = last (y :: l) d'). apply IH.
Qed.

Lemma trajectory_step (userInput : string) (rest : list string)
      (conv : ConversationState) (w : World) :
  trajectory (userInput :: rest) conv w
  = conv :: trajectory rest (updatedConversation userInput conv w)
                       (snd (processUserInput userInput conv w)).
Proof.
  cbn [trajectory]. unfold updatedConversation, run.
  destruct (processUserInput userInput conv w) as [result w']. reflexivity.
Qed.

Lemma messages_grow_by_two (userInput : string) (conv : ConversationState) (w : World) :
  exists userMessage aiMessage,
    messages (updatedConversation userInput conv w)
    = messages conv ++ [userMessage; aiMessage]
    /\ msg_role userMessage = USER /\ msg_content userMessage = trim userInput
    /\ msg_role aiMessage = ASSISTANT.
Proof.
  destruct (processUserInput_shape userInput conv w) as (_ & _ & _ & Hmsgs & _).
  eexists. eexists. split; [exact Hmsgs|]. repeat split.
Qed.

(** X10.  The message list is append-only: whatever the step and the
    input, one call keeps the messages it found and appends the user's
    trimmed text and one assistant message, in that order; after [n]
    calls every state on the way still begins with the messages of the
    first, and the last state has [2 * n] more. *)
Theorem messages_are_append_only :
  (forall (userInput : string) (conv : ConversationState) (w : World),
      exists userMessage aiMessage,
        messages (updatedConversation userInput conv w)
        = messages conv ++ [userMessage; aiMessage]
        /\ msg_role userMessage = USER /\ msg_content userMessage = trim userInput
        /\ msg_role aiMessage = ASSISTANT)
  /\ (forall (inputs : list string) (conv : ConversationState) (w : World),
         Forall (fun state => exists appended, messages state = messages conv ++ appended)
                (trajectory inputs conv w)
         /\ exists appended,
             messages (finalState inputs conv w) = messages conv ++ appended
             /\ List.length appended = 2 * List.length inputs).
Proof.
  split; [exact messages_grow_by_two|].
  induction inputs as [|userInput rest IH]; intros conv w.
  - cbn. split.
    + constructor; [|constructor]. exists []. now rewrite app_nil_r.
    + exists []. now rewrite app_nil_r.
  - unfold finalState. rewrite trajectory_step.
    destruct (messages_grow_by_two userInput conv w) as (um & am & Hm & _).
    destruct (IH (updatedConversation userInput conv w)
                 (snd (processUserInput userInput conv w))) as [Hall (appended & Hlast & Hlen)].
    split.
    + constructor.
      * exists []. now rewrite app_nil_r.
      * eapply Forall_impl; [|exact Hall].
        intros state [app Happ]. exists ([um; am] ++ app).
        rewrite Happ, Hm, <- app_assoc. reflexivity.
    + exists ([um; am] ++ appended). split.
      * unfold finalState in Hlast.
        destruct (trajectory_head rest (updatedConversation userInput conv w)
                    (snd (processUserInput userInput conv w))) as [tl Htl].
        rewrite Htl in Hlast |- *.
        change (last (conv :: updatedConversation userInput conv w :: tl) conv)
          with (last (updatedConversation userInput conv w :: tl) conv).
        rewrite (last_default_irrelevant tl _ conv
                   (updatedConversation userInput conv w)).
        rewrite Hlast, Hm, <- app_assoc. reflexivity.
      * rewrite length_app, Hlen. cbn [List.length]. lia.
Qed.

(* ================================================================== *)
(** * Further properties of the answers, the title and the ticket data *)
(* ================================================================== *)

Lemma in_allCodeUnits (c : ascii) : In c allCodeUnits.
Proof.
  unfold allCodeUnits. rewrite <- (ascii_nat_embedding c).
  apply in_map. apply in_seq. pose proof (nat_ascii_bounded c). lia.
Qed.

(** Under the [i] flag a lower-case letter of a pattern matches, among
    the code units U+0000 to U+00FF, exactly those whose lower case it
    is. *)
Lemma canonicalize_letter (p c : ascii) :
  isLowerAsciiLetter p = true ->
  (canonicalize p =? canonicalize c) = Ascii.eqb p (toLowerCaseUnit c).
Proof.
  assert (Hall : forallb (fun p =>
                   implb (isLowerAsciiLetter p)
                     (forallb (fun c =>
                        Bool.eqb (canonicalize p =? canonicalize c)
                                 (Ascii.eqb p (toLowerCaseUnit c)))
                        allCodeUnits))
                   allCodeUnits = true)
    by (vm_compute; reflexivity).
  intros Hp. rewrite forallb_forall in Hall.
  specialize (Hall p (in_allCodeUnits p)). rewrite Hp in Hall. cbn [implb] in Hall.
  rewrite forallb_forall in Hall.
  apply Bool.eqb_prop. exact (Hall c (in_allCodeUnits c)).
Qed.

Lemma matchesIgnoreCase_letters (pattern : string) :
  forall s,
    forallb isLowerAsciiLetter (list_ascii_of_string pattern) = true ->
    matchesIgnoreCase pattern s = String.eqb pattern (toLowerCase s).
Proof.
  induction pattern as [|p pattern IH]; intros [|c s] H; try reflexivity.
  cbn [list_ascii_of_string forallb] in H. apply andb_prop in H. destruct H as [Hp Hrest].
  cbn [matchesIgnoreCase toLowerCase String.eqb].
  rewrite (canonicalize_letter p c Hp), (IH s Hrest).
  destruct (Ascii.eqb p (toLowerCaseUnit c)); reflexivity.
Qed.

Lemma eqb_in_list (x : string) (l : list string) :
  existsb (fun a => String.eqb a x) l = true <-> In x l.
Proof.
  rewrite existsb_exists. split.
  - intros (a & Ha & E). apply String.eqb_eq in E. now subst.
  - intros H. exists x. split; [exact H | apply String.eqb_refl].
Qed.

(** X11.  Of the answers whose code units all lie in U+0000..U+00FF (the
    strings of this development): an answer affirms a suggested category
    exactly when its lower case is one of yes, y, correct, right, ok,
    okay, sure, yep, yeah or "that's right"; it affirms the final
    confirmation exactly when its lower case is one of yes, y, correct,
    create, submit, ok, okay, sure, yep, yeah or "that's right".  Upper
    and lower case are not told apart, and nothing may surround the word.
    (Beyond that range the two sides part: U+212A, the Kelvin sign, has
    the lower case k but is not matched by a k of the pattern.) *)
Theorem affirmative_answers_are_exactly :
  forall trimmedInput : string,
    (isPositiveResponse trimmedInput = true
     <-> In (toLowerCase trimmedInput)
            ["yes"; "y"; "correct"; "right"; "ok"; "okay"; "sure"; "yep"; "yeah";
             "that's right"])
    /\ (isConfirmed trimmedInput = true
        <-> In (toLowerCase trimmedInput)
               ["yes"; "y"; "correct"; "create"; "submit"; "ok"; "okay"; "sure"; "yep";
                "yeah"; "that's right"]).
Proof.
  intros s.
  assert (Hquick : isQuickReplyYes s = true
                   <-> In (toLowerCase s) ["yes"; "correct"; "that's right"]).
  { unfold isQuickReplyYes, AI_PROMPTS.QUICK_REPLIES_YES. cbn [existsb].
    change (toLowerCase "Yes") with "yes". change (toLowerCase "Correct") with "correct".
    change (toLowerCase "That's right") with "that's right".
    rewrite !orb_true_iff, !String.eqb_eq. cbn [In]. intuition congruence. }
  unfold isPositiveResponse, isConfirmed, testAnchoredAlternatives.
  cbn [existsb].
  rewrite !matchesIgnoreCase_letters by (vm_compute; reflexivity).
  rewrite !orb_true_iff, !String.eqb_eq, Hquick. cbn [In].
  split; intuition congruence.
Qed.

(** X12.  Whatever the description, the derived title has at most 60
    code units, and its only white space is single spaces: no tab, line
    break or run of spaces survives. *)
Theorem generateIssueTitle_is_short_and_single_spaced :
  forall description : string,
    String.length (generateIssueTitle description) <= 60
    /\ singleSpaced false (generateIssueTitle description) = true.
Proof. exact generateIssueTitle_shape. Qed.

(** X13.  Deriving a title from a derived title only trims it.  So the
    derivation is idempotent on every title without white space at its
    ends, and from the second derivation on nothing changes any more. *)
Theorem title_of_a_title_is_the_trimmed_title :
  forall description : string,
    generateIssueTitle (generateIssueTitle description)
    = trim (generateIssueTitle description)
    /\ (trim (generateIssueTitle description) = generateIssueTitle description ->
        generateIssueTitle (generateIssueTitle description)
        = generateIssueTitle description)
    /\ generateIssueTitle (generateIssueTitle (generateIssueTitle description))
       = generateIssueTitle (generateIssueTitle description).
Proof.
  intros description.
  pose proof (generateIssueTitle_twice_trims description) as H2.
  split; [exact H2|]. split.
  - intros Hclean. now rewrite H2.
  - rewrite (generateIssueTitle_twice_trims (generateIssueTitle description)).
    rewrite H2. apply trim_idempotent.
Qed.

Lemma title_of_a_title_is_the_trimmed_title_witness :
  generateIssueTitle (generateIssueTitle "  The   printer jams  ")
  = generateIssueTitle "  The   printer jams  ".
Proof.
  refine (proj1 (proj2 (title_of_a_title_is_the_trimmed_title
                          "  The   printer jams  ")) _).
  vm_compute. reflexivity.
Defined.

Lemma orElse_again (a : option string) (b : string) :
  orElse (Some (orElse a b)) b = orElse a b.
Proof.
  unfold orElse. destruct a as [s|].
  - destruct (String.eqb s "") eqn:E.
    + destruct (String.eqb b ""); reflexivity.
    + now rewrite E.
  - destruct (String.eqb b ""); reflexivity.
Qed.


(** X15.  After an affirmed final confirmation the ticket data made from
    the returned conversation carry the title and the confirmed category
    that the conversation stores, and the user name it stores unless that
    is absent or empty. *)
Theorem ticket_data_of_completed_conversation :
  forall (userInput : string) (conv : ConversationState) (w : World),
    currentStep conv = FINAL_CONFIRMATION ->
    isConfirmed (trim userInput) = true ->
    ct_title (createTicketFromConversation (updatedConversation userInput conv w))
    = issueTitle (collectedData (updatedConversation userInput conv w))
    /\ ct_category (createTicketFromConversation (updatedConversation userInput conv w))
       = confirmedCategory (collectedData (updatedConversation userInput conv w))
    /\ ct_userName (createTicketFromConversation (updatedConversation userInput conv w))
       = orElse (userName (collectedData conv)) "Anonymous User"
    /\ ct_conversationId (createTicketFromConversation (updatedConversation userInput conv w))
       = Some (conv_id conv).
Proof.
  intros userInput conv w Hstep Hyes.
  destruct (processUserInput_shape userInput conv w)
    as (_ & Hdata & _ & _ & _ & Hid & _).
  unfold switchResult, processStep in Hdata. rewrite Hstep, Hyes in Hdata.
  unfold bind, ret, uuidv4 in Hdata. cbn [fst updatedCollectedData] in Hdata.
  unfold createTicketFromConversation.
  cbn [ct_title ct_category ct_userName ct_conversationId].
  rewrite Hdata, Hid.
  cbn [issueTitle confirmedCategory userName set_confirmedCategory set_issueTitle].
  rewrite !orElse_again. repeat split.
Qed.

Lemma ticket_data_of_completed_conversation_witness :
  ct_title (createTicketFromConversation
              (updatedConversation "yes" exampleConfirming exampleWorld))
  = issueTitle (collectedData (updatedConversation "yes" exampleConfirming exampleWorld))
  /\ ct_category (createTicketFromConversation
                    (updatedConversation "yes" exampleConfirming exampleWorld))
     = confirmedCategory
         (collectedData (updatedConversation "yes" exampleConfirming exampleWorld))
  /\ ct_userName (createTicketFromConversation
                    (updatedConversation "yes" exampleConfirming exampleWorld))
     = orElse (userName (collectedData exampleConfirming)) "Anonymous User"
  /\ ct_conversationId (createTicketFromConversation
                          (updatedConversation "yes" exampleConfirming exampleWorld))
     = Some (conv_id exampleConfirming).
Proof.
  refine (ticket_data_of_completed_conversation "yes" exampleConfirming exampleWorld _ _).
  - reflexivity.
  - vm_compute. reflexivity.
Defined.

Lemma progress_range (step : ConversationStep) :
  (0 <= getProgressPercentage step <= 100)%Z
  /\ (getProgressPercentage step = 100%Z <-> step = TICKET_CREATED).
Proof.
  destruct step; vm_compute; repeat split; intros; congruence.
Qed.

(** X16.  The progress of a summary lies between 0 and 100 and is 100
    exactly at [TICKET_CREATED]; hence the summary of a conversation
    returned by [processUserInput] reports 100 exactly when it reports the
    conversation complete. *)
Theorem summary_progress_is_bounded_and_full_iff_complete :
  (forall conversation : ConversationState,
      (0 <= sum_progress (getConversationSummary conversation) <= 100)%Z
      /\ (sum_progress (getConversationSummary conversation) = 100%Z
          <-> currentStep conversation = TICKET_CREATED))
  /\ (forall (userInput : string) (conv : ConversationState) (w : World),
         sum_progress (getConversationSummary (updatedConversation userInput conv w))
         = 100%Z
         <-> sum_isComplete (getConversationSummary (updatedConversation userInput conv w))
             = true).
Proof.
  split.
  - intros conversation. apply progress_range.
  - intros userInput conv w. cbn [getConversationSummary sum_progress sum_isComplete].
    rewrite (proj2 (progress_range _)).
    destruct (processUserInput_shape userInput conv w) as (Hnext & _ & Hcomplete & _).
    rewrite Hnext, Hcomplete. unfold isConversationComplete.
    destruct (nextStep _); cbn; split; intros H; try reflexivity; discriminate H.
Qed.

(* ================================================================== *)
(** * Further properties of the API client *)
(* ================================================================== *)

Section RequestRuns.

Context {T : Type}.
Variable network : Z -> FetchResult T.

Lemma serverFailure_isRetried (r : FetchResult T) : isServerFailure r -> isRetried r.
Proof. intros H w. now apply attemptBody_server_failure. Qed.

Lemma retryLoop_backs_off_retried (retries : Z) (n : nat) :
  forall (k : nat) (rest : list Z) (lastError : option Thrown)
         (trace : list Event) (w : World),
    (Z.of_nat (k + n) <= retries)%Z ->
    (forall i, k <= i < k + n -> isRetried (network (Z.of_nat i))) ->
    exists lastError' w',
      retryLoop network retries (map Z.of_nat (seq k n) ++ rest) lastError trace w
      = retryLoop network retries rest lastError' (trace ++ backoffPrefix n k) w'.
Proof.
  induction n as [|n IH]; intros k rest lastError trace w Hle Hfail.
  - exists lastError, w. cbn. now rewrite app_nil_r.
  - cbn [seq map app retryLoop].
    destruct (Hfail k ltac:(lia) w) as (error & w1 & E & Ec).
    unfold bind at 1. rewrite E, Ec.
    replace (Z.of_nat k =? retries)%Z with false by (symmetry; apply Z.eqb_neq; lia).
    destruct (IH (S k) rest (Some error)
                 ((trace ++ [Fetch (Z.of_nat k)]) ++ [Sleep (1000 * (Z.of_nat k + 1))]) w1)
      as (lastError' & w' & Eloop).
    { lia. }
    { intros i Hi. apply Hfail. lia. }
    exists lastError', w'. rewrite Eloop. f_equal. cbn [backoffPrefix].
    rewrite <- !app_assoc. reflexivity.
Qed.

Lemma retryLoop_trace (m n : nat) :
  forall (k : nat) (lastError : option Thrown) (trace : list Event) (w : World),
    k + n = m ->
    exists j,
      k <= j <= m
      /\ snd (fst (retryLoop network (Z.of_nat m) (map Z.of_nat (seq k (S n)))
                             lastError trace w))
         = trace ++ backoffPrefix (j - k) k ++ [Fetch (Z.of_nat j)].
Proof.
  induction n as [|n IH]; intros k lastError trace w Hkm.
  - exists k. split; [lia|]. replace (k - k) with 0 by lia.
    cbn [seq map retryLoop backoffPrefix app]. unfold bind at 1.
    destruct (attemptBody (network (Z.of_nat k)) w) as [[data | error] w1];
      [reflexivity|].
    destruct (isClientError error); [reflexivity|].
    replace (Z.of_nat k =? Z.of_nat m)%Z with true by (symmetry; apply Z.eqb_eq; lia).
    unfold bind, ret. destruct (afterRetries (Some error) w1). reflexivity.
  - change (seq k (S (S n))) with (k :: seq (S k) (S n)).
    cbn [map retryLoop]. unfold bind at 1.
    destruct (attemptBody (network (Z.of_nat k)) w) as [[data | error] w1].
    + exists k. split; [lia|]. replace (k - k) with 0 by lia. reflexivity.
    + destruct (isClientError error).
      * exists k. split; [lia|]. replace (k - k) with 0 by lia. reflexivity.
      * replace (Z.of_nat k =? Z.of_nat m)%Z with false
          by (symmetry; apply Z.eqb_neq; lia).
        destruct (IH (S k) (Some error)
                     ((trace ++ [Fetch (Z.of_nat k)])
                        ++ [Sleep (1000 * (Z.of_nat k + 1))]) w1 ltac:(lia))
          as (j & Hj & Etrace).
        exists j. split; [lia|]. rewrite Etrace.
        replace (j - k) with (S (j - S k)) by lia.
        cbn [backoffPrefix app]. rewrite <- !app_assoc. reflexivity.
Qed.

(** X17.  Whatever the network does, a request with [m] retries makes at
    most [m + 1] fetches, numbered from 0, and sleeps between two
    consecutive ones for 1000 ms times the number of fetches made so far;
    it never sleeps after its last fetch. *)
Theorem request_trace_is_bounded_backoff :
  forall (m : nat) (w : World),
  exists j,
    j <= m
    /\ snd (run (request network (Z.of_nat m)) w)
       = backoffPrefix j 0 ++ [Fetch (Z.of_nat j)].
Proof.
  intros m w. unfold run, request, attemptRange.
  replace (Z.to_nat (Z.of_nat m + 1)) with (S m) by lia.
  destruct (retryLoop_trace m m 0 None [] w eq_refl) as (j & Hj & E).
  exists j. split; [lia|]. rewrite E. replace (j - 0) with j by lia. reflexivity.
Qed.

(** X18.  The first attempt that gets a 2xx response with a JSON body ends
    the request with that body ([null] included), after one back-off for
    each retried attempt before it. *)
Theorem request_returns_first_success :
  forall (m k : nat) (status : Z) (statusText : string) (body : JsonBody T) (w : World),
    k <= m ->
    (forall i, i < k -> isRetried (network (Z.of_nat i))) ->
    network (Z.of_nat k) = FetchResolves status statusText (inr body) ->
    (200 <= status <= 299)%Z ->
    run (request network (Z.of_nat m)) w
    = (Returns match body with
               | JsonNull => None
               | JsonValue value _ _ _ => Some value
               end,
       backoffPrefix k 0 ++ [Fetch (Z.of_nat k)]).
Proof.
  intros m k status statusText body w Hk Hfail Hnet Hrange.
  unfold run, request. rewrite (attemptRange_prefix m k Hk).
  destruct (retryLoop_backs_off_retried (Z.of_nat m) k 0
              (Z.of_nat k :: map Z.of_nat (seq (S k) (m - k))) None [] w)
    as (lastError' & w' & Eloop).
  { lia. } { intros i Hi. apply Hfail. lia. }
  rewrite Eloop. cbn [retryLoop app]. unfold bind at 1. rewrite Hnet.
  unfold attemptBody.
  assert (Hok : response_ok status = true).
  { unfold response_ok. apply andb_true_intro. split; apply Z.leb_le; lia. }
  rewrite Hok. destruct body; reflexivity.
Qed.

(** X19.  A response with a status below 500 that is not 2xx and not 0 (a
    1xx or 3xx as much as a 4xx), whose error body is not [null] and has
    a message that converts to a string, ends the request on the attempt
    that receives it: no sleep and no fetch follow, and the error thrown
    carries that status and the type that [getErrorType] gives it. *)
Theorem response_below_500_ends_request :
  forall (m k : nat) (status : Z) (statusText : string)
         (json : JsError + JsonBody T) (w : World),
    k <= m ->
    (forall i, i < k -> isRetried (network (Z.of_nat i))) ->
    network (Z.of_nat k) = FetchResolves status statusText json ->
    (status < 500)%Z -> status <> 0%Z -> response_ok status = false ->
    json <> inr JsonNull -> messageConverts json ->
    exists e,
      run (request network (Z.of_nat m)) w
      = (Throws e, backoffPrefix k 0 ++ [Fetch (Z.of_nat k)])
      /\ ace_status e = Some status
      /\ ace_type e = getErrorType status.
Proof.
  intros m k status statusText json w Hk Hfail Hnet Hlt Hnz Hok Hjson Hconv.
  unfold run, request. rewrite (attemptRange_prefix m k Hk).
  destruct (retryLoop_backs_off_retried (Z.of_nat m) k 0
              (Z.of_nat k :: map Z.of_nat (seq (S k) (m - k))) None [] w)
    as (lastError' & w' & Eloop).
  { lia. } { intros i Hi. apply Hfail. lia. }
  rewrite Eloop. cbn [retryLoop app].
  destruct (attemptBody_client_error status statusText json w' Hlt Hnz Hok Hjson Hconv)
    as (e & w'' & E & Ec & Hs & Ht).
  unfold bind at 1. rewrite Hnet, E, Ec. unfold ret. cbn [fst].
  exists e. repeat split; assumption.
Qed.

(** Without the last condition the response is retried: the conversion of
    the message throws a [TypeError] where the error is built, the [catch]
    clause sees no [ApiClientError], and a 404 of that kind costs every
    attempt and ends as a network error without status. *)
Lemma unconvertible_message_is_retried :
  run (request notFoundWithUnconvertibleMessage API_CONFIG.retries) exampleWorld
  = (Throws (mkApiClientError "Cannot convert object to primitive value"
                              NETWORK_ERROR
                              (Some [("originalError", Some "TypeError")])
                              None None),
     [Fetch 0; Sleep 1000; Fetch 1]).
Proof. vm_compute. reflexivity. Qed.

(** X20.  When every attempt meets a network failure or a response with
    a status of 500 or more, a request with [m] retries makes all [m + 1]
    attempts with the linear back-off in between, and what it throws is
    made from the last attempt: a network error with the message of the
    failure (or of the [TypeError] that a [null] error body causes, or of
    the error that the conversion of the body's message throws), or an
    internal error with the status of the response whose message is the
    string form of the body's message when that is truthy, else the
    status text when that is not empty, else "Request failed". *)
Theorem failing_server_uses_all_attempts :
  forall (m : nat) (w : World),
    (forall i, i <= m -> isServerFailure (network (Z.of_nat i))) ->
    exists e,
      run (request network (Z.of_nat m)) w
      = (Throws e, backoffPrefix m 0 ++ [Fetch (Z.of_nat m)])
      /\ match network (Z.of_nat m) with
         | FetchRejects failure =>
             e = mkApiClientError
                   (orElse (Some (err_message failure)) "Network request failed")
                   NETWORK_ERROR
                   (Some [("originalError", Some (err_name failure))]) None None
         | FetchResolves status statusText (inr JsonNull) =>
             e = mkApiClientError (err_message nullPropertyError) NETWORK_ERROR
                   (Some [("originalError", Some "TypeError")]) None None
         | FetchResolves status statusText (inl _) =>
             ace_status e = Some status /\ ace_type e = INTERNAL_ERROR
             /\ ace_message e = (if (statusText =? "")%string then "Request failed"
                                 else statusText)
         | FetchResolves status statusText (inr (JsonValue _ message _ _)) =>
             match message with
             | Some {| prop_truthy := true; prop_string := inr text |} =>
                 ace_status e = Some status /\ ace_type e = INTERNAL_ERROR
                 /\ ace_message e = text
             | Some {| prop_truthy := true; prop_string := inl failure |} =>
                 e = mkApiClientError
                       (orElse (Some (err_message failure)) "Network request failed")
                       NETWORK_ERROR
                       (Some [("originalError", Some (err_name failure))]) None None
             | _ =>
                 ace_status e = Some status /\ ace_type e = INTERNAL_ERROR
                 /\ ace_message e = (if (statusText =? "")%string then "Request failed"
                                     else statusText)
             end
         end.
Proof.
  intros m w Hfail.
  destruct (server_failures_use_all_attempts network m w Hfail)
    as (e & error & w1 & w2 & Hrun & Hbody & Hafter).
  exists e. split; [exact Hrun|].
  pose proof (Hfail m (le_n m)) as Hlast.
  destruct (network (Z.of_nat m)) as [failure | status statusText json].
  - cbn in Hbody. inversion Hbody; subst. cbn in Hafter. now inversion Hafter.
  - cbn [isServerFailure] in Hlast. unfold attemptBody in Hbody.
    assert (Hok : response_ok status = false).
    { unfold response_ok. apply andb_false_intro2. apply Z.leb_gt. lia. }
    assert (Htype : getErrorType status = INTERNAL_ERROR).
    { unfold getErrorType.
      repeat match goal with
             | |- context [(status =? ?n)%Z] =>
                 replace (status =? n)%Z with false by (symmetry; apply Z.eqb_neq; lia)
             end.
      destruct (status >=? 500)%Z; reflexivity. }
    assert (Hdefault : orElse (Some statusText) "Request failed"
                       = if (statusText =? "")%string then "Request failed" else statusText).
    { reflexivity. }
    rewrite Hok in Hbody. cbn [negb] in Hbody.
    destruct json as [e0 | [| value [[[|] [failure | text]] |] details code]];
      unfold errorMessage, throwApiClientError, createApiError, bind, ret, newDate in Hbody;
      cbn [prop_truthy prop_string] in Hbody;
      inversion Hbody; subst; cbn in Hafter; inversion Hafter; subst;
      cbn [ace_status ace_type ace_message newApiClientError e_type e_message];
      rewrite ?Htype; repeat split.
Qed.

(** X21.  A 2xx response whose body is not JSON is retried like a network
    failure: when every attempt gets one, all [m + 1] attempts are made
    and the request throws a network error without status that carries
    the message of the parser (or the fixed message when that is
    empty). *)
Theorem unparseable_success_is_retried :
  forall (m : nat) (w : World),
    (forall i, i <= m ->
               exists status statusText e,
                 network (Z.of_nat i) = FetchResolves status statusText (inl e)
                 /\ (200 <= status <= 299)%Z) ->
    exists status statusText e,
      network (Z.of_nat m) = FetchResolves status statusText (inl e)
      /\ run (request network (Z.of_nat m)) w
         = (Throws (mkApiClientError
                      (orElse (Some (err_message e)) "Network request failed")
                      NETWORK_ERROR
                      (Some [("originalError", Some (err_name e))]) None None),
            backoffPrefix m 0 ++ [Fetch (Z.of_nat m)]).
Proof.
  intros m w Hall.
  assert (Hretried : forall i, i <= m -> isRetried (network (Z.of_nat i))).
  { intros i Hi w0. destruct (Hall i Hi) as (status & statusText & e & -> & Hrange).
    unfold attemptBody.
    replace (response_ok status) with true
      by (symmetry; unfold response_ok; apply andb_true_intro; split; apply Z.leb_le; lia).
    eexists. eexists. split; reflexivity. }
  destruct (Hall m (le_n m)) as (status & statusText & e & Hnet & Hrange).
  exists status, statusText, e. split; [exact Hnet|].
  unfold run, request. rewrite attemptRange_split.
  destruct (retryLoop_backs_off_retried (Z.of_nat m) m 0 [Z.of_nat m] None [] w)
    as (lastError' & w' & Eloop).
  { lia. } { intros i Hi. apply Hretried. lia. }
  rewrite Eloop. cbn [retryLoop app]. unfold bind at 1. rewrite Hnet.
  unfold attemptBody.
  replace (response_ok status) with true
    by (symmetry; unfold response_ok; apply andb_true_intro; split; apply Z.leb_le; lia).
  cbn [negb ret isClientError]. rewrite Z.eqb_refl. reflexivity.
Qed.

Lemma attemptBody_wellFormed (r : FetchResult T) (w w' : World) (e : ApiClientError) :
  attemptBody r w = (inr (ThrownApiClientError e), w') -> wellFormedClientError e.
Proof.
  unfold attemptBody.
  assert (Htype : forall status, getErrorType status <> NETWORK_ERROR).
  { intros status. unfold getErrorType.
    repeat match goal with |- context [if ?b then _ else _] => destruct b end;
      discriminate. }
  assert (Hthrow : forall status message details code w0 w1,
             throwApiClientError status message details code w0
             = (ThrownApiClientError e, w1) ->
             wellFormedClientError e).
  { intros status message details code w0 w1.
    unfold throwApiClientError, createApiError, bind, ret, newDate.
    destruct message as [e1 | text]; intros H; inversion H; subst.
    unfold wellFormedClientError.
    cbn [ace_message ace_status ace_type newApiClientError e_message e_type].
    split; [|discriminate].
    split; intros E; [discriminate E | contradiction (Htype status E)]. }
  destruct r as [e0 | status statusText [e0 | [| value message details code]]];
    try destruct (negb (response_ok status));
    unfold bind, ret; intros H; try (inversion H; fail).
  - destruct (throwApiClientError status (errorMessage None statusText) None None w)
      as [error0 w0] eqn:E.
    inversion H; subst. exact (Hthrow _ _ _ _ _ _ E).
  - destruct (throwApiClientError status (errorMessage message statusText) details code w)
      as [error0 w0] eqn:E.
    inversion H; subst. exact (Hthrow _ _ _ _ _ _ E).
Qed.

Lemma afterRetries_wellFormed (lastError : option Thrown) (w w' : World)
      (e : ApiClientError) :
  (forall e0, lastError = Some (ThrownApiClientError e0) -> wellFormedClientError e0) ->
  afterRetries (T := T) lastError w = (Throws e, w') -> wellFormedClientError e.
Proof.
  unfold afterRetries, createApiError, bind, ret, newDate.
  intros Hlast H.
  destruct lastError as [[e0 | e0] |]; inversion H; subst.
  - exact (Hlast _ eq_refl).
  - split; [split; reflexivity|]. intros _.
    apply (orElse_nonempty (Some (err_message e0))). discriminate.
  - split; [split; reflexivity|]. discriminate.
Qed.

Lemma retryLoop_wellFormed (retries : Z) (attempts : list Z) :
  forall (lastError : option Thrown) (trace trace' : list Event) (w w' : World)
         (e : ApiClientError),
    (forall e0, lastError = Some (ThrownApiClientError e0) -> wellFormedClientError e0) ->
    retryLoop network retries attempts lastError trace w = (Throws e, trace', w') ->
    wellFormedClientError e.
Proof.
  induction attempts as [|attempt rest IH]; intros lastError trace trace' w w' e Hlast H.
  - cbn [retryLoop] in H. unfold bind, ret in H.
    destruct (afterRetries lastError w) as [c0 w0] eqn:E. inversion H; subst.
    eapply afterRetries_wellFormed; eauto.
  - cbn [retryLoop] in H. unfold bind at 1 in H.
    destruct (attemptBody (network attempt) w) as [[data | error] w0] eqn:E.
    + unfold ret in H. inversion H.
    + assert (Hnew : forall e0, Some error = Some (ThrownApiClientError e0) ->
                                wellFormedClientError e0).
      { intros e0 [= ->]. eapply attemptBody_wellFormed. exact E. }
      destruct (isClientError error) as [e0|] eqn:Ec.
      * unfold ret in H. inversion H; subst.
        apply isClientError_same in Ec. apply Hnew. now rewrite Ec.
      * destruct (attempt =? retries)%Z.
        -- unfold bind, ret in H.
           destruct (afterRetries (Some error) w0) as [c0 w1] eqn:Ea.
           inversion H; subst.
           eapply afterRetries_wellFormed; [exact Hnew | exact Ea].
        -- eapply IH; [exact Hnew | exact H].
Qed.

(** X22.  Every error that a request throws has no HTTP status exactly
    when its type is [NETWORK_ERROR]: an error made from a response always
    has the status of that response and one of the other types.  The
    message of an error without status is never empty. *)
Theorem thrown_errors_are_well_formed :
  forall (retries : Z) (w : World) (e : ApiClientError),
    fst (run (request network retries) w) = Throws e ->
    (ace_status e = None <-> ace_type e = NETWORK_ERROR)
    /\ (ace_status e = None -> ace_message e <> "").
Proof.
  intros retries w e H. unfold run, request in H.
  destruct (retryLoop network retries (attemptRange retries) None [] w)
    as [[c trace'] w'] eqn:E.
  cbn [fst] in H. subst c.
  change (wellFormedClientError e).
  eapply retryLoop_wellFormed; [|exact E]. intros e0 [=].
Qed.

End RequestRuns.

Lemma request_returns_first_success_witness :
  run (request recoveringNetwork (Z.of_nat 1)) exampleWorld
  = (Returns (Some tt), backoffPrefix 1 0 ++ [Fetch (Z.of_nat 1)]).
Proof.
  refine (request_returns_first_success recoveringNetwork 1 1 200 "OK"
            (JsonValue tt None None None) exampleWorld _ _ _ _).
  - lia.
  - intros i Hi. replace i with 0 by lia. intros w.
    eexists. eexists. split; reflexivity.
  - reflexivity.
  - lia.
Defined.

Lemma response_below_500_ends_request_witness :
  exists e,
    run (request notModifiedNetwork (Z.of_nat 1)) exampleWorld
    = (Throws e, backoffPrefix 0 0 ++ [Fetch (Z.of_nat 0)])
    /\ ace_status e = Some 304%Z
    /\ ace_type e = getErrorType 304.
Proof.
  refine (response_below_500_ends_request notModifiedNetwork 1 0 304 "Not Modified"
            (inr (JsonValue tt None None None)) exampleWorld _ _ _ _ _ _ _ _).
  - lia.
  - intros i Hi. lia.
  - reflexivity.
  - lia.
  - lia.
  - reflexivity.
  - discriminate.
  - exact I.
Defined.

Lemma failing_server_uses_all_attempts_witness :
  exists e,
    run (request (emptyArrayMessageNetwork tt) (Z.of_nat 2)) exampleWorld
    = (Throws e, backoffPrefix 2 0 ++ [Fetch (Z.of_nat 2)])
    /\ ace_status e = Some 500%Z
    /\ ace_type e = INTERNAL_ERROR
    /\ ace_message e = "".
Proof.
  refine (failing_server_uses_all_attempts (emptyArrayMessageNetwork tt) 2 exampleWorld _).
  intros i Hi. cbn. lia.
Defined.

Lemma unparseable_success_is_retried_witness :
  exists status statusText e,
    brokenBodyNetwork (Z.of_nat 1) = FetchResolves status statusText (inl e)
    /\ run (request brokenBodyNetwork (Z.of_nat 1)) exampleWorld
       = (Throws (mkApiClientError
                    (orElse (Some (err_message e)) "Network request failed")
                    NETWORK_ERROR
                    (Some [("originalError", Some (err_name e))]) None None),
          backoffPrefix 1 0 ++ [Fetch (Z.of_nat 1)]).
Proof.
  refine (unparseable_success_is_retried brokenBodyNetwork 1 exampleWorld _).
  intros i Hi. eexists. eexists. eexists. split; [reflexivity | lia].
Defined.

Lemma thrown_errors_are_well_formed_witness :
  (ace_status
     (mkApiClientError "Cannot read properties of null (reading 'message')"
                       NETWORK_ERROR (Some [("originalError", Some "TypeError")])
                       None None) = None
   <-> ace_type
         (mkApiClientError "Cannot read properties of null (reading 'message')"
                           NETWORK_ERROR (Some [("originalError", Some "TypeError")])
                           None None) = NETWORK_ERROR)
  /\ (ace_status
        (mkApiClientError "Cannot read properties of null (reading 'message')"
                          NETWORK_ERROR (Some [("originalError", Some "TypeError")])
                          None None) = None ->
      ace_message
        (mkApiClientError "Cannot read properties of null (reading 'message')"
                          NETWORK_ERROR (Some [("originalError", Some "TypeError")])
                          None None) <> "").
Proof.
  refine (thrown_errors_are_well_formed notFoundWithNullBody API_CONFIG.retries
            exampleWorld _ _).
  vm_compute. reflexivity.
Defined.

(* ================================================================== *)
(** * Further properties of the ticket view-model *)
(* ================================================================== *)

(** X23.  When the request of [loadTickets] returns a ticket page, a
    reset replaces the held tickets by the page and a load without reset
    appends the page after them; either way the pagination is the
    server's, the error is cleared and loading has ended.  A 2xx response
    with the body [null] changes neither tickets nor pagination and sets
    no error. *)
Theorem loadTickets_takes_over_the_page :
  forall (network : Z -> FetchResult GetTicketsResponse) (reset : bool)
         (s : TicketsState) (w : World),
    (forall data,
        fst (run (request network API_CONFIG.retries) w) = Returns (Some data) ->
        tickets (run (loadTickets network reset s) w)
        = (if reset then gt_tickets data else tickets s ++ gt_tickets data)
        /\ pagination (run (loadTickets network reset s) w) = gt_pagination data
        /\ error (run (loadTickets network reset s) w) = None
        /\ isLoading (run (loadTickets network reset s) w) = false)
    /\ (fst (run (request network API_CONFIG.retries) w) = Returns None ->
        tickets (run (loadTickets network reset s) w) = tickets s
        /\ pagination (run (loadTickets network reset s) w) = pagination s
        /\ error (run (loadTickets network reset s) w) = None
        /\ isLoading (run (loadTickets network reset s) w) = false).
Proof.
  intros network reset s w. unfold run, loadTickets, bind.
  destruct (request network API_CONFIG.retries w) as [[c trace] w'].
  cbn [fst]. split.
  - intros data ->. destruct reset; cbn; repeat split.
  - intros ->. cbn. repeat split.
Qed.

Lemma loadTickets_takes_over_the_page_witness :
  tickets (run (loadTickets (successNetwork exampleNextPage) false exampleFirstPageState)
               exampleWorld)
  = tickets exampleFirstPageState ++ gt_tickets exampleNextPage
  /\ pagination (run (loadTickets (successNetwork exampleNextPage) false
                        exampleFirstPageState) exampleWorld)
     = gt_pagination exampleNextPage
  /\ error (run (loadTickets (successNetwork exampleNextPage) false exampleFirstPageState)
                exampleWorld) = None
  /\ isLoading (run (loadTickets (successNetwork exampleNextPage) false
                       exampleFirstPageState) exampleWorld) = false.
Proof.
  refine (proj1 (loadTickets_takes_over_the_page (successNetwork exampleNextPage) false
                   exampleFirstPageState exampleWorld) exampleNextPage _).
  vm_compute. reflexivity.
Defined.

Lemma find_map_replace (id : string) (replacement : Ticket) (l : list Ticket) :
  t_id replacement = id ->
  (exists ticket, In ticket l /\ t_id ticket = id) ->
  find (fun ticket => String.eqb (t_id ticket) id)
       (map (fun ticket => if String.eqb (t_id ticket) id then replacement else ticket) l)
  = Some replacement.
Proof.
  intros Hid (ticket & Hin & Ht).
  induction l as [|x l IH]; [contradiction Hin|].
  cbn [map find]. destruct (String.eqb (t_id x) id) eqn:E.
  - rewrite Hid, String.eqb_refl. reflexivity.
  - rewrite E. apply IH. destruct Hin as [-> | Hin]; [|exact Hin].
    rewrite Ht, String.eqb_refl in E. discriminate E.
Qed.

Lemma map_replace_absent (id : string) (replacement : Ticket) (l : list Ticket) :
  (forall ticket, In ticket l -> t_id ticket <> id) ->
  map (fun ticket => if String.eqb (t_id ticket) id then replacement else ticket) l = l.
Proof.
  intros H. induction l as [|x l IH]; [reflexivity|].
  cbn [map]. rewrite IH by (intros t Ht; apply H; now right).
  destruct (String.eqb_spec (t_id x) id) as [E | E]; [|reflexivity].
  contradiction (H x (or_introl eq_refl) E).
Qed.

(** X24.  When the request of [updateTicket] returns a ticket, every held
    ticket with the given identifier is replaced by it, in place: the
    number and the order of the tickets stay, tickets with another
    identifier are untouched, and a list without that identifier stays as
    it is.  The call returns [true] and clears the error.  If the returned
    ticket has the identifier that was asked for and a ticket with it was
    held, [getTicketById] finds the returned ticket afterwards. *)
Theorem updateTicket_replaces_in_place :
  forall (network : Z -> FetchResult UpdateTicketResponse) (id : string)
         (updates : UpdateTicketData) (s : TicketsState) (w : World)
         (data : UpdateTicketResponse),
    fst (run (request network API_CONFIG.retries) w) = Returns (Some data) ->
    snd (run (updateTicket network id updates s) w) = true
    /\ error (fst (run (updateTicket network id updates s) w)) = None
    /\ tickets (fst (run (updateTicket network id updates s) w))
       = map (fun ticket => if String.eqb (t_id ticket) id then ut_ticket data else ticket)
             (tickets s)
    /\ List.length (tickets (fst (run (updateTicket network id updates s) w)))
       = List.length (tickets s)
    /\ ((forall ticket, In ticket (tickets s) -> t_id ticket <> id) ->
        tickets (fst (run (updateTicket network id updates s) w)) = tickets s)
    /\ (t_id (ut_ticket data) = id ->
        (exists ticket, In ticket (tickets s) /\ t_id ticket = id) ->
        getTicketById (fst (run (updateTicket network id updates s) w)) id
        = Some (ut_ticket data)).
Proof.
  intros network id updates s w data H.
  assert (E : run (updateTicket network id updates s) w
              = (setTickets
                   (map (fun ticket =>
                           if String.eqb (t_id ticket) id then ut_ticket data else ticket)
                        (tickets s))
                   (setError None s), true)).
  { unfold run, updateTicket, bind in *.
    destruct (request network API_CONFIG.retries w) as [[c trace] w'].
    cbn [fst] in H. subst c. reflexivity. }
  rewrite E. cbn [fst snd setTickets setError tickets error].
  split; [reflexivity|]. split; [reflexivity|]. split; [reflexivity|].
  split; [apply length_map|]. split.
  - apply map_replace_absent.
  - intros Hid Hheld. unfold getTicketById. cbn [tickets].
    now apply find_map_replace.
Qed.

Lemma updateTicket_replaces_in_place_witness :
  snd (run (updateTicket (successNetwork (mkUpdateTicketResponse exampleTicketClosed))
              (t_id exampleTicket) closeUpdate exampleState) exampleWorld) = true
  /\ getTicketById
       (fst (run (updateTicket (successNetwork (mkUpdateTicketResponse exampleTicketClosed))
                    (t_id exampleTicket) closeUpdate exampleState) exampleWorld))
       (t_id exampleTicket)
     = Some exampleTicketClosed.
Proof.
  pose proof (updateTicket_replaces_in_place
                (successNetwork (mkUpdateTicketResponse exampleTicketClosed))
                (t_id exampleTicket) closeUpdate exampleState exampleWorld
                (mkUpdateTicketResponse exampleTicketClosed)
                ltac:(vm_compute; reflexivity)) as (H1 & _ & _ & _ & _ & H6).
  split; [exact H1|]. apply H6.
  - reflexivity.
  - exists exampleTicket. split; [left; reflexivity | reflexivity].
Defined.

Lemma filteredTickets_as_filter (tickets : list Ticket) (filters : TicketFilter)
      (searchQuery : string) :
  filteredTickets tickets filters searchQuery
  = filter (passesLocalFilter filters searchQuery) tickets.
Proof. apply filteredTickets_is_filter. Qed.

(** X25.  The local filter keeps, in their order, exactly the held
    tickets that pass every constraint that is present: a ticket is in the
    filtered view if and only if it is held and passes.  An absent or
    empty status, category or priority list, an absent or empty assignee
    and a query of white space only constrain nothing; the search matches
    the lower-cased query as typed. *)
Theorem filteredTickets_keeps_exactly_the_passing :
  forall (tickets : list Ticket) (filters : TicketFilter) (searchQuery : string),
    filteredTickets tickets filters searchQuery
    = filter (passesLocalFilter filters searchQuery) tickets
    /\ forall ticket,
        In ticket (filteredTickets tickets filters searchQuery)
        <-> In ticket tickets /\ passesLocalFilter filters searchQuery ticket = true.
Proof.
  intros tickets filters searchQuery. split.
  - apply filteredTickets_as_filter.
  - intros ticket. rewrite filteredTickets_as_filter. apply filter_In.
Qed.

Lemma filter_twice {A} (p : A -> bool) (l : list A) :
  filter p (filter p l) = filter p l.
Proof.
  rewrite filter_filter. apply filter_ext. intros x. now destruct (p x).
Qed.

(** X26.  Filtering composes: filtering the filtered view again changes
    nothing, the filtered view of two lists put one after the other is
    the filtered views put one after the other (so pages that are
    appended are filtered page by page), and the view never has more
    tickets than are held. *)
Theorem filteredTickets_composes :
  forall (filters : TicketFilter) (searchQuery : string) (first second : list Ticket),
    filteredTickets (filteredTickets first filters searchQuery) filters searchQuery
    = filteredTickets first filters searchQuery
    /\ filteredTickets (first ++ second) filters searchQuery
       = filteredTickets first filters searchQuery
         ++ filteredTickets second filters searchQuery
    /\ List.length (filteredTickets first filters searchQuery) <= List.length first.
Proof.
  intros filters searchQuery first second.
  rewrite !filteredTickets_as_filter. split; [apply filter_twice|].
  split; [apply filter_app | apply filter_length_le].
Qed.

(** X27.  After [clearFilters] the filtered view is the whole held list,
    and the tickets themselves are untouched; a search of white space
    only shows the same view as no search; and the filter for one status
    with no search shows what [getTicketsByStatus] returns. *)
Theorem unconstrained_and_single_status_views :
  (forall s : TicketsState,
      tickets (clearFilters s) = tickets s
      /\ filteredTickets (tickets (clearFilters s)) (filters (clearFilters s))
                         (searchQuery (clearFilters s))
         = tickets s)
  /\ (forall (held : list Ticket) (filters : TicketFilter) (searchQuery : string),
         trim searchQuery = "" ->
         filteredTickets held filters searchQuery = filteredTickets held filters "")
  /\ (forall (s : TicketsState) (status : TicketStatus),
         filteredTickets (tickets s)
                         (mkTicketFilter (Some [status]) None None None None None None) ""
         = getTicketsByStatus s status).
Proof.
  split; [|split].
  - intros s. split; [reflexivity|].
    rewrite filteredTickets_as_filter. apply filter_all. intros ticket. reflexivity.
  - intros held filters searchQuery Hblank.
    rewrite !filteredTickets_as_filter. apply filter_ext. intros ticket.
    unfold passesLocalFilter. rewrite Hblank. reflexivity.
  - intros s status. rewrite filteredTickets_as_filter. unfold getTicketsByStatus.
    apply filter_ext. intros ticket. unfold passesLocalFilter. cbn.
    now rewrite orb_false_r, !andb_true_r.
Qed.

Lemma unconstrained_and_single_status_views_witness :
  filteredTickets [exampleTicket; exampleClosedTicket] noFilter "   "
  = filteredTickets [exampleTicket; exampleClosedTicket] noFilter "".
Proof.
  refine (proj1 (proj2 unconstrained_and_single_status_views)
                [exampleTicket; exampleClosedTicket] noFilter "   " _).
  reflexivity.
Defined.

Lemma roundToDouble_exact (z : Z) :
  (Z.abs z <= 2 ^ 53)%Z -> roundToDouble z = z.
Proof.
  intros H. unfold roundToDouble.
  replace (Z.abs z <=? 2 ^ 53)%Z with true by (symmetry; now apply Z.leb_le).
  reflexivity.
Qed.

(** X28.  [loadMore] does nothing when no next page is known or a load is
    in flight.  Otherwise it asks for the page number that is held when
    it is called, not the next one (the increment it queues is not seen by
    the request): when that request returns a page, the page is appended
    and the server's pagination is held; when it fails, the tickets stay,
    an error is set, and the held page number is the sum of the old one
    and 1 as numbers add, which is one more for a page number from
    [- 2 ^ 53] to [2 ^ 53 - 1].  (At [2 ^ 53] the sum is [2 ^ 53]
    again.) *)
Theorem loadMore_asks_for_the_held_page :
  forall (server : GetTicketsRequest -> Z -> FetchResult GetTicketsResponse)
         (s : TicketsState) (w : World),
    (truthy (hasNext (pagination s)) = false \/ isLoading s = true ->
     run (loadMore server s) w = s)
    /\ (truthy (hasNext (pagination s)) = true -> isLoading s = false ->
        req_page (loadTicketsParams false s) = page (pagination s)
        /\ (forall data,
               fst (run (request (server (loadTicketsParams false s))
                                 API_CONFIG.retries) w)
               = Returns (Some data) ->
               tickets (run (loadMore server s) w) = tickets s ++ gt_tickets data
               /\ pagination (run (loadMore server s) w) = gt_pagination data)
        /\ (requestFails (server (loadTicketsParams false s)) w ->
            tickets (run (loadMore server s) w) = tickets s
            /\ error (run (loadMore server s) w) <> None
            /\ page (pagination (run (loadMore server s) w))
               = roundToDouble (page (pagination s) + 1)
            /\ ((- 2 ^ 53 <= page (pagination s) < 2 ^ 53)%Z ->
                page (pagination (run (loadMore server s) w))
                = (page (pagination s) + 1)%Z))).
Proof.
  intros server s w. split.
  - intros H. unfold run, loadMore.
    destruct H as [H | H]; rewrite H; [reflexivity|].
    rewrite orb_true_r. reflexivity.
  - intros Hnext Hidle. split; [reflexivity|].
    unfold loadMore. rewrite Hnext, Hidle. cbn [negb orb]. split.
    + intros data H.
      unfold run, loadTickets, bind in *.
      destruct (request (server (loadTicketsParams false s)) API_CONFIG.retries w)
        as [[c trace] w'].
      cbn [fst] in H. subst c. cbn. split; reflexivity.
    + intros [e He].
      rewrite (loadTickets_on_failure _ false _ w e He).
      cbn [tickets error pagination page setIsLoading setError setPage setPagination].
      split; [reflexivity|]. split; [discriminate|]. split; [reflexivity|].
      intros Hsafe. unfold addNumbers. apply roundToDouble_exact. lia.
Qed.

(** X28 at concrete inputs: a load in flight makes [loadMore] do nothing;
    with the first page held and a next one known, page 1 is asked for
    again and the answer is appended; and when the server fails, the
    tickets stay, an error is set and the page number moves from 1 to
    2. *)
Lemma loadMore_asks_for_the_held_page_witness :
  run (loadMore (fun _ => successNetwork exampleNextPage) exampleLoadingState) exampleWorld
  = exampleLoadingState
  /\ req_page (loadTicketsParams false exampleFirstPageState) = 1%Z
  /\ (tickets (run (loadMore (fun _ => successNetwork exampleNextPage)
                             exampleFirstPageState) exampleWorld)
      = tickets exampleFirstPageState ++ gt_tickets exampleNextPage
      /\ pagination (run (loadMore (fun _ => successNetwork exampleNextPage)
                                   exampleFirstPageState) exampleWorld)
         = gt_pagination exampleNextPage)
  /\ (tickets (run (loadMore (fun _ => internalErrorNetwork) exampleFirstPageState)
                   exampleWorld)
      = tickets exampleFirstPageState
      /\ error (run (loadMore (fun _ => internalErrorNetwork) exampleFirstPageState)
                    exampleWorld) <> None
      /\ page (pagination (run (loadMore (fun _ => internalErrorNetwork)
                                         exampleFirstPageState) exampleWorld))
         = 2%Z).
Proof.
  split; [|split; [|split]].
  - apply (proj1 (loadMore_asks_for_the_held_page
                    (fun _ => successNetwork exampleNextPage)
                    exampleLoadingState exampleWorld)).
    right. reflexivity.
  - apply (proj2 (loadMore_asks_for_the_held_page
                    (fun _ => successNetwork exampleNextPage)
                    exampleFirstPageState exampleWorld)
                 ltac:(reflexivity) ltac:(reflexivity)).
  - apply (proj2 (loadMore_asks_for_the_held_page
                    (fun _ => successNetwork exampleNextPage)
                    exampleFirstPageState exampleWorld)
                 ltac:(reflexivity) ltac:(reflexivity)).
    vm_compute. reflexivity.
  - destruct (proj2 (loadMore_asks_for_the_held_page
                       (fun _ => internalErrorNetwork)
                       exampleFirstPageState exampleWorld)
                    ltac:(reflexivity) ltac:(reflexivity)) as (_ & _ & Hfail).
    destruct Hfail as (Ht & He & _ & Hp).
    + eexists. vm_compute. reflexivity.
    + split; [exact Ht|]. split; [exact He|]. apply Hp. cbn. lia.
Defined.

(** At [2 ^ 53] the increment is lost: the sum [2 ^ 53 + 1] is no number
    and rounds to [2 ^ 53]. *)
Lemma loadMore_at_the_largest_safe_page :
  page (pagination (run (loadMore (fun _ => internalErrorNetwork) exampleHugePageState)
                        exampleWorld))
  = page (pagination exampleHugePageState).
Proof. vm_compute. reflexivity. Qed.

(* ================================================================== *)
(** * Properties of the chat view-model *)
(* ================================================================== *)

(** X29.  [sendMessage] does nothing without a conversation, while a
    request is in flight, or for a message of white space only.
    Otherwise the conversation becomes the one the server returns, or, if
    the request fails, stays as it was with the error message set; in
    both cases loading and typing have ended. *)
Theorem sendMessage_takes_the_servers_conversation :
  forall (network : Z -> FetchResult SendMessageResponse) (message : string)
         (s : ChatState) (w : World),
    (chat_conversation s = None \/ chat_isLoading s = true \/ trim message = "" ->
     run (sendMessage network message s) w = s)
    /\ (chat_conversation s <> None -> chat_isLoading s = false -> trim message <> "" ->
        (forall data,
            fst (run (request network API_CONFIG.retries) w) = Returns (Some data) ->
            run (sendMessage network message s) w
            = mkChatState (Some (sm_updatedConversation data)) false None
                          (mkTypingState false None None))
        /\ (forall e,
               fst (run (request network API_CONFIG.retries) w) = Throws e ->
               run (sendMessage network message s) w
               = mkChatState (chat_conversation s) false (Some (ace_message e))
                             (mkTypingState false None None))).
Proof.
  intros network message s w. split.
  - intros H. unfold run, sendMessage.
    destruct (chat_conversation s) as [conversation|]; [|reflexivity].
    destruct H as [H | [H | H]]; [discriminate H | rewrite H; reflexivity |].
    rewrite H, String.eqb_refl, orb_true_r. reflexivity.
  - intros Hconv Hidle Hmessage. unfold run, sendMessage.
    destruct (chat_conversation s) as [conversation|]; [|contradiction Hconv; reflexivity].
    rewrite Hidle. apply String.eqb_neq in Hmessage. rewrite Hmessage. cbn [orb].
    unfold bind.
    destruct (request network API_CONFIG.retries w) as [[c trace] w'].
    cbn [fst]. split; intros x ->; reflexivity.
Qed.

(** X29 at concrete inputs: a message of white space is not sent; a
    message that the server answers replaces the conversation; a message
    that the server fails on both attempts leaves the conversation and
    sets the error. *)
Lemma sendMessage_takes_the_servers_conversation_witness :
  run (sendMessage internalErrorNetwork "   " exampleChatOpen) exampleWorld
  = exampleChatOpen
  /\ run (sendMessage (successNetwork exampleSendMessageResponse) " It happened twice "
                      exampleChatOpen) exampleWorld
     = mkChatState (Some (exampleAt 3)) false None (mkTypingState false None None)
  /\ run (sendMessage internalErrorNetwork " It happened twice " exampleChatOpen)
         exampleWorld
     = mkChatState (Some (exampleAt 2)) false (Some "Internal Server Error")
                   (mkTypingState false None None).
Proof.
  split; [|split].
  - refine (proj1 (sendMessage_takes_the_servers_conversation internalErrorNetwork "   "
                     exampleChatOpen exampleWorld) _).
    right. right. reflexivity.
  - refine (proj1 (proj2 (sendMessage_takes_the_servers_conversation
                            (successNetwork exampleSendMessageResponse)
                            " It happened twice " exampleChatOpen exampleWorld)
                         _ _ _)
                  exampleSendMessageResponse _).
    + discriminate.
    + reflexivity.
    + vm_compute. discriminate.
    + vm_compute. reflexivity.
  - refine (proj2 (proj2 (sendMessage_takes_the_servers_conversation
                            internalErrorNetwork
                            " It happened twice " exampleChatOpen exampleWorld)
                         _ _ _)
                  (mkApiClientError "Internal Server Error" INTERNAL_ERROR None None
                                    (Some 500%Z)) _).
    + discriminate.
    + reflexivity.
    + vm_compute. discriminate.
    + vm_compute. reflexivity.
Defined.

(** X30.  [createTicket] refuses, without a request and without touching
    the state, when there is no conversation or the conversation is not
    complete.  For a complete conversation it posts the ticket data made
    from it: when a ticket comes back, its identifier is returned and
    recorded in the conversation, of which no other field changes, and
    the error is cleared; when the request fails, the conversation stays
    as it was and the error message is both set and returned.  Either way
    loading has ended and the typing state is untouched. *)
Theorem createTicket_records_the_ticket_id :
  forall (network : CreateTicketData -> Z -> FetchResult CreateTicketResponse)
         (s : ChatState) (w : World),
    ((chat_conversation s = None
      \/ exists conversation,
          chat_conversation s = Some conversation /\ isComplete conversation = false) ->
     run (createTicket network s) w
     = (s, mkCreateTicketResult false None (Some "Conversation is not complete")))
    /\ (forall conversation,
           chat_conversation s = Some conversation ->
           isComplete conversation = true ->
           (forall data,
               fst (run (request (network (createTicketFromConversation conversation))
                                 API_CONFIG.retries) w)
               = Returns (Some data) ->
               run (createTicket network s) w
               = (mkChatState
                    (Some (mkConversationState
                             (conv_id conversation) (currentStep conversation)
                             (collectedData conversation) (messages conversation)
                             (isComplete conversation) (Some (t_id (cr_ticket data)))
                             (startedAt conversation) (completedAt conversation)))
                    false None (chat_typingState s),
                  mkCreateTicketResult true (Some (t_id (cr_ticket data))) None))
           /\ (forall e,
                  fst (run (request (network (createTicketFromConversation conversation))
                                    API_CONFIG.retries) w)
                  = Throws e ->
                  run (createTicket network s) w
                  = (mkChatState (Some conversation) false (Some (ace_message e))
                                 (chat_typingState s),
                     mkCreateTicketResult false None (Some (ace_message e))))).
Proof.
  intros network s w. split.
  - intros H. unfold run, createTicket.
    destruct H as [H | (conversation & H & Hc)]; rewrite H; [reflexivity|].
    rewrite Hc. reflexivity.
  - intros conversation Hconv Hcomplete. unfold run, createTicket.
    rewrite Hconv, Hcomplete. cbn [negb]. unfold bind.
    destruct (request (network (createTicketFromConversation conversation))
                      API_CONFIG.retries w) as [[c trace] w'].
    cbn [fst]. split.
    + intros data ->. reflexivity.
    + intros e ->. reflexivity.
Qed.

(** X30 at concrete inputs: an open conversation is refused; for the
    completed one the ticket that comes back is recorded; and when the
    server fails on both attempts the conversation stays and the error is
    set and returned. *)
Lemma createTicket_records_the_ticket_id_witness :
  run (createTicket (fun _ => internalErrorNetwork) exampleChatOpen) exampleWorld
  = (exampleChatOpen,
     mkCreateTicketResult false None (Some "Conversation is not complete"))
  /\ run (createTicket (fun _ => successNetwork (mkCreateTicketResponse exampleTicket))
                       exampleChatCompleted) exampleWorld
     = (mkChatState
          (Some (mkConversationState
                   (conv_id exampleCreated) (currentStep exampleCreated)
                   (collectedData exampleCreated) (messages exampleCreated)
                   (isComplete exampleCreated) (Some (t_id exampleTicket))
                   (startedAt exampleCreated) (completedAt exampleCreated)))
          false None (mkTypingState false None None),
        mkCreateTicketResult true (Some (t_id exampleTicket)) None)
  /\ run (createTicket (fun _ => internalErrorNetwork) exampleChatCompleted) exampleWorld
     = (mkChatState (Some exampleCreated) false (Some "Internal Server Error")
                    (mkTypingState false None None),
        mkCreateTicketResult false None (Some "Internal Server Error")).
Proof.
  split; [|split].
  - refine (proj1 (createTicket_records_the_ticket_id (fun _ => internalErrorNetwork)
                     exampleChatOpen exampleWorld) _).
    right. eexists. split; [reflexivity|]. vm_compute. reflexivity.
  - refine (proj1 (proj2 (createTicket_records_the_ticket_id
                            (fun _ => successNetwork (mkCreateTicketResponse exampleTicket))
                            exampleChatCompleted exampleWorld)
                         exampleCreated _ _)
                  (mkCreateTicketResponse exampleTicket) _).
    + reflexivity.
    + reflexivity.
    + vm_compute. reflexivity.
  - refine (proj2 (proj2 (createTicket_records_the_ticket_id
                            (fun _ => internalErrorNetwork)
                            exampleChatCompleted exampleWorld)
                         exampleCreated _ _)
                  (mkApiClientError "Internal Server Error" INTERNAL_ERROR None None
                                    (Some 500%Z)) _).
    + reflexivity.
    + reflexivity.
    + vm_compute. reflexivity.
Defined.
